(** * Task dispatch and delivery tracking of the WhatsApp API backend

    A shallow embedding of the pipeline that hands persisted tasks to a
    device (pull model: [MobZapService.fetchTasks], [TaskController.getTasks];
    push model: the Bull message worker), reconciles the device's callbacks
    ([MobZapService.processCallback], [TaskController.updateTaskStatus]) and
    fans events out to webhooks ([triggerWebhook]).

    Conventions of the embedding:
    - a Prisma table is the list of its rows, in insertion order;
    - a JavaScript value that may be [undefined] (or [null]) is an [option];
    - [new Date()] is an explicit argument, milliseconds since the epoch;
    - a row id drawn by the database ([@default(uuid())]) is an explicit
      argument of the operation that creates the row;
    - an [async] function that may reject returns a [Res]. *)

From Stdlib Require Import List ZArith String Ascii Bool Lia.
From Stdlib Require Import Sorting.Sorted Sorting.Permutation.
Import ListNotations.

Local Open Scope string_scope.
Local Open Scope Z_scope.

(** ** JavaScript idioms used by the handlers *)

Module Js.

(** Outcome of a call that may throw (or of a promise that may reject). *)
Inductive Res (A : Type) : Type :=
| Ok (a : A)
| Throw (msg : string).
Arguments Ok {A} a.
Arguments Throw {A} msg.

(** Truthiness of an optional string: [undefined] and [''] are falsy. *)
Definition truthy (v : option string) : bool :=
  match v with
  | Some s => negb (s =? "")%string
  | None => false
  end.

(** [a || b] on optional strings. *)
Definition or_else (a b : option string) : option string :=
  if truthy a then a else b.

(** [a || d] where [d] is a string literal. *)
Definition or_default (a : option string) (d : string) : string :=
  match a with
  | Some s => if (s =? "")%string then d else s
  | None => d
  end.

(** [n || d] on an optional number: [undefined] and [0] are falsy. *)
Definition or_num (n : option Z) (d : Z) : Z :=
  match n with
  | Some v => if v =? 0 then d else v
  | None => d
  end.

(** A JSON value as far as the handlers tell values apart: [null], a
    string, an array, or any other value (a boolean, a number or an
    object), kept as its text.  None of the other values has a [replace] or
    a [map] method. *)
#[warnings="-register-all"]
Inductive JsValue :=
| JNull
| JStr (s : string)
| JArr (items : list JsValue)
| JOther (raw : string).

(** The value when it is a string; Prisma accepts nothing else for a
    [String] column. *)
Definition as_string (v : option JsValue) : option string :=
  match v with
  | Some (JStr s) => Some s
  | _ => None
  end.

Definition is_string (v : JsValue) : bool :=
  match v with JStr _ => true | _ => false end.

(** [s.toUpperCase()] on ASCII text, the only use being the comparison of
    [mediaType] with the names of [enum MessageType].  The few letters
    outside ASCII that JavaScript maps to ASCII capitals (long s, dotless
    i) are not covered. *)
Definition upper_char (c : ascii) : ascii :=
  let n := nat_of_ascii c in
  if ((97 <=? n) && (n <=? 122))%nat then ascii_of_nat (n - 32) else c.

Fixpoint toUpperCase (s : string) : string :=
  match s with
  | EmptyString => EmptyString
  | String c r => String (upper_char c) (toUpperCase r)
  end.

End Js.
Export Js.

(** ** Destination formatting ([MobZapService.formatPhoneNumber]) *)

Module Phone.

(** The class [\d]: the ten ASCII digits. *)
Definition is_digit (c : ascii) : bool :=
  let n := nat_of_ascii c in ((48 <=? n) && (n <=? 57))%nat.

(** [phone.replace(/\D/g, '')] *)
Fixpoint strip_non_digits (s : string) : string :=
  match s with
  | EmptyString => EmptyString
  | String c r =>
      if is_digit c then String c (strip_non_digits r) else strip_non_digits r
  end.

(** [s.startsWith('55')] *)
Definition startsWith55 (s : string) : bool := String.prefix "55" s.

Definition formatPhoneNumber (phone : string) : string :=
  let cleaned := strip_non_digits phone in
  if negb (startsWith55 cleaned) then "55" ++ cleaned else cleaned.

(** Every character of the string is a digit. *)
Fixpoint all_digits (s : string) : bool :=
  match s with
  | EmptyString => true
  | String c r => is_digit c && all_digits r
  end.

End Phone.

(** ** The Prisma schema: enums, rows and tables *)

Module Store.

Definition Id := string.
Definition Time := Z.
(** A [Json] value the handlers only pass around, by its serialization. *)
Definition Json := string.

Inductive DeviceType := NORMAL | BUSINESS.
Inductive DeviceStatus :=
| DEV_ACTIVE | DEV_INACTIVE | DEV_BANNED | DEV_DISCONNECTED.
Inductive TaskType :=
| MESSAGE | MEDIA | GROUP_JOIN | GROUP_LEAVE | GROUP_MESSAGE | BULK_MESSAGE
| SCHEDULED_MESSAGE.
Inductive TaskStatus := PENDING | PROCESSING | COMPLETED | FAILED | CANCELLED.
Inductive MessageType :=
| TEXT | IMAGE | VIDEO | AUDIO | DOCUMENT | LOCATION | CONTACT | STICKER.
Inductive MessageStatus := MSG_PENDING | SENT | DELIVERED | READ | MSG_FAILED.
Inductive MessageDirection := INCOMING | OUTGOING.
Inductive LicenseStatus :=
| LIC_ACTIVE | LIC_EXPIRED | LIC_SUSPENDED | LIC_CANCELLED.

Scheme Equality for DeviceStatus.
Scheme Equality for TaskType.
Scheme Equality for TaskStatus.
Scheme Equality for MessageStatus.
Scheme Equality for LicenseStatus.

(** The [data] column of a task: the fields the handlers read from it, each
    of which may be absent from the stored object.  The column is JSON that
    no handler validates, so the destination fields, on which the
    translator calls methods, hold any JSON value; the other fields are
    passed on, or compared with the names of an enum ([mediaType]), and
    are kept as the strings and numbers the requests document. *)
Record TaskData := {
  data_phoneNumber : option JsValue;
  data_message : option string;
  data_mediaUrl : option string;
  data_mediaType : option string;
  data_caption : option string;
  data_inviteLink : option string;
  data_welcomeMessage : option string;
  data_groupId : option string;
  data_phoneNumbers : option JsValue;
  data_delay : option Z
}.

Record Task := {
  t_id : Id;
  t_userId : Id;
  t_deviceId : option Id;
  t_type : TaskType;
  t_status : TaskStatus;
  t_priority : Z;
  t_scheduledAt : option Time;
  t_executedAt : option Time;
  t_completedAt : option Time;
  t_retryCount : Z;
  t_maxRetries : Z;
  t_data : TaskData;
  t_result : option Json;
  t_error : option string;
  t_createdAt : Time;
  t_updatedAt : Time
}.

(** [metadata: { messageId, ...result }] *)
Record Metadata := {
  md_messageId : option string;
  md_result : option Json
}.

Record Message := {
  m_id : Id;
  m_userId : Id;
  m_deviceId : Id;
  m_taskId : option Id;
  m_phoneNumber : string;
  m_messageType : MessageType;
  m_content : option string;
  m_mediaUrl : option string;
  m_status : MessageStatus;
  m_direction : MessageDirection;
  m_isRead : bool;
  m_deliveredAt : option Time;
  m_readAt : option Time;
  m_error : option string;
  m_metadata : option Metadata;
  m_createdAt : Time;
  m_updatedAt : Time
}.

Record Device := {
  dev_id : Id;
  dev_userId : Id;
  dev_phoneNumber : string;
  dev_deviceName : string;
  dev_deviceType : DeviceType;
  dev_status : DeviceStatus;
  dev_lastSeen : option Time;
  dev_isConnected : bool;
  dev_batteryLevel : option Z;
  dev_isCharging : option bool
}.

Record Webhook := {
  wh_id : Id;
  wh_userId : Id;
  wh_url : string;
  wh_events : list string;
  wh_secret : string;
  wh_isActive : bool;
  wh_lastTriggered : option Time;
  wh_failureCount : Z
}.

Record License := {
  lic_userId : Id;
  lic_status : LicenseStatus;
  lic_messageLimit : option Z;
  lic_expiresAt : Time
}.

(** The payload [addToQueue] hands to Bull, with the job options it sets. *)
Record Job := {
  job_name : string;
  job_taskId : Id;
  job_userId : Id;
  job_deviceId : option Id;
  job_data : TaskData;
  job_priority : Z;
  job_delay : option Z
}.

(** The database and the three Bull queues.  Of [Device], [Webhook] and
    [License] only the columns a handler of this file reads or writes are
    kept. *)
Record World := {
  tasks : list Task;
  messages : list Message;
  devices : list Device;
  webhooks : list Webhook;
  users : list Id;
  licenses : list License;
  messageQueue : list Job;
  mediaQueue : list Job;
  groupQueue : list Job
}.

Definition with_tasks (w : World) (ts : list Task) : World :=
  {| tasks := ts; messages := messages w; devices := devices w;
     webhooks := webhooks w; users := users w; licenses := licenses w;
     messageQueue := messageQueue w; mediaQueue := mediaQueue w;
     groupQueue := groupQueue w |}.

Definition with_messages (w : World) (ms : list Message) : World :=
  {| tasks := tasks w; messages := ms; devices := devices w;
     webhooks := webhooks w; users := users w; licenses := licenses w;
     messageQueue := messageQueue w; mediaQueue := mediaQueue w;
     groupQueue := groupQueue w |}.

Definition with_devices (w : World) (ds : list Device) : World :=
  {| tasks := tasks w; messages := messages w; devices := ds;
     webhooks := webhooks w; users := users w; licenses := licenses w;
     messageQueue := messageQueue w; mediaQueue := mediaQueue w;
     groupQueue := groupQueue w |}.

Definition with_webhooks (w : World) (hs : list Webhook) : World :=
  {| tasks := tasks w; messages := messages w; devices := devices w;
     webhooks := hs; users := users w; licenses := licenses w;
     messageQueue := messageQueue w; mediaQueue := mediaQueue w;
     groupQueue := groupQueue w |}.

Definition with_messageQueue (w : World) (q : list Job) : World :=
  {| tasks := tasks w; messages := messages w; devices := devices w;
     webhooks := webhooks w; users := users w; licenses := licenses w;
     messageQueue := q; mediaQueue := mediaQueue w;
     groupQueue := groupQueue w |}.

Definition with_mediaQueue (w : World) (q : list Job) : World :=
  {| tasks := tasks w; messages := messages w; devices := devices w;
     webhooks := webhooks w; users := users w; licenses := licenses w;
     messageQueue := messageQueue w; mediaQueue := q;
     groupQueue := groupQueue w |}.

Definition with_groupQueue (w : World) (q : list Job) : World :=
  {| tasks := tasks w; messages := messages w; devices := devices w;
     webhooks := webhooks w; users := users w; licenses := licenses w;
     messageQueue := messageQueue w; mediaQueue := mediaQueue w;
     groupQueue := q |}.

(** *** Prisma's row operations *)

(** [update({ where, data })] on the rows a predicate selects. *)
Definition update_where {A : Type} (sel : A -> bool) (f : A -> A)
  (rows : list A) : list A :=
  map (fun r => if sel r then f r else r) rows.

(** [update({ where: { id }, data })] rejects when no row has the id. *)
Definition update_or_throw {A : Type} (sel : A -> bool) (f : A -> A)
  (rows : list A) : Res (list A) :=
  if existsb sel rows then Ok (update_where sel f rows)
  else Throw "Record to update not found".

(** The [data] object of a task update: an absent key leaves the column
    alone.  [tp_completedAt] distinguishes a key set to [null]
    ([Some None]) from an absent key ([None]).  Every update stamps
    [updatedAt] ([@updatedAt]). *)
Record TaskPatch := {
  tp_status : option TaskStatus;
  tp_executedAt : option Time;
  tp_completedAt : option (option Time);
  tp_result : option Json;
  tp_error : option string;
  tp_retryIncrement : bool
}.

Definition keep {A : Type} (old : A) (new : option A) : A :=
  match new with Some v => v | None => old end.

Definition keep_opt {A : Type} (old : option A) (new : option A) : option A :=
  match new with Some v => Some v | None => old end.

Definition patch_task (now : Time) (p : TaskPatch) (t : Task) : Task :=
  {| t_id := t_id t;
     t_userId := t_userId t;
     t_deviceId := t_deviceId t;
     t_type := t_type t;
     t_status := keep (t_status t) (tp_status p);
     t_priority := t_priority t;
     t_scheduledAt := t_scheduledAt t;
     t_executedAt := keep_opt (t_executedAt t) (tp_executedAt p);
     t_completedAt := keep (t_completedAt t) (tp_completedAt p);
     t_retryCount :=
       if tp_retryIncrement p then t_retryCount t + 1 else t_retryCount t;
     t_maxRetries := t_maxRetries t;
     t_data := t_data t;
     t_result := keep_opt (t_result t) (tp_result p);
     t_error := keep_opt (t_error t) (tp_error p);
     t_createdAt := t_createdAt t;
     t_updatedAt := now |}.

Record MessagePatch := {
  mp_status : option MessageStatus;
  mp_deliveredAt : option Time;
  mp_readAt : option Time;
  mp_error : option string;
  mp_metadata : option Metadata
}.

Definition patch_message (now : Time) (p : MessagePatch) (m : Message)
  : Message :=
  {| m_id := m_id m;
     m_userId := m_userId m;
     m_deviceId := m_deviceId m;
     m_taskId := m_taskId m;
     m_phoneNumber := m_phoneNumber m;
     m_messageType := m_messageType m;
     m_content := m_content m;
     m_mediaUrl := m_mediaUrl m;
     m_status := keep (m_status m) (mp_status p);
     m_direction := m_direction m;
     m_isRead := m_isRead m;
     m_deliveredAt := keep_opt (m_deliveredAt m) (mp_deliveredAt p);
     m_readAt := keep_opt (m_readAt m) (mp_readAt p);
     m_error := keep_opt (m_error m) (mp_error p);
     m_metadata := keep_opt (m_metadata m) (mp_metadata p);
     m_createdAt := m_createdAt m;
     m_updatedAt := now |}.

Definition opt_id_eqb (a : option Id) (b : Id) : bool :=
  match a with Some x => (x =? b)%string | None => false end.

Definition task_has_id (id : Id) (t : Task) : bool := (t_id t =? id)%string.
Definition message_has_id (id : Id) (m : Message) : bool :=
  (m_id m =? id)%string.

(** [prisma.task.update({ where: { id }, data })] *)
Definition task_update (now : Time) (id : Id) (p : TaskPatch) (w : World)
  : Res World :=
  match update_or_throw (task_has_id id) (patch_task now p) (tasks w) with
  | Ok ts => Ok (with_tasks w ts)
  | Throw e => Throw e
  end.

(** [prisma.message.update({ where: { id }, data })] *)
Definition message_update (now : Time) (id : Id) (p : MessagePatch)
  (w : World) : Res World :=
  match update_or_throw (message_has_id id) (patch_message now p)
          (messages w) with
  | Ok ms => Ok (with_messages w ms)
  | Throw e => Throw e
  end.

(** The [data] object of [prisma.message.create]: [deviceId],
    [phoneNumber] and [messageType] are required columns without a default,
    so the create rejects when the handler passes [undefined] or [null]. *)
Record MessageInput := {
  mi_userId : Id;
  mi_deviceId : option Id;
  mi_taskId : option Id;
  mi_phoneNumber : option string;
  mi_messageType : option MessageType;
  mi_content : option string;
  mi_mediaUrl : option string;
  mi_status : option MessageStatus;
  mi_direction : option MessageDirection;
  mi_deliveredAt : option Time
}.

(** [prisma.message.create({ data })]: the row gets the id [newId] the
    database draws; the primary key rejects an id already in the table,
    and a required column that is absent, or not of the column's type, is
    a validation error.
    The schema's defaults fill the absent columns ([status] PENDING,
    [direction] OUTGOING, [isRead] false). *)
Definition message_create (now : Time) (newId : Id) (d : MessageInput)
  (w : World) : Res (Message * World) :=
  match mi_deviceId d, mi_phoneNumber d, mi_messageType d with
  | Some dev, Some phone, Some ty =>
      if existsb (message_has_id newId) (messages w)
      then Throw "Unique constraint failed on the fields: (id)"
      else
        let m := {| m_id := newId;
                    m_userId := mi_userId d;
                    m_deviceId := dev;
                    m_taskId := mi_taskId d;
                    m_phoneNumber := phone;
                    m_messageType := ty;
                    m_content := mi_content d;
                    m_mediaUrl := mi_mediaUrl d;
                    m_status := keep MSG_PENDING (mi_status d);
                    m_direction := keep OUTGOING (mi_direction d);
                    m_isRead := false;
                    m_deliveredAt := mi_deliveredAt d;
                    m_readAt := None;
                    m_error := None;
                    m_metadata := None;
                    m_createdAt := now;
                    m_updatedAt := now |} in
        Ok (m, with_messages w (messages w ++ [m]))
  | _, _, _ => Throw "Invalid prisma.message.create() invocation"
  end.

(** The [where] and [orderBy] of the pending-task query shared by
    [fetchTasks] and [getTasks]:
    [status: 'PENDING', OR: [{scheduledAt: null}, {scheduledAt: {lte: now}}]]
    for one user and device. *)
Definition due (now : Time) (t : Task) : bool :=
  match t_scheduledAt t with
  | None => true
  | Some s => s <=? now
  end.

Definition eligible (now : Time) (userId deviceId : Id) (t : Task) : bool :=
  (t_userId t =? userId)%string
  && opt_id_eqb (t_deviceId t) deviceId
  && TaskStatus_beq (t_status t) PENDING
  && due now t.

(** [orderBy: [{ priority: 'desc' }, { createdAt: 'asc' }]]: [before a b]
    holds when [a] does not come after [b]. *)
Definition before (a b : Task) : bool :=
  (t_priority b <? t_priority a)
  || ((t_priority a =? t_priority b) && (t_createdAt a <=? t_createdAt b)).

(** Stable insertion sort: rows the ordering does not separate keep their
    table order. *)
Fixpoint insert_by {A : Type} (le : A -> A -> bool) (x : A) (l : list A)
  : list A :=
  match l with
  | [] => [x]
  | y :: r => if le x y then x :: y :: r else y :: insert_by le x r
  end.

Fixpoint orderBy {A : Type} (le : A -> A -> bool) (l : list A) : list A :=
  match l with
  | [] => []
  | x :: r => insert_by le x (orderBy le r)
  end.

(** [prisma.task.findMany({ where, orderBy, take: 10 })] *)
Definition find_pending (now : Time) (userId deviceId : Id) (w : World)
  : list Task :=
  firstn 10 (orderBy before (filter (eligible now userId deviceId) (tasks w))).

End Store.

(** ** Webhook fan-out ([src/services/webhook.service.ts]) *)

Module WebhookService.
Import Store.

(** [parseInt(process.env.WEBHOOK_MAX_RETRIES || '3')] when the variable is
    not set; the handlers below take the parsed value as [maxRetries]. *)
Definition default_max_retries : Z := 3.

(** [where: { userId, isActive: true, events: { has: event } }] *)
Definition subscribed (userId : Id) (event : string) (h : Webhook) : bool :=
  (wh_userId h =? userId)%string
  && wh_isActive h
  && existsb (String.eqb event) (wh_events h).

Definition webhook_has_id (id : Id) (h : Webhook) : bool :=
  (wh_id h =? id)%string.

(** [data: { lastTriggered: new Date(), failureCount: 0 }] *)
Definition reset_failures (now : Time) (h : Webhook) : Webhook :=
  {| wh_id := wh_id h; wh_userId := wh_userId h; wh_url := wh_url h;
     wh_events := wh_events h; wh_secret := wh_secret h;
     wh_isActive := wh_isActive h;
     wh_lastTriggered := Some now;
     wh_failureCount := 0 |}.

(** [data: { failureCount: { increment: 1 } }] *)
Definition increment_failures (h : Webhook) : Webhook :=
  {| wh_id := wh_id h; wh_userId := wh_userId h; wh_url := wh_url h;
     wh_events := wh_events h; wh_secret := wh_secret h;
     wh_isActive := wh_isActive h;
     wh_lastTriggered := wh_lastTriggered h;
     wh_failureCount := wh_failureCount h + 1 |}.

(** [data: { isActive: false }] *)
Definition deactivate (h : Webhook) : Webhook :=
  {| wh_id := wh_id h; wh_userId := wh_userId h; wh_url := wh_url h;
     wh_events := wh_events h; wh_secret := wh_secret h;
     wh_isActive := false;
     wh_lastTriggered := wh_lastTriggered h;
     wh_failureCount := wh_failureCount h |}.

(** The body of the [for] loop for the row [webhook] as the query returned
    it.  [post webhook] tells whether [axios.post] resolved (a 2xx answer
    within the timeout) or threw.  The test that disables the webhook reads
    [webhook.failureCount], the value fetched before the increment. *)
Definition deliver (maxRetries : Z) (post : Webhook -> bool) (now : Time)
  (table : list Webhook) (webhook : Webhook) : list Webhook :=
  let mine := webhook_has_id (wh_id webhook) in
  if post webhook then update_where mine (reset_failures now) table
  else
    let table1 := update_where mine increment_failures table in
    if maxRetries <=? wh_failureCount webhook
    then update_where mine deactivate table1
    else table1.

(** The webhooks a call of [triggerWebhook] posts to. *)
Definition targets (userId : Id) (event : string) (w : World) : list Webhook :=
  filter (subscribed userId event) (webhooks w).

Definition triggerWebhook (maxRetries : Z) (post : Webhook -> bool)
  (now : Time) (userId : Id) (event : string) (w : World) : World :=
  with_webhooks w
    (fold_left (deliver maxRetries post now) (targets userId event w)
       (webhooks w)).

End WebhookService.

(** ** The device shim ([src/services/mobzap.service.ts]) *)

Module MobZapService.
Import Store Phone.

Inductive InstructionType := chat | media | group | group_message | bulk.
Inductive Package := normal | business.
Inductive ActionChat := send | join | leave.

(** [interface MobZapTask]; the objects [TaskController.getTasks] answers
    with have the same keys. *)
Record MobZapTask := {
  mz_id : Id;
  mz_type : InstructionType;
  mz_package : Package;
  mz_number : option JsValue;
  mz_numbers : option JsValue;
  mz_text : option string;
  mz_url : option string;
  mz_mediaType : option string;
  mz_link : option string;
  mz_groupId : option string;
  mz_actionChat : option ActionChat;
  mz_delay : option Z
}.

(** [interface MobZapDevice], the body of a fetch request. *)
Record MobZapDevice := {
  phone_normal : option string;
  phone_business : option string;
  battery_level : option Z;
  is_charging : option bool;
  device_model : option string
}.

Inductive CallbackStatus := cb_completed | cb_failed | cb_processing.

Record DeliveryInfo := {
  di_delivered : bool;
  di_read : bool;
  di_deliveredAt : option Time;
  di_readAt : option Time
}.

(** [interface MobZapCallback] *)
Record MobZapCallback := {
  cb_taskId : Id;
  cb_status : CallbackStatus;
  cb_result : option Json;
  cb_error : option string;
  cb_messageId : option string;
  cb_timestamp : string;
  cb_deliveryInfo : option DeliveryInfo
}.

(** [deviceType.toLowerCase() as 'normal' | 'business'] *)
Definition package_of (d : DeviceType) : Package :=
  match d with NORMAL => normal | BUSINESS => business end.

(** [{ ...baseTask }] before the case adds its keys. *)
Definition baseTask (id : Id) (ty : InstructionType) (d : DeviceType)
  : MobZapTask :=
  {| mz_id := id; mz_type := ty; mz_package := package_of d;
     mz_number := None; mz_numbers := None; mz_text := None; mz_url := None;
     mz_mediaType := None; mz_link := None; mz_groupId := None;
     mz_actionChat := None; mz_delay := None |}.

Definition type_name (ty : TaskType) : string :=
  match ty with
  | MESSAGE => "MESSAGE" | MEDIA => "MEDIA" | GROUP_JOIN => "GROUP_JOIN"
  | GROUP_LEAVE => "GROUP_LEAVE" | GROUP_MESSAGE => "GROUP_MESSAGE"
  | BULK_MESSAGE => "BULK_MESSAGE" | SCHEDULED_MESSAGE => "SCHEDULED_MESSAGE"
  end.

Definition undefined_replace : string :=
  "TypeError: Cannot read properties of undefined (reading 'replace')".
Definition null_replace : string :=
  "TypeError: Cannot read properties of null (reading 'replace')".
Definition no_replace : string :=
  "TypeError: phone.replace is not a function".
Definition undefined_map : string :=
  "TypeError: Cannot read properties of undefined (reading 'map')".
Definition null_map : string :=
  "TypeError: Cannot read properties of null (reading 'map')".
Definition no_map : string :=
  "TypeError: data.phoneNumbers.map is not a function".
Definition null_id : string :=
  "TypeError: Cannot read properties of null (reading 'id')".

(** [this.formatPhoneNumber(v)] on whatever the payload holds: the call of
    [phone.replace] throws unless [v] is a string. *)
Definition format_destination (v : option JsValue) : Res string :=
  match v with
  | None => Throw undefined_replace
  | Some JNull => Throw null_replace
  | Some (JStr phone) => Ok (formatPhoneNumber phone)
  | Some (JArr _) | Some (JOther _) => Throw no_replace
  end.

(** [items.map((n) => this.formatPhoneNumber(n))]: the first element that
    cannot be formatted ends the loop. *)
Fixpoint format_all (items : list JsValue) : Res (list string) :=
  match items with
  | [] => Ok []
  | n :: rest =>
      match format_destination (Some n) with
      | Throw e => Throw e
      | Ok phone =>
          match format_all rest with
          | Throw e => Throw e
          | Ok phones => Ok (phone :: phones)
          end
      end
  end.

(** [data.phoneNumbers.map(...)]: only an array has [map]. *)
Definition format_destinations (v : option JsValue) : Res (list string) :=
  match v with
  | None => Throw undefined_map
  | Some JNull => Throw null_map
  | Some (JArr items) => format_all items
  | Some (JStr _) | Some (JOther _) => Throw no_map
  end.

(** [convertToMobZapFormat(task, deviceType)]: the lines it hands to
    [logger.warn], and what it returns ([null] is [Ok None]) or throws.
    It checks no field: the only failures are the [TypeError]s of
    [formatPhoneNumber] and of [data.phoneNumbers.map]. *)
Definition convertToMobZapFormat (task : Task) (deviceType : DeviceType)
  : list string * Res (option MobZapTask) :=
  let data := t_data task in
  let base := baseTask (t_id task) in
  match t_type task with
  | MESSAGE =>
      match format_destination (data_phoneNumber data) with
      | Throw e => ([], Throw e)
      | Ok number =>
          let b := base chat deviceType in
          ([], Ok (Some
            {| mz_id := mz_id b; mz_type := chat; mz_package := mz_package b;
               mz_number := Some (JStr number);
               mz_numbers := None;
               mz_text := data_message data;
               mz_url := None; mz_mediaType := None; mz_link := None;
               mz_groupId := None;
               mz_actionChat := Some send;
               mz_delay := None |}))
      end
  | MEDIA =>
      match format_destination (data_phoneNumber data) with
      | Throw e => ([], Throw e)
      | Ok number =>
          let b := base media deviceType in
          ([], Ok (Some
            {| mz_id := mz_id b; mz_type := media; mz_package := mz_package b;
               mz_number := Some (JStr number);
               mz_numbers := None;
               mz_text := Some (or_default (data_caption data) "");
               mz_url := data_mediaUrl data;
               mz_mediaType := Some (or_default (data_mediaType data) "image");
               mz_link := None; mz_groupId := None; mz_actionChat := None;
               mz_delay := None |}))
      end
  | GROUP_JOIN =>
      let b := base group deviceType in
      ([], Ok (Some
        {| mz_id := mz_id b; mz_type := group; mz_package := mz_package b;
           mz_number := None; mz_numbers := None;
           mz_text := Some (or_default (data_welcomeMessage data) "");
           mz_url := None; mz_mediaType := None;
           mz_link := data_inviteLink data;
           mz_groupId := None;
           mz_actionChat := Some join;
           mz_delay := None |}))
  | GROUP_LEAVE =>
      let b := base group deviceType in
      ([], Ok (Some
        {| mz_id := mz_id b; mz_type := group; mz_package := mz_package b;
           mz_number := None; mz_numbers := None; mz_text := None;
           mz_url := None; mz_mediaType := None; mz_link := None;
           mz_groupId := data_groupId data;
           mz_actionChat := Some leave;
           mz_delay := None |}))
  | GROUP_MESSAGE =>
      let b := base group_message deviceType in
      ([], Ok (Some
        {| mz_id := mz_id b; mz_type := group_message;
           mz_package := mz_package b;
           mz_number := None; mz_numbers := None;
           mz_text := data_message data;
           mz_url := None; mz_mediaType := None; mz_link := None;
           mz_groupId := data_groupId data;
           mz_actionChat := None; mz_delay := None |}))
  | BULK_MESSAGE =>
      match format_destinations (data_phoneNumbers data) with
      | Throw e => ([], Throw e)
      | Ok numbers =>
          let b := base bulk deviceType in
          ([], Ok (Some
            {| mz_id := mz_id b; mz_type := bulk; mz_package := mz_package b;
               mz_number := None;
               mz_numbers := Some (JArr (map JStr numbers));
               mz_text := data_message data;
               mz_url := None; mz_mediaType := None; mz_link := None;
               mz_groupId := None; mz_actionChat := None;
               mz_delay := Some (or_num (data_delay data) 5000) |}))
      end
  | SCHEDULED_MESSAGE =>
      (["Unknown task type: " ++ type_name (t_type task)], Ok None)
  end.

(** [data: { status: 'PROCESSING', executedAt: new Date() }] *)
Definition claim_patch (stamp : Time) : TaskPatch :=
  {| tp_status := Some PROCESSING; tp_executedAt := Some stamp;
     tp_completedAt := None; tp_result := None; tp_error := None;
     tp_retryIncrement := false |}.

(** The update [fetchTasks] issues for one task of the batch. *)
Definition claim (stamp : Time) (w : World) (t : Task) : World :=
  with_tasks w
    (update_where (task_has_id (t_id t)) (patch_task stamp (claim_patch stamp))
       (tasks w)).

(** [Promise.all]: the first rejection, or all the values. *)
Fixpoint promise_all {A : Type} (rs : list (Res A)) : Res (list A) :=
  match rs with
  | [] => Ok []
  | Throw e :: _ => Throw e
  | Ok a :: r =>
      match promise_all r with
      | Ok l => Ok (a :: l)
      | Throw e => Throw e
      end
  end.

(** [mobzapTasks.map(t => t.id)], the argument of [cache.set]: reading
    [id] of a [null] entry throws. *)
Fixpoint ids_for_cache (l : list (option MobZapTask)) : Res (list Id) :=
  match l with
  | [] => Ok []
  | None :: _ => Throw null_id
  | Some t :: r =>
      match ids_for_cache r with
      | Ok ids => Ok (mz_id t :: ids)
      | Throw e => Throw e
      end
  end.

(** [mobzapTasks.filter(Boolean)] *)
Fixpoint filter_Boolean {A : Type} (l : list (option A)) : list A :=
  match l with
  | [] => []
  | Some a :: r => a :: filter_Boolean r
  | None :: r => filter_Boolean r
  end.

Definition device_has_id (id : Id) (d : Device) : bool :=
  (dev_id d =? id)%string.

(** The device the request identifies: found by [(userId, phoneNumber)]
    and refreshed, or auto-registered under the id [newId].  The schema
    makes [phoneNumber] unique over all devices. *)
Definition find_or_register (now : Time) (newId : Id) (userId : Id)
  (phone : string) (deviceData : MobZapDevice) (w : World)
  : Res (Device * World) :=
  match find (fun d => (dev_userId d =? userId)%string
                       && (dev_phoneNumber d =? phone)%string) (devices w) with
  | Some device =>
      let refresh (d : Device) : Device :=
        {| dev_id := dev_id d; dev_userId := dev_userId d;
           dev_phoneNumber := dev_phoneNumber d;
           dev_deviceName := dev_deviceName d;
           dev_deviceType := dev_deviceType d;
           dev_status := DEV_ACTIVE;
           dev_lastSeen := Some now;
           dev_isConnected := true;
           dev_batteryLevel :=
             keep_opt (dev_batteryLevel d) (battery_level deviceData);
           dev_isCharging :=
             keep_opt (dev_isCharging d) (is_charging deviceData) |} in
      Ok (device,
          with_devices w
            (update_where (device_has_id (dev_id device)) refresh (devices w)))
  | None =>
      if existsb (fun d => (dev_phoneNumber d =? phone)%string) (devices w)
      then Throw "Unique constraint failed on the fields: (phoneNumber)"
      else if existsb (device_has_id newId) (devices w)
      then Throw "Unique constraint failed on the fields: (id)"
      else
        let device :=
          {| dev_id := newId; dev_userId := userId;
             dev_phoneNumber := phone;
             dev_deviceName :=
               "MobZap " ++ or_default (device_model deviceData) "Device";
             dev_deviceType :=
               if truthy (phone_business deviceData) then BUSINESS else NORMAL;
             dev_status := DEV_ACTIVE;
             dev_lastSeen := Some now;
             dev_isConnected := true;
             dev_batteryLevel := battery_level deviceData;
             dev_isCharging := is_charging deviceData |} in
        Ok (device, with_devices w (devices w ++ [device]))
  end.

(** [fetchTasks(userId, deviceData)].  [now] is the clock reading of the
    query ([lastSeen], [scheduledAt <= now]); [stamp] the later reading
    written to [executedAt].  Every task of the batch is updated before its
    conversion is attempted, so a conversion that throws leaves the whole
    batch PROCESSING.  The in-memory session map and the Redis cache are
    written and never read back by the handlers of this file; of
    [cache.set] only the evaluation of its argument is kept. *)
Definition fetchTasks (now stamp : Time) (newDeviceId : Id) (userId : Id)
  (deviceData : MobZapDevice) (w : World) : Res (list MobZapTask) * World :=
  match or_else (phone_normal deviceData) (phone_business deviceData) with
  | None => (Throw "Phone number required", w)
  | Some phoneNumber =>
      if (phoneNumber =? "")%string then (Throw "Phone number required", w)
      else
        match find_or_register now newDeviceId userId phoneNumber
                deviceData w with
        | Throw e => (Throw e, w)
        | Ok (device, w1) =>
            let batch := find_pending now userId (dev_id device) w1 in
            let w2 := fold_left (claim stamp) batch w1 in
            let converted :=
              map (fun task =>
                     snd (convertToMobZapFormat task (dev_deviceType device)))
                batch in
            match promise_all converted with
            | Throw e => (Throw e, w2)
            | Ok mobzapTasks =>
                match ids_for_cache mobzapTasks with
                | Throw e => (Throw e, w2)
                | Ok _ => (Ok (filter_Boolean mobzapTasks), w2)
                end
            end
        end
  end.

Inductive CallbackOutcome := TaskNotFound | CallbackProcessed.

(** [status === 'completed' ? 'COMPLETED' : status === 'failed' ? 'FAILED'
    : 'PROCESSING'] *)
Definition task_status_of (s : CallbackStatus) : TaskStatus :=
  match s with
  | cb_completed => COMPLETED
  | cb_failed => FAILED
  | cb_processing => PROCESSING
  end.

(** [updateData] of [processCallback]. *)
Definition callback_patch (now : Time) (callback : MobZapCallback)
  : TaskPatch :=
  {| tp_status := Some (task_status_of (cb_status callback));
     tp_executedAt := None;
     tp_completedAt :=
       match cb_status callback with
       | cb_completed => Some (Some now)
       | _ => None
       end;
     tp_result := cb_result callback;
     tp_error := cb_error callback;
     tp_retryIncrement := false |}.

(** [taskData.mediaType?.toUpperCase()] as a value of [enum MessageType]. *)
Definition message_type_of_string (s : string) : option MessageType :=
  if (s =? "TEXT")%string then Some TEXT
  else if (s =? "IMAGE")%string then Some IMAGE
  else if (s =? "VIDEO")%string then Some VIDEO
  else if (s =? "AUDIO")%string then Some AUDIO
  else if (s =? "DOCUMENT")%string then Some DOCUMENT
  else if (s =? "LOCATION")%string then Some LOCATION
  else if (s =? "CONTACT")%string then Some CONTACT
  else if (s =? "STICKER")%string then Some STICKER
  else None.

(** The [data] of the [prisma.message.create] in [processCallback]. *)
Definition callback_message_input (userId : Id) (task : Task) : MessageInput :=
  let taskData := t_data task in
  {| mi_userId := userId;
     mi_deviceId := t_deviceId task;
     mi_taskId := Some (t_id task);
     mi_phoneNumber := as_string (data_phoneNumber taskData);
     mi_messageType :=
       match t_type task with
       | MEDIA =>
           match data_mediaType taskData with
           | Some s => message_type_of_string (toUpperCase s)
           | None => None
           end
       | _ => Some TEXT
       end;
     mi_content := or_else (data_message taskData) (data_caption taskData);
     mi_mediaUrl := data_mediaUrl taskData;
     mi_status := Some MSG_PENDING;
     mi_direction := Some OUTGOING;
     mi_deliveredAt := None |}.

(** [deliveryInfo?.delivered] *)
Definition delivered (callback : MobZapCallback) : bool :=
  match cb_deliveryInfo callback with
  | Some di => di_delivered di
  | None => false
  end.

(** The [data] of the message update, by callback status; a progress
    callback updates nothing. *)
Definition callback_message_patch (now : Time) (callback : MobZapCallback)
  : option MessagePatch :=
  match cb_status callback with
  | cb_completed =>
      Some {| mp_status :=
                Some (if delivered callback then DELIVERED else SENT);
              mp_deliveredAt :=
                Some (match cb_deliveryInfo callback with
                      | Some di => keep now (di_deliveredAt di)
                      | None => now
                      end);
              mp_readAt :=
                match cb_deliveryInfo callback with
                | Some di => di_readAt di
                | None => None
                end;
              mp_error := None;
              mp_metadata :=
                Some {| md_messageId := cb_messageId callback;
                        md_result := cb_result callback |} |}
  | cb_failed =>
      Some {| mp_status := Some MSG_FAILED;
              mp_deliveredAt := None; mp_readAt := None;
              mp_error := cb_error callback;
              mp_metadata := None |}
  | cb_processing => None
  end.

Definition is_message_task (task : Task) : bool :=
  match t_type task with
  | MESSAGE | MEDIA => true
  | _ => false
  end.

(** [where: { id: taskId, userId }] *)
Definition owned_task (taskId userId : Id) (t : Task) : bool :=
  (t_id t =? taskId)%string && (t_userId t =? userId)%string.

(** [where: { taskId }] *)
Definition message_of_task (taskId : Id) (m : Message) : bool :=
  opt_id_eqb (m_taskId m) taskId.

(** The message branch of [processCallback], after the task update. *)
Definition reconcile_message (now : Time) (newMessageId : Id) (userId : Id)
  (task : Task) (callback : MobZapCallback) (w : World)
  : Res CallbackOutcome * World :=
  let found :=
    match find (message_of_task (cb_taskId callback)) (messages w) with
    | Some message => Ok (message, w)
    | None =>
        message_create now newMessageId (callback_message_input userId task) w
    end in
  match found with
  | Throw e => (Throw e, w)
  | Ok (message, w1) =>
      match callback_message_patch now callback with
      | None => (Ok CallbackProcessed, w1)
      | Some p =>
          (Ok CallbackProcessed,
           with_messages w1
             (update_where (message_has_id (m_id message))
                (patch_message now p) (messages w1)))
      end
  end.

(** [processCallback(userId, callback)].  The private [triggerWebhook] of
    the service has an empty body, so the call at the end changes nothing. *)
Definition processCallback (now : Time) (newMessageId : Id) (userId : Id)
  (callback : MobZapCallback) (w : World) : Res CallbackOutcome * World :=
  let taskId := cb_taskId callback in
  match find (owned_task taskId userId) (tasks w) with
  | None => (Ok TaskNotFound, w)
  | Some task =>
      let w1 :=
        with_tasks w
          (update_where (task_has_id taskId)
             (patch_task now (callback_patch now callback)) (tasks w)) in
      if is_message_task task
      then reconcile_message now newMessageId userId task callback w1
      else (Ok CallbackProcessed, w1)
  end.

End MobZapService.

(** ** The Bull queues ([src/services/queue.service.ts]) *)

Module QueueService.
Import Store WebhookService.

Definition job_of (name : string) (task : Task) (delay : option Z) : Job :=
  {| job_name := name;
     job_taskId := t_id task;
     job_userId := t_userId task;
     job_deviceId := t_deviceId task;
     job_data := t_data task;
     job_priority := t_priority task;
     job_delay := delay |}.

(** [await queue.add(name, queueData, opts)]: the job is appended to the
    queue, or the promise rejects with the error of the Redis client.
    [added] is the outcome of the call, which this code does not choose. *)
Definition queue_add (added : Res unit) (queue : list Job) (job : Job)
  : Res (list Job) :=
  match added with
  | Ok _ => Ok (queue ++ [job])%list
  | Throw e => Throw e
  end.

(** [addToQueue(task)]: the job is appended to the queue of the task's
    type; an unknown type is only logged.  Nothing catches a rejection of
    [queue.add]. *)
Definition addToQueue (added : Res unit) (task : Task) (w : World)
  : Res World :=
  match t_type task with
  | MESSAGE | BULK_MESSAGE =>
      match queue_add added (messageQueue w)
              (job_of "process-message" task (Some 0)) with
      | Ok q => Ok (with_messageQueue w q)
      | Throw e => Throw e
      end
  | MEDIA =>
      match queue_add added (mediaQueue w)
              (job_of "process-media" task None) with
      | Ok q => Ok (with_mediaQueue w q)
      | Throw e => Throw e
      end
  | GROUP_JOIN | GROUP_LEAVE | GROUP_MESSAGE =>
      match queue_add added (groupQueue w)
              (job_of "process-group" task None) with
      | Ok q => Ok (with_groupQueue w q)
      | Throw e => Throw e
      end
  | SCHEDULED_MESSAGE => Ok w
  end.

(** [data: { status: 'COMPLETED', completedAt: new Date(), result }] *)
Definition completed_patch (now : Time) (result : Json) : TaskPatch :=
  {| tp_status := Some COMPLETED; tp_executedAt := None;
     tp_completedAt := Some (Some now); tp_result := Some result;
     tp_error := None; tp_retryIncrement := false |}.

(** [data: { status: 'FAILED', error: error.message,
             retryCount: { increment: 1 } }] *)
Definition failed_patch (message : string) : TaskPatch :=
  {| tp_status := Some FAILED; tp_executedAt := None;
     tp_completedAt := None; tp_result := None;
     tp_error := Some message; tp_retryIncrement := true |}.

(** The [data] of the message the worker records after the send. *)
Definition sent_message_input (job : Job) (now : Time) : MessageInput :=
  {| mi_userId := job_userId job;
     mi_deviceId := job_deviceId job;
     mi_taskId := Some (job_taskId job);
     mi_phoneNumber := as_string (data_phoneNumber (job_data job));
     mi_messageType := Some TEXT;
     mi_content := data_message (job_data job);
     mi_mediaUrl := None;
     mi_status := Some SENT;
     mi_direction := None;
     mi_deliveredAt := Some now |}.

Section Worker.

(** [sendWhatsAppMessage(deviceId, data)], the transport: it resolves with
    a result or rejects with an error message. *)
Variable sendWhatsAppMessage : option Id -> TaskData -> Res Json.
Variable maxRetries : Z.
Variable post : Webhook -> bool.

(** The [try] block of the processor of [messageQueue]. *)
Definition process_try (now : Time) (newMessageId : Id) (job : Job)
  (w : World) : Res Json * World :=
  match task_update now (job_taskId job) (MobZapService.claim_patch now) w with
  | Throw e => (Throw e, w)
  | Ok w1 =>
      match sendWhatsAppMessage (job_deviceId job) (job_data job) with
      | Throw e => (Throw e, w1)
      | Ok result =>
          match task_update now (job_taskId job)
                  (completed_patch now result) w1 with
          | Throw e => (Throw e, w1)
          | Ok w2 =>
              match message_create now newMessageId
                      (sent_message_input job now) w2 with
              | Throw e => (Throw e, w2)
              | Ok (_, w3) =>
                  (Ok result,
                   triggerWebhook maxRetries post now (job_userId job)
                     "message.sent" w3)
              end
          end
      end
  end.

(** [messageQueue.process(async (job) => ...)]: one execution of a job.
    The [catch] block marks the task FAILED and rethrows. *)
Definition process_message (now : Time) (newMessageId : Id) (job : Job)
  (w : World) : Res Json * World :=
  match process_try now newMessageId job w with
  | (Ok result, w') => (Ok result, w')
  | (Throw e, w') =>
      match task_update now (job_taskId job) (failed_patch e) w' with
      | Ok w'' => (Throw e, w'')
      | Throw e' => (Throw e', w')
      end
  end.

End Worker.

End QueueService.

(** ** The task controller ([src/controllers/task.controller.ts]) *)

Module TaskController.
Import Store WebhookService MobZapService QueueService.

(** What a handler answers: [res.status(code).json(body)] with a payload,
    [res.status(code).json({ success: false, message })], or [next(error)]. *)
Inductive Response (A : Type) : Type :=
| Json_ (code : Z) (body : A)
| Fail (code : Z) (message : string)
| NextError (message : string).
Arguments Json_ {A} code body.
Arguments Fail {A} code message.
Arguments NextError {A} message.

(** [where: { userId, phoneNumber: phone_normal || phone_business,
              status: 'ACTIVE' }]; Prisma ignores a filter whose value is
    [undefined]. *)
Definition active_device (userId : Id) (phone : option string) (d : Device)
  : bool :=
  (dev_userId d =? userId)%string
  && match phone with
     | Some p => (dev_phoneNumber d =? p)%string
     | None => true
     end
  && DeviceStatus_beq (dev_status d) DEV_ACTIVE.

(** The [switch] of [getTasks]: [null] for a type it has no case for. *)
Definition format_task (device : Device) (task : Task) : option MobZapTask :=
  let data := t_data task in
  let pkg := package_of (dev_deviceType device) in
  match t_type task with
  | MESSAGE =>
      Some {| mz_id := t_id task; mz_type := chat; mz_package := pkg;
              mz_number := data_phoneNumber data; mz_numbers := None;
              mz_text := data_message data;
              mz_url := None; mz_mediaType := None; mz_link := None;
              mz_groupId := None; mz_actionChat := Some send;
              mz_delay := None |}
  | MEDIA =>
      Some {| mz_id := t_id task; mz_type := media; mz_package := pkg;
              mz_number := data_phoneNumber data; mz_numbers := None;
              mz_text := Some (or_default (data_caption data) "");
              mz_url := data_mediaUrl data;
              mz_mediaType := data_mediaType data;
              mz_link := None; mz_groupId := None; mz_actionChat := None;
              mz_delay := None |}
  | GROUP_JOIN =>
      Some {| mz_id := t_id task; mz_type := group; mz_package := pkg;
              mz_number := None; mz_numbers := None;
              mz_text := Some (or_default (data_message data) "");
              mz_url := None; mz_mediaType := None;
              mz_link := data_inviteLink data;
              mz_groupId := None; mz_actionChat := Some join;
              mz_delay := None |}
  | GROUP_MESSAGE =>
      Some {| mz_id := t_id task; mz_type := group_message;
              mz_package := pkg;
              mz_number := None; mz_numbers := None;
              mz_text := data_message data;
              mz_url := None; mz_mediaType := None; mz_link := None;
              mz_groupId := data_groupId data; mz_actionChat := None;
              mz_delay := None |}
  | BULK_MESSAGE =>
      Some {| mz_id := t_id task; mz_type := bulk; mz_package := pkg;
              mz_number := None; mz_numbers := data_phoneNumbers data;
              mz_text := data_message data;
              mz_url := None; mz_mediaType := None; mz_link := None;
              mz_groupId := None; mz_actionChat := None;
              mz_delay := Some (or_num (data_delay data) 5000) |}
  | GROUP_LEAVE | SCHEDULED_MESSAGE => None
  end.

(** [where: { id: { in: tasks.map(t => t.id) } }] *)
Definition id_in (ids : list Id) (t : Task) : bool :=
  existsb (String.eqb (t_id t)) ids.

(** [getTasks(req, res, next)], the fetch endpoint of the mobile app. *)
Definition getTasks (now stamp : Time) (userId : Id) (body : MobZapDevice)
  (w : World) : Response (list MobZapTask) * World :=
  match find (active_device userId
                (or_else (phone_normal body) (phone_business body)))
          (devices w) with
  | None => (Fail 404 "Device not found or inactive", w)
  | Some device =>
      let seen (d : Device) : Device :=
        {| dev_id := dev_id d; dev_userId := dev_userId d;
           dev_phoneNumber := dev_phoneNumber d;
           dev_deviceName := dev_deviceName d;
           dev_deviceType := dev_deviceType d;
           dev_status := dev_status d;
           dev_lastSeen := Some now;
           dev_isConnected := true;
           dev_batteryLevel := dev_batteryLevel d;
           dev_isCharging := dev_isCharging d |} in
      let w1 :=
        with_devices w
          (update_where (device_has_id (dev_id device)) seen (devices w)) in
      let batch := find_pending now userId (dev_id device) w1 in
      let formattedTasks := filter_Boolean (map (format_task device) batch) in
      let w2 :=
        match batch with
        | [] => w1
        | _ =>
            with_tasks w1
              (update_where (id_in (map t_id batch))
                 (patch_task stamp (claim_patch stamp)) (tasks w1))
        end in
      (Json_ 200 formattedTasks, w2)
  end.

(** The body of a create request, after the parsing Express does. *)
Record CreateBody := {
  body_type : TaskType;
  body_deviceId : option Id;
  body_data : TaskData;
  body_priority : option Z;
  body_scheduledAt : option Time
}.

(** The validators of the route [POST /]:
    [body('type').isIn([...six types...])] and
    [body('priority').optional().isInt({ min: 1, max: 10 })]. *)
Definition valid_create (b : CreateBody) : bool :=
  negb (TaskType_beq (body_type b) SCHEDULED_MESSAGE)
  && match body_priority b with
     | Some p => (1 <=? p) && (p <=? 10)
     | None => true
     end.

(** [licenses: { where: { status: 'ACTIVE', expiresAt: { gt: now } } }] of
    the user, [undefined] when the user row is missing. *)
Definition active_licenses (now : Time) (userId : Id) (w : World)
  : list License :=
  if existsb (String.eqb userId) (users w)
  then filter (fun l => (lic_userId l =? userId)%string
                        && LicenseStatus_beq (lic_status l) LIC_ACTIVE
                        && (now <? lic_expiresAt l)) (licenses w)
  else [].

(** [prisma.message.count({ where: { userId, createdAt: { gte: today } } })] *)
Definition messages_since (today : Time) (userId : Id) (w : World) : Z :=
  Z.of_nat (List.length
    (filter (fun m => (m_userId m =? userId)%string
                      && (today <=? m_createdAt m)) (messages w))).

(** The row [prisma.task.create] inserts, with the schema's defaults. *)
Definition new_task (now : Time) (newId userId : Id) (b : CreateBody) : Task :=
  {| t_id := newId;
     t_userId := userId;
     t_deviceId := body_deviceId b;
     t_type := body_type b;
     t_status := PENDING;
     t_priority := or_num (body_priority b) 5;
     t_scheduledAt := body_scheduledAt b;
     t_executedAt := None;
     t_completedAt := None;
     t_retryCount := 0;
     t_maxRetries := 3;
     t_data := body_data b;
     t_result := None;
     t_error := None;
     t_createdAt := now;
     t_updatedAt := now |}.

(** [createTask(req, res, next)].  [today] is local midnight of the day of
    [now].  The task is handed to a queue only when the request carries no
    [scheduledAt]; the row is stored before that, so a rejection of
    [addToQueue] goes to [next(error)] with the task in the table. *)
Definition createTask (maxRetries : Z) (post : Webhook -> bool)
  (added : Res unit) (now today : Time) (newId userId : Id) (b : CreateBody) (w : World)
  : Response Task * World :=
  if negb (valid_create b) then (Fail 400 "validation errors", w)
  else if match body_deviceId b with
          | Some deviceId =>
              negb (existsb (fun d => (dev_id d =? deviceId)%string
                                      && (dev_userId d =? userId)%string)
                      (devices w))
          | None => false
          end
  then (Fail 404 "Device not found", w)
  else
    match active_licenses now userId w with
    | [] => (Fail 403 "No active license found", w)
    | license :: _ =>
        if match lic_messageLimit license with
           | Some limit =>
               negb (limit =? 0) && (limit <=? messages_since today userId w)
           | None => false
           end
        then (Fail 429 "Daily message limit reached", w)
        else if existsb (task_has_id newId) (tasks w)
        then (NextError "Unique constraint failed on the fields: (id)", w)
        else
          let task := new_task now newId userId b in
          let w1 := with_tasks w (tasks w ++ [task]) in
          let queued :=
            match body_scheduledAt b with
            | None => addToQueue added task w1
            | Some _ => Ok w1
            end in
          match queued with
          | Throw e => (NextError e, w1)
          | Ok w2 =>
              (Json_ 201 task,
               triggerWebhook maxRetries post now userId "task.created" w2)
          end
    end.

(** [data: { status, result, error,
             completedAt: status === 'COMPLETED' ? new Date() : null }] *)
Definition status_patch (now : Time) (status : TaskStatus)
  (result : option Json) (error : option string) : TaskPatch :=
  {| tp_status := Some status; tp_executedAt := None;
     tp_completedAt :=
       Some (if TaskStatus_beq status COMPLETED then Some now else None);
     tp_result := result; tp_error := error;
     tp_retryIncrement := false |}.

Definition status_event (status : TaskStatus) : string :=
  match status with
  | PENDING => "task.pending" | PROCESSING => "task.processing"
  | COMPLETED => "task.completed" | FAILED => "task.failed"
  | CANCELLED => "task.cancelled"
  end.

(** The [data] of the message [updateTaskStatus] records for a completed
    MESSAGE task. *)
Definition completed_message_input (userId : Id) (task : Task) (now : Time)
  : MessageInput :=
  {| mi_userId := userId;
     mi_deviceId := t_deviceId task;
     mi_taskId := Some (t_id task);
     mi_phoneNumber := as_string (data_phoneNumber (t_data task));
     mi_messageType := Some TEXT;
     mi_content := data_message (t_data task);
     mi_mediaUrl := None;
     mi_status := Some SENT;
     mi_direction := None;
     mi_deliveredAt := Some now |}.

(** [updateTaskStatus(req, res, next)], the status callback of the mobile
    app.  [status] is a value of [enum TaskStatus]: the handler does not
    consult the validators of its route. *)
Definition updateTaskStatus (maxRetries : Z) (post : Webhook -> bool)
  (now : Time) (newMessageId : Id) (userId taskId : Id) (status : TaskStatus)
  (result : option Json) (error : option string) (w : World)
  : Response Task * World :=
  match find (owned_task taskId userId) (tasks w) with
  | None => (Fail 404 "Task not found", w)
  | Some task =>
      let updatedTask := patch_task now (status_patch now status result error)
                           task in
      let w1 :=
        with_tasks w
          (update_where (task_has_id taskId)
             (patch_task now (status_patch now status result error))
             (tasks w)) in
      let recorded :=
        if TaskStatus_beq status COMPLETED && TaskType_beq (t_type task) MESSAGE
        then
          match message_create now newMessageId
                  (completed_message_input userId task now) w1 with
          | Ok (_, w2) => Ok w2
          | Throw e => Throw e
          end
        else Ok w1 in
      match recorded with
      | Throw e => (NextError e, w1)
      | Ok w2 =>
          (Json_ 200 updatedTask,
           triggerWebhook maxRetries post now userId (status_event status) w2)
      end
  end.

(** [where: { id: taskId, userId, status: 'PENDING' }] *)
Definition cancellable (taskId userId : Id) (t : Task) : bool :=
  owned_task taskId userId t && TaskStatus_beq (t_status t) PENDING.

(** [data: { status: 'CANCELLED' }] *)
Definition cancel_patch : TaskPatch :=
  {| tp_status := Some CANCELLED; tp_executedAt := None;
     tp_completedAt := None; tp_result := None; tp_error := None;
     tp_retryIncrement := false |}.

(** [cancelTask(req, res, next)] *)
Definition cancelTask (now : Time) (userId taskId : Id) (w : World)
  : Response unit * World :=
  match find (cancellable taskId userId) (tasks w) with
  | None => (Fail 404 "Task not found or cannot be cancelled", w)
  | Some _ =>
      (Json_ 200 tt,
       with_tasks w
         (update_where (task_has_id taskId) (patch_task now cancel_patch)
            (tasks w)))
  end.

End TaskController.

(** ** The [message_status] handler of the socket server *)

Module SocketServer.
Import Store.

(** [data: { status, deliveredAt: status === 'DELIVERED' ? new Date() :
    undefined, readAt: status === 'READ' ? new Date() : undefined }] *)
Definition status_update (now : Time) (status : MessageStatus) : MessagePatch :=
  {| mp_status := Some status;
     mp_deliveredAt :=
       if MessageStatus_beq status DELIVERED then Some now else None;
     mp_readAt := if MessageStatus_beq status READ then Some now else None;
     mp_error := None;
     mp_metadata := None |}.

(** [socket.on('message_status', ...)]: an update that rejects is logged
    and changes nothing. *)
Definition message_status (now : Time) (messageId : Id)
  (status : MessageStatus) (w : World) : World :=
  match message_update now messageId (status_update now status) w with
  | Ok w' => w'
  | Throw _ => w
  end.

End SocketServer.

(** ** What an operation did to the task table *)

Module Observe.
Import Store WebhookService MobZapService QueueService TaskController.

(** The rows an operation moved to PROCESSING: each pair is a row of the
    table before the operation and the same row after it. *)
Definition claimed (o n : Task) : bool :=
  negb (TaskStatus_beq (t_status o) PROCESSING)
  && TaskStatus_beq (t_status n) PROCESSING.

Definition claimed_rows (w w' : World) : list (Task * Task) :=
  filter (fun on => claimed (fst on) (snd on)) (combine (tasks w) (tasks w')).

(** The primary key of the task table. *)
Definition task_ids_unique (w : World) : Prop := NoDup (map t_id (tasks w)).

(** [a] is ahead of [b] in the dispatch order: higher priority, or the same
    priority and not created later. *)
Definition ahead (a b : Task) : Prop :=
  t_priority b < t_priority a
  \/ (t_priority a = t_priority b /\ t_createdAt a <= t_createdAt b).

(** The task is not scheduled after [time]. *)
Definition scheduled_by (time : Time) (t : Task) : Prop :=
  t_scheduledAt t = None
  \/ exists s, t_scheduledAt t = Some s /\ s <= time.

(** What a batch claim does to the table: the rows whose id is in the
    batch get the claim patch. *)
Definition claim_batch (stamp : Time) (batch : list Task) (rows : list Task)
  : list Task :=
  update_where (id_in (map t_id batch)) (patch_task stamp (claim_patch stamp))
    rows.

(** The table after a fetch: untouched, or the batch of some device
    claimed at [stamp]. *)
Definition fetched (now stamp : Time) (userId : Id) (w w' : World) : Prop :=
  tasks w' = tasks w
  \/ exists deviceId,
       tasks w' = claim_batch stamp (find_pending now userId deviceId w)
                    (tasks w).

(** The destination the conversion formats is absent or not of the shape
    the method calls need: [phoneNumber] is not a string, or [phoneNumbers]
    is not an array of strings. *)
Definition no_usable_destination (task : Task) : bool :=
  match t_type task with
  | MESSAGE | MEDIA =>
      match data_phoneNumber (t_data task) with
      | Some (JStr _) => false
      | _ => true
      end
  | BULK_MESSAGE =>
      match data_phoneNumbers (t_data task) with
      | Some (JArr items) => negb (forallb is_string items)
      | _ => true
      end
  | _ => false
  end.

(** The errors the method calls of the conversion raise. *)
Definition conversion_type_errors : list string :=
  [undefined_replace; null_replace; no_replace;
   undefined_map; null_map; no_map].

(** What a failed post leaves in the row: one more failure, and the
    webhook disabled when the count read before the increment had reached
    [maxRetries]. *)
Definition after_failure (maxRetries : Z) (seen : Webhook) (h : Webhook)
  : Webhook :=
  if maxRetries <=? wh_failureCount seen
  then deactivate (increment_failures h)
  else increment_failures h.


(** The message a callback updates: the stored one with the callback's
    patch, or the stored one itself for a progress callback. *)
Definition patched_message (now : Time) (cb : MobZapCallback) (m : Message)
  : Message :=
  match callback_message_patch now cb with
  | Some p => patch_message now p m
  | None => m
  end.

(** The message update of a callback, applied to the message [id]. *)
Definition apply_message_patch (now : Time)
  (callback : MobZapService.MobZapCallback) (id : Id) (rows : list Message)
  : list Message :=
  match MobZapService.callback_message_patch now callback with
  | Some p => update_where (message_has_id id) (patch_message now p) rows
  | None => rows
  end.

(** The task update of a callback. *)
Definition apply_task_patch (now : Time)
  (callback : MobZapService.MobZapCallback) (rows : list Task) : list Task :=
  update_where (task_has_id (MobZapService.cb_taskId callback))
    (patch_task now (MobZapService.callback_patch now callback)) rows.

(** A row without the columns that only hold a clock reading of the call
    that last wrote it. *)
Definition unstamp_task (t : Task) : Task :=
  {| t_id := t_id t; t_userId := t_userId t; t_deviceId := t_deviceId t;
     t_type := t_type t; t_status := t_status t; t_priority := t_priority t;
     t_scheduledAt := t_scheduledAt t; t_executedAt := t_executedAt t;
     t_completedAt := None;
     t_retryCount := t_retryCount t; t_maxRetries := t_maxRetries t;
     t_data := t_data t; t_result := t_result t; t_error := t_error t;
     t_createdAt := t_createdAt t;
     t_updatedAt := 0 |}.

Definition unstamp_message (m : Message) : Message :=
  {| m_id := m_id m; m_userId := m_userId m; m_deviceId := m_deviceId m;
     m_taskId := m_taskId m; m_phoneNumber := m_phoneNumber m;
     m_messageType := m_messageType m; m_content := m_content m;
     m_mediaUrl := m_mediaUrl m; m_status := m_status m;
     m_direction := m_direction m; m_isRead := m_isRead m;
     m_deliveredAt := None;
     m_readAt := m_readAt m; m_error := m_error m;
     m_metadata := m_metadata m; m_createdAt := m_createdAt m;
     m_updatedAt := 0 |}.

(** The store up to [completedAt] and [updatedAt] of the tasks and
    [deliveredAt] and [updatedAt] of the messages. *)
Definition unstamped (w : World) : World :=
  with_messages (with_tasks w (map unstamp_task (tasks w)))
    (map unstamp_message (messages w)).

End Observe.

(** ** The translator's contract, in the words of the specification *)

Module Spec.
Import Store.

(** The categories the specification lists for a task: message, media,
    group-join, group-leave, group-message and bulk-message. *)
Definition spec_recognized (ty : TaskType) : bool :=
  match ty with
  | MESSAGE | MEDIA | GROUP_JOIN | GROUP_LEAVE | GROUP_MESSAGE
  | BULK_MESSAGE => true
  | SCHEDULED_MESSAGE => false
  end.

(** The required fields the specification names: a message needs a
    destination identifier and a body text; a bulk message needs a list of
    destination identifiers, a body and an inter-send delay.  A field is
    lacking when it is absent or of the wrong shape. *)
Definition spec_lacks_required_field (t : Task) : bool :=
  let d := t_data t in
  match t_type t with
  | MESSAGE =>
      match data_phoneNumber d, data_message d with
      | Some (JStr _), Some _ => false
      | _, _ => true
      end
  | BULK_MESSAGE =>
      match data_phoneNumbers d, data_message d, data_delay d with
      | Some (JArr items), Some _, Some _ => negb (forallb is_string items)
      | _, _, _ => true
      end
  | _ => false
  end.

End Spec.

(** ** Sample data for the scenarios *)

Module Scenario.
Import Store MobZapService TaskController QueueService SocketServer.

Definition no_data : TaskData :=
  {| data_phoneNumber := None; data_message := None; data_mediaUrl := None;
     data_mediaType := None; data_caption := None; data_inviteLink := None;
     data_welcomeMessage := None; data_groupId := None;
     data_phoneNumbers := None; data_delay := None |}.

(** [{ phoneNumber, message }] *)
Definition text_data (phone body : string) : TaskData :=
  {| data_phoneNumber := Some (JStr phone); data_message := Some body;
     data_mediaUrl := None; data_mediaType := None; data_caption := None;
     data_inviteLink := None; data_welcomeMessage := None;
     data_groupId := None; data_phoneNumbers := None; data_delay := None |}.

(** [{ phoneNumber }]: a MESSAGE payload without its body text. *)
Definition phone_only (phone : string) : TaskData :=
  {| data_phoneNumber := Some (JStr phone); data_message := None;
     data_mediaUrl := None; data_mediaType := None; data_caption := None;
     data_inviteLink := None; data_welcomeMessage := None;
     data_groupId := None; data_phoneNumbers := None; data_delay := None |}.

(** [{ groupId }] *)
Definition group_data (g : string) : TaskData :=
  {| data_phoneNumber := None; data_message := None;
     data_mediaUrl := None; data_mediaType := None; data_caption := None;
     data_inviteLink := None; data_welcomeMessage := None;
     data_groupId := Some g; data_phoneNumbers := None; data_delay := None |}.

(** A task of user [u1] on device [d1], as [prisma.task.create] leaves it. *)
Definition mk_task (id : Id) (ty : TaskType) (status : TaskStatus)
  (priority : Z) (scheduledAt : option Time) (createdAt : Time)
  (data : TaskData) : Task :=
  {| t_id := id; t_userId := "u1"; t_deviceId := Some "d1"; t_type := ty;
     t_status := status; t_priority := priority;
     t_scheduledAt := scheduledAt; t_executedAt := None;
     t_completedAt := None; t_retryCount := 0; t_maxRetries := 3;
     t_data := data; t_result := None; t_error := None;
     t_createdAt := createdAt; t_updatedAt := createdAt |}.

Definition device1 : Device :=
  {| dev_id := "d1"; dev_userId := "u1"; dev_phoneNumber := "5511999887766";
     dev_deviceName := "Test Device"; dev_deviceType := NORMAL;
     dev_status := DEV_ACTIVE; dev_lastSeen := None;
     dev_isConnected := false; dev_batteryLevel := None;
     dev_isCharging := None |}.

Definition license1 : License :=
  {| lic_userId := "u1"; lic_status := LIC_ACTIVE; lic_messageLimit := None;
     lic_expiresAt := 1000000 |}.

Definition world_of (ts : list Task) (ms : list Message)
  (hs : list Webhook) : World :=
  {| tasks := ts; messages := ms; devices := [device1]; webhooks := hs;
     users := ["u1"]; licenses := [license1];
     messageQueue := []; mediaQueue := []; groupQueue := [] |}.

(** The fetch request of device [d1]. *)
Definition fetch_body : MobZapDevice :=
  {| phone_normal := Some "5511999887766"; phone_business := None;
     battery_level := Some 85; is_charging := Some false;
     device_model := None |}.

(** Three pending tasks: a low-priority one, a high-priority one and one
    scheduled for time 900. *)
Definition three_tasks : World :=
  world_of
    [ mk_task "t1" MESSAGE PENDING 5 None 10 (text_data "11999887766" "hi");
      mk_task "t2" MESSAGE PENDING 8 None 20 (text_data "11888776655" "yo");
      mk_task "t3" MESSAGE PENDING 9 (Some 900) 30
        (text_data "11777665544" "later") ]
    [] [].

(** What [fetchTasks] answers device [d1] at time 100. *)
Definition three_tasks_fetched : list MobZapTask :=
  Eval vm_compute in
    match fst (fetchTasks 100 101 "d9" "u1" fetch_body three_tasks) with
    | Ok l => l
    | Throw _ => []
    end.

(** A create request for device [d1] without [scheduledAt], and the store
    after [createTask] served it at time 50. *)
Definition create_body : CreateBody :=
  {| body_type := MESSAGE; body_deviceId := Some "d1";
     body_data := text_data "11666554433" "now";
     body_priority := Some 7; body_scheduledAt := None |}.

Definition after_create : World :=
  Eval vm_compute in
    snd (createTask 3 (fun _ => true) (Ok tt) 50 0 "t4" "u1" create_body three_tasks).

(** Twelve pending tasks of equal priority, created at times 1 to 12. *)
Definition twelve_tasks : World :=
  world_of
    (map (fun n => mk_task (String (ascii_of_nat (64 + n)) "") MESSAGE PENDING
                     5 None (Z.of_nat n) (text_data "11999887766" "hi"))
       (seq 1 12))
    [] [].

(** The completion callback of the integration test. *)
Definition completed_callback (taskId : Id) : MobZapCallback :=
  {| cb_taskId := taskId; cb_status := cb_completed;
     cb_result := Some "{messageId: msg_123}"; cb_error := None;
     cb_messageId := None; cb_timestamp := "2024-01-01T00:00:00Z";
     cb_deliveryInfo := None |}.

Definition failed_callback (taskId : Id) : MobZapCallback :=
  {| cb_taskId := taskId; cb_status := cb_failed;
     cb_result := None; cb_error := Some "Phone number not on WhatsApp";
     cb_messageId := None; cb_timestamp := "2024-01-01T00:00:00Z";
     cb_deliveryInfo := None |}.

(** One MESSAGE task already handed to the device. *)
Definition one_processing : World :=
  world_of
    [ mk_task "t1" MESSAGE PROCESSING 5 None 10
        (text_data "+5511666554433" "Callback test") ]
    [] [].

(** The store after the device's completion callback for that task, at time
    100, and after the [message_status] event that then marks the message
    READ, at time 200. *)
Definition after_completion : World :=
  Eval vm_compute in
    snd (processCallback 100 "m1" "u1" (completed_callback "t1")
           one_processing).

Definition after_read : World :=
  Eval vm_compute in SocketServer.message_status 200 "m1" READ after_completion.

(** One pending MESSAGE task. *)
Definition one_pending : World :=
  world_of
    [ mk_task "t1" MESSAGE PENDING 5 None 10
        (text_data "11999887766" "hi") ]
    [] [].

(** A MESSAGE task whose payload has a destination and no body text. *)
Definition message_without_body : Task :=
  mk_task "t7" MESSAGE PENDING 5 None 10 (phone_only "11999887766").

(** A MESSAGE task whose payload is [{ phoneNumber: 5511999887766,
    message: 'hi' }]: the destination is there, as a number. *)
Definition message_to_a_number : Task :=
  mk_task "t9" MESSAGE PENDING 5 None 10
    {| data_phoneNumber := Some (JOther "5511999887766");
       data_message := Some "hi"; data_mediaUrl := None;
       data_mediaType := None; data_caption := None;
       data_inviteLink := None; data_welcomeMessage := None;
       data_groupId := None; data_phoneNumbers := None;
       data_delay := None |}.

(** A task of the type the translators have no case for, and the world
    that holds just it. *)
Definition scheduled_message : Task :=
  mk_task "t8" SCHEDULED_MESSAGE PENDING 5 None 10
    (text_data "11999887766" "hi").

Definition one_scheduled_message : World :=
  world_of [scheduled_message] [] [].

(** The job [addToQueue] makes of the pending task, and a transport that
    accepts every message. *)
Definition job1 : Job :=
  job_of "process-message"
    (mk_task "t1" MESSAGE PENDING 5 None 10 (text_data "11999887766" "hi"))
    (Some 0).

Definition send_ok (_ : option Id) (_ : TaskData) : Res Json :=
  Ok "{success: true}".

Definition webhook1 (failures : Z) : Webhook :=
  {| wh_id := "h1"; wh_userId := "u1"; wh_url := "https://example.com/hook";
     wh_events := ["task.completed"; "message.sent"]; wh_secret := "s3cret";
     wh_isActive := true; wh_lastTriggered := None;
     wh_failureCount := failures |}.

(** Outcomes of [axios.post]. *)
Definition post_fails (_ : Webhook) : bool := false.
Definition post_succeeds (_ : Webhook) : bool := true.

End Scenario.

(** ** The rest of the task controller: listing and bulk creation *)

Module TaskListing.
Import Store TaskController.

(** The query string of [GET /tasks]: [lq_page] and [lq_limit] are
    [Number(page)] and [Number(limit)] for a request that carries them as
    integers.  The handler does not consult the result of the route's
    validators, so zero and negative values reach the query like any
    other; an absent value takes the default of the destructuring
    ([page = 1], [limit = 10]).  Values that are not integers (a
    fraction, or text that is no number) are not covered.  [lq_status],
    [lq_type] and [lq_deviceId] are the strings of the query, whatever
    they hold; a parameter given more than once, which Express parses
    into an array, is not covered. *)
Record ListQuery := {
  lq_page : option Z;
  lq_limit : option Z;
  lq_status : option string;
  lq_type : option string;
  lq_deviceId : option string
}.

Definition page_of (q : ListQuery) : Z :=
  match lq_page q with Some p => p | None => 1 end.

Definition limit_of (q : ListQuery) : Z :=
  match lq_limit q with Some l => l | None => 10 end.

(** The value of [enum TaskStatus] and of [enum TaskType] a string
    names. *)
Definition status_of_string (s : string) : option TaskStatus :=
  if (s =? "PENDING")%string then Some PENDING
  else if (s =? "PROCESSING")%string then Some PROCESSING
  else if (s =? "COMPLETED")%string then Some COMPLETED
  else if (s =? "FAILED")%string then Some FAILED
  else if (s =? "CANCELLED")%string then Some CANCELLED
  else None.

Definition type_of_string (s : string) : option TaskType :=
  if (s =? "MESSAGE")%string then Some MESSAGE
  else if (s =? "MEDIA")%string then Some MEDIA
  else if (s =? "GROUP_JOIN")%string then Some GROUP_JOIN
  else if (s =? "GROUP_LEAVE")%string then Some GROUP_LEAVE
  else if (s =? "GROUP_MESSAGE")%string then Some GROUP_MESSAGE
  else if (s =? "BULK_MESSAGE")%string then Some BULK_MESSAGE
  else if (s =? "SCHEDULED_MESSAGE")%string then Some SCHEDULED_MESSAGE
  else None.

(** [if (status) where.status = status]: a filter is applied when its
    string is truthy. *)
Definition filter_value (v : option string) : option string :=
  if truthy v then v else None.

(** Prisma takes a filter on an enum column only when it names a value of
    the enum. *)
Definition valid_filters (q : ListQuery) : bool :=
  match filter_value (lq_status q) with
  | Some s =>
      match status_of_string s with Some _ => true | None => false end
  | None => true
  end
  && match filter_value (lq_type q) with
     | Some s =>
         match type_of_string s with Some _ => true | None => false end
     | None => true
     end.

(** [where = { userId }], narrowed by each filter that is applied. *)
Definition listed (userId : Id) (q : ListQuery) (t : Task) : bool :=
  (t_userId t =? userId)%string
  && match filter_value (lq_status q) with
     | Some s =>
         match status_of_string s with
         | Some status => TaskStatus_beq (t_status t) status
         | None => false
         end
     | None => true
     end
  && match filter_value (lq_type q) with
     | Some s =>
         match type_of_string s with
         | Some ty => TaskType_beq (t_type t) ty
         | None => false
         end
     | None => true
     end
  && match filter_value (lq_deviceId q) with
     | Some d => opt_id_eqb (t_deviceId t) d
     | None => true
     end.

(** [orderBy: { createdAt: 'desc' }] *)
Definition newer (a b : Task) : bool := t_createdAt b <=? t_createdAt a.

(** [include: { device: { select: { phoneNumber, deviceName } } }] *)
Record ListedTask := {
  lt_task : Task;
  lt_device : option (string * string)
}.

Definition with_device (w : World) (t : Task) : ListedTask :=
  {| lt_task := t;
     lt_device :=
       match t_deviceId t with
       | Some d =>
           match find (fun dev => (dev_id dev =? d)%string) (devices w) with
           | Some dev => Some (dev_phoneNumber dev, dev_deviceName dev)
           | None => None
           end
       | None => None
       end |}.

(** A number of the answer: an integer, or [Infinity] or [NaN], which
    [res.json] writes as [null]. *)
Inductive JsNumber := Finite (z : Z) | NotFinite.

Record Pagination := {
  pg_total : nat;
  pg_page : Z;
  pg_limit : Z;
  pg_pages : JsNumber
}.

(** [Math.ceil(total / Number(limit))]; the division by a zero limit is
    not finite. *)
Definition pages_of (total : nat) (limit : Z) : JsNumber :=
  if limit =? 0 then NotFinite
  else Finite (- ((- Z.of_nat total) / limit)).

(** All the tasks the query matches, newest first; tasks created at the
    same time are kept in the order of the table. *)
Definition all_listed (userId : Id) (q : ListQuery) (w : World) : list Task :=
  orderBy newer (filter (listed userId q) (tasks w)).

(** The first line of the error with which Prisma rejects a query it does
    not accept; the details that follow it are left out. *)
Definition invalid_query : string :=
  "Invalid prisma.task.findMany() invocation".

(** [findMany({ ..., skip, take })] on the ordered rows, by the rules of
    Prisma's offset pagination: a negative [skip] is not accepted, and a
    negative [take] takes that many rows from the end of the list. *)
Definition paginate {A : Type} (skip take : Z) (rows : list A)
  : Res (list A) :=
  if skip <? 0
  then Throw invalid_query
  else if 0 <=? take
  then Ok (firstn (Z.to_nat take) (skipn (Z.to_nat skip) rows))
  else Ok (rev (firstn (Z.to_nat (- take))
                  (skipn (Z.to_nat skip) (rev rows)))).

(** [getTaskList(req, res, next)]: the page and the pagination block of the
    answer, with [skip: (page - 1) * limit] and [take: limit]; a query that
    Prisma rejects, for a filter or for [skip], goes to [next(error)]. *)
Definition getTaskList (userId : Id) (q : ListQuery) (w : World)
  : Response (list ListedTask * Pagination) :=
  if negb (valid_filters q) then NextError invalid_query
  else
    let total := List.length (filter (listed userId q) (tasks w)) in
    match paginate ((page_of q - 1) * limit_of q) (limit_of q)
            (all_listed userId q w) with
    | Throw e => NextError e
    | Ok rows =>
        Json_ 200
          (map (with_device w) rows,
           {| pg_total := total; pg_page := page_of q;
              pg_limit := limit_of q;
              pg_pages := pages_of total (limit_of q) |})
    end.

(** The ids [uuidv4()] returns for the tasks of one bulk request, by
    position. *)
Fixpoint number_from {A : Type} (i : nat) (l : list A) : list (nat * A) :=
  match l with
  | [] => []
  | x :: r => (i, x) :: number_from (S i) r
  end.

Definition tasksToCreate (now : Time) (uuid : nat -> Id) (userId : Id)
  (bodies : list CreateBody) : list Task :=
  map (fun ib => new_task now (uuid (fst ib)) userId (snd ib))
    (number_from 0 bodies).

(** The constraints [createMany] runs into: the primary key of [Task] and
    the foreign key from [Task.deviceId] to [Device]. *)
Fixpoint distinct (ids : list Id) : bool :=
  match ids with
  | [] => true
  | x :: r => negb (existsb (String.eqb x) r) && distinct r
  end.

Definition device_known (w : World) (t : Task) : bool :=
  match t_deviceId t with
  | Some d => existsb (fun dev => (dev_id dev =? d)%string) (devices w)
  | None => true
  end.

(** [bulkCreateTasks(req, res, next)].  The route validates
    [body('tasks').isArray({ min: 1, max: 100 })]; the rows are inserted by
    one [createMany], all or none, and no row is handed to a queue. *)
Definition bulkCreateTasks (now : Time) (uuid : nat -> Id) (userId : Id)
  (bodies : list CreateBody) (w : World) : Response nat * World :=
  let n := List.length bodies in
  if ((n <? 1) || (100 <? n))%nat then (Fail 400 "validation errors", w)
  else
    let rows := tasksToCreate now uuid userId bodies in
    if negb (distinct (map t_id rows))
       || existsb (fun r => existsb (task_has_id (t_id r)) (tasks w)) rows
    then (NextError "Unique constraint failed on the fields: (id)", w)
    else if negb (forallb (device_known w) rows)
    then (NextError "Foreign key constraint failed on the field: deviceId", w)
    else (Json_ 201 n, with_tasks w (tasks w ++ rows)).

End TaskListing.

(** ** The message controller ([src/controllers/message.controller.ts]) *)

Module MessageController.
Import Store MobZapService QueueService TaskController.

(** The body of [POST /messages] once the schema [messageSchemas.send]
    accepted it. *)
Record SendBody := {
  sb_deviceId : Id;
  sb_phoneNumber : string;
  sb_messageType : MessageType;
  sb_content : option string;
  sb_mediaUrl : option string
}.

(** [where: { id: deviceId, userId, status: 'ACTIVE' }] *)
Definition own_active_device (deviceId userId : Id) (d : Device) : bool :=
  (dev_id d =? deviceId)%string && (dev_userId d =? userId)%string
  && DeviceStatus_beq (dev_status d) DEV_ACTIVE.

(** The [data] of the task [sendMessage] creates:
    [{ phoneNumber, messageType, content, mediaUrl, location }].  The text
    is stored under [content]; the object has no [message] key. *)
Definition send_data (b : SendBody) : TaskData :=
  {| data_phoneNumber := Some (JStr (sb_phoneNumber b)); data_message := None;
     data_mediaUrl := sb_mediaUrl b; data_mediaType := None;
     data_caption := None; data_inviteLink := None;
     data_welcomeMessage := None; data_groupId := None;
     data_phoneNumbers := None; data_delay := None |}.

(** A row of [prisma.task.create] with the schema's defaults for all the
    columns the handler does not give. *)
Definition default_task (now : Time) (newId userId : Id) (deviceId : Id)
  (ty : TaskType) (priority : Z) (data : TaskData) : Task :=
  {| t_id := newId; t_userId := userId; t_deviceId := Some deviceId;
     t_type := ty; t_status := PENDING; t_priority := priority;
     t_scheduledAt := None; t_executedAt := None; t_completedAt := None;
     t_retryCount := 0; t_maxRetries := 3; t_data := data;
     t_result := None; t_error := None;
     t_createdAt := now; t_updatedAt := now |}.

Definition sent_message_row (userId : Id) (task : Task) (b : SendBody)
  : MessageInput :=
  {| mi_userId := userId;
     mi_deviceId := Some (sb_deviceId b);
     mi_taskId := Some (t_id task);
     mi_phoneNumber := Some (sb_phoneNumber b);
     mi_messageType := Some (sb_messageType b);
     mi_content := sb_content b;
     mi_mediaUrl := sb_mediaUrl b;
     mi_status := Some MSG_PENDING;
     mi_direction := Some OUTGOING;
     mi_deliveredAt := None |}.

(** [sendMessage(req, res, next)]: a task, its message record and a job.
    [newMessageId] is what [generateMessageId()] returns. *)
Definition sendMessage (added : Res unit) (now : Time)
  (newTaskId newMessageId : Id)
  (userId : Id) (b : SendBody) (w : World) : Response Message * World :=
  match find (own_active_device (sb_deviceId b) userId) (devices w) with
  | None => (Fail 404 "Active device not found", w)
  | Some _ =>
      if existsb (task_has_id newTaskId) (tasks w)
      then (NextError "Unique constraint failed on the fields: (id)", w)
      else
        let task := default_task now newTaskId userId (sb_deviceId b)
                      MESSAGE 5 (send_data b) in
        let w1 := with_tasks w (tasks w ++ [task]) in
        match message_create now newMessageId
                (sent_message_row userId task b) w1 with
        | Throw e => (NextError e, w1)
        | Ok (message, w2) =>
            match addToQueue added task w2 with
            | Throw e => (NextError e, w2)
            | Ok w3 => (Json_ 201 message, w3)
            end
        end
  end.

(** [where: { id: messageId, userId, direction: 'INCOMING' }] *)
Definition own_incoming (messageId userId : Id) (m : Message) : bool :=
  (m_id m =? messageId)%string && (m_userId m =? userId)%string
  && match m_direction m with INCOMING => true | OUTGOING => false end.

(** [data: { isRead: true, readAt: new Date() }] *)
Definition mark_read (now : Time) (m : Message) : Message :=
  {| m_id := m_id m; m_userId := m_userId m; m_deviceId := m_deviceId m;
     m_taskId := m_taskId m; m_phoneNumber := m_phoneNumber m;
     m_messageType := m_messageType m; m_content := m_content m;
     m_mediaUrl := m_mediaUrl m; m_status := m_status m;
     m_direction := m_direction m;
     m_isRead := true;
     m_deliveredAt := m_deliveredAt m;
     m_readAt := Some now;
     m_error := m_error m; m_metadata := m_metadata m;
     m_createdAt := m_createdAt m;
     m_updatedAt := now |}.

(** [markAsRead(req, res, next)] *)
Definition markAsRead (now : Time) (userId messageId : Id) (w : World)
  : Response Message * World :=
  match find (own_incoming messageId userId) (messages w) with
  | None => (Fail 404 "Message not found", w)
  | Some message =>
      (Json_ 200 (mark_read now message),
       with_messages w
         (update_where (message_has_id messageId) (mark_read now)
            (messages w)))
  end.

(** The body of [POST /messages/bulk]; [delay = 5000] when absent. *)
Record BulkSendBody := {
  bs_deviceId : Id;
  bs_phoneNumbers : list string;
  bs_content : string;
  bs_delay : option Z
}.

(** The validators of the route: between 1 and 1000 numbers, a content of
    1 to 4096 characters, a delay between 1000 and 60000. *)
Definition valid_bulk (b : BulkSendBody) : bool :=
  let n := List.length (bs_phoneNumbers b) in
  ((1 <=? n) && (n <=? 1000))%nat
  && ((1 <=? String.length (bs_content b))
      && (String.length (bs_content b) <=? 4096))%nat
  && match bs_delay b with
     | Some d => (1000 <=? d) && (d <=? 60000)
     | None => true
     end.

Definition delay_of (b : BulkSendBody) : Z :=
  match bs_delay b with Some d => d | None => 5000 end.

(** [{ phoneNumbers, message: content, delay }] *)
Definition bulk_data (b : BulkSendBody) : TaskData :=
  {| data_phoneNumber := None; data_message := Some (bs_content b);
     data_mediaUrl := None; data_mediaType := None; data_caption := None;
     data_inviteLink := None; data_welcomeMessage := None;
     data_groupId := None;
     data_phoneNumbers := Some (JArr (map JStr (bs_phoneNumbers b)));
     data_delay := Some (delay_of b) |}.

(** What the answer of [bulkSendMessages] carries; [estimatedTime] is
    [bq_estimated_ms / 1000]. *)
Record BulkQueued := {
  bq_taskId : Id;
  bq_recipientCount : nat;
  bq_estimated_ms : Z
}.

(** [bulkSendMessages(req, res, next)].  The daily limit is checked only
    when the user has an active license with a limit:
    [license?.messageLimit]. *)
Definition bulkSendMessages (added : Res unit) (now today : Time)
  (newTaskId userId : Id)
  (b : BulkSendBody) (w : World) : Response BulkQueued * World :=
  if negb (valid_bulk b) then (Fail 400 "validation errors", w)
  else
    match find (own_active_device (bs_deviceId b) userId) (devices w) with
    | None => (Fail 404 "Active device not found", w)
    | Some _ =>
        let n := List.length (bs_phoneNumbers b) in
        if match active_licenses now userId w with
           | license :: _ =>
               match lic_messageLimit license with
               | Some limit =>
                   negb (limit =? 0)
                   && (limit <? messages_since today userId w + Z.of_nat n)
               | None => false
               end
           | [] => false
           end
        then (Fail 429 "Daily message limit would be exceeded", w)
        else if existsb (task_has_id newTaskId) (tasks w)
        then (NextError "Unique constraint failed on the fields: (id)", w)
        else
          let task := default_task now newTaskId userId (bs_deviceId b)
                        BULK_MESSAGE 5 (bulk_data b) in
          let w1 := with_tasks w (tasks w ++ [task]) in
          match addToQueue added task w1 with
          | Throw e => (NextError e, w1)
          | Ok w2 =>
              (Json_ 201 {| bq_taskId := newTaskId; bq_recipientCount := n;
                            bq_estimated_ms := Z.of_nat n * delay_of b |},
               w2)
          end
    end.

End MessageController.

(** ** Sessions and the auto-responder of the device shim *)

Module MobZapSessions.
Import Store MobZapService.

(** An entry of [activeSessions]. *)
Record Session := {
  s_userId : Id;
  s_deviceData : MobZapDevice;
  s_lastSeen : Time
}.

(** The [Map] of sessions by device id, in insertion order. *)
Definition Sessions := list (Id * Session).

Definition has_key (deviceId : Id) (e : Id * Session) : bool :=
  (fst e =? deviceId)%string.

(** [this.activeSessions.set(device.id, { userId, deviceData, lastSeen:
    new Date() })], as [fetchTasks] does for the device it serves: an
    existing key keeps its place. *)
Fixpoint set_session (deviceId : Id) (s : Session) (m : Sessions)
  : Sessions :=
  match m with
  | [] => [(deviceId, s)]
  | e :: r =>
      if has_key deviceId e then (deviceId, s) :: r
      else e :: set_session deviceId s r
  end.

Definition get_session (deviceId : Id) (m : Sessions) : option Session :=
  match find (has_key deviceId) m with
  | Some e => Some (snd e)
  | None => None
  end.

(** [const inactiveThreshold = 10 * 60 * 1000] *)
Definition inactiveThreshold : Z := 10 * 60 * 1000.

(** [now - session.lastSeen.getTime() > inactiveThreshold] *)
Definition stale (now : Time) (s : Session) : bool :=
  inactiveThreshold <? now - s_lastSeen s.

(** [data: { isConnected: false, status: 'INACTIVE' }] *)
Definition disconnected (d : Device) : Device :=
  {| dev_id := dev_id d; dev_userId := dev_userId d;
     dev_phoneNumber := dev_phoneNumber d;
     dev_deviceName := dev_deviceName d;
     dev_deviceType := dev_deviceType d;
     dev_status := DEV_INACTIVE;
     dev_lastSeen := dev_lastSeen d;
     dev_isConnected := false;
     dev_batteryLevel := dev_batteryLevel d;
     dev_isCharging := dev_isCharging d |}.

(** [cleanupInactiveSessions()]: the loop over the entries.  A stale entry
    is deleted before its device is updated; when the update rejects (no
    device has the id) the loop stops there and the entries after it are
    kept as they are. *)
Fixpoint cleanup_loop (now : Time) (entries : Sessions) (w : World)
  : Res unit * Sessions * World :=
  match entries with
  | [] => (Ok tt, [], w)
  | (deviceId, session) :: rest =>
      if stale now session then
        match update_or_throw (device_has_id deviceId) disconnected
                (devices w) with
        | Throw e => (Throw e, rest, w)
        | Ok ds => cleanup_loop now rest (with_devices w ds)
        end
      else
        match cleanup_loop now rest w with
        | (r, kept, w') => (r, (deviceId, session) :: kept, w')
        end
  end.

Definition cleanupInactiveSessions (now : Time) (sessions : Sessions)
  (w : World) : Res unit * Sessions * World :=
  cleanup_loop now sessions w.

(** [s.includes(sub)] *)
Fixpoint includes (s sub : string) : bool :=
  String.prefix sub s
  || match s with
     | EmptyString => false
     | String _ r => includes r sub
     end.

(** A rule of the auto-responder configuration. *)
Record Rule := {
  rule_type : string;
  rule_keywords : list string;
  rule_pattern : string;
  rule_response : string
}.

(** The object cached under [autoresponder:${userId}]. *)
Record AutoResponder := {
  ar_enabled : bool;
  ar_rules : option (list Rule)
}.

Section AutoResponder.

(** [s.toLowerCase()], the case mapping of the JavaScript engine, which
    covers all of Unicode; and [new RegExp(pattern, 'i').test(content)],
    whose constructor throws on a pattern that is not a regular
    expression.  Neither is code of this repository. *)
Variable toLowerCase : string -> string.
Variable regex_test : string -> string -> Res bool.

(** [matchRule(message, rule)] *)
Definition matchRule (content : option string) (rule : Rule) : Res bool :=
  let content :=
    match content with
    | Some c => or_default (Some (toLowerCase c)) ""
    | None => ""
    end in
  if (rule_type rule =? "contains")%string then
    Ok (existsb (fun kw => includes content (toLowerCase kw))
          (rule_keywords rule))
  else if (rule_type rule =? "exact")%string then
    Ok (existsb (fun kw => (content =? toLowerCase kw)%string)
          (rule_keywords rule))
  else if (rule_type rule =? "regex")%string then
    regex_test (rule_pattern rule) content
  else if (rule_type rule =? "all")%string then Ok true
  else Ok false.

(** The first rule that matches; an exception of [matchRule] ends the
    search. *)
Fixpoint first_match (content : option string) (rules : list Rule)
  : Res (option Rule) :=
  match rules with
  | [] => Ok None
  | rule :: rest =>
      match matchRule content rule with
      | Throw e => Throw e
      | Ok true => Ok (Some rule)
      | Ok false => first_match content rest
      end
  end.

(** The task of an automatic answer:
    [{ userId, deviceId, type: 'MESSAGE', priority: 8,
       data: { phoneNumber: message.phoneNumber, message: rule.response } }] *)
Definition reply_task (now : Time) (newId userId deviceId : Id)
  (message : Message) (rule : Rule) : Task :=
  {| t_id := newId; t_userId := userId; t_deviceId := Some deviceId;
     t_type := MESSAGE; t_status := PENDING; t_priority := 8;
     t_scheduledAt := None; t_executedAt := None; t_completedAt := None;
     t_retryCount := 0; t_maxRetries := 3;
     t_data :=
       {| data_phoneNumber := Some (JStr (m_phoneNumber message));
          data_message := Some (rule_response rule);
          data_mediaUrl := None; data_mediaType := None;
          data_caption := None; data_inviteLink := None;
          data_welcomeMessage := None; data_groupId := None;
          data_phoneNumbers := None; data_delay := None |};
     t_result := None; t_error := None;
     t_createdAt := now; t_updatedAt := now |}.

(** [checkAutoResponder(userId, deviceId, message)].  [cached] is what
    [cache.get] returned.  Every exception is caught and logged; the task
    is not handed to a queue. *)
Definition checkAutoResponder (now : Time) (newId : Id)
  (cached : option AutoResponder) (userId deviceId : Id) (message : Message)
  (w : World) : World :=
  match cached with
  | None => w
  | Some autoResponder =>
      match ar_enabled autoResponder, ar_rules autoResponder with
      | true, Some rules =>
          match first_match (m_content message) rules with
          | Ok (Some rule) =>
              if existsb (task_has_id newId) (tasks w)
                 || negb (existsb (device_has_id deviceId) (devices w))
              then w
              else
                with_tasks w
                  (tasks w ++
                   [reply_task now newId userId deviceId message rule])
          | _ => w
          end
      | _, _ => w
      end
  end.

End AutoResponder.

End MobZapSessions.

(** ** The other handlers of the socket server *)

Module SocketHandlers.
Import Store MobZapService.

(** The fields the handlers keep on the socket. *)
Record Socket := {
  sock_userId : Id;
  sock_deviceId : option Id
}.

(** The answer to [register_device]. *)
Inductive Registered :=
| RegisteredOk (deviceId : Id)
| RegisteredFailed (error : string).

(** [data: { isConnected, lastSeen: new Date() }] *)
Definition seen (connected : bool) (now : Time) (d : Device) : Device :=
  {| dev_id := dev_id d; dev_userId := dev_userId d;
     dev_phoneNumber := dev_phoneNumber d;
     dev_deviceName := dev_deviceName d;
     dev_deviceType := dev_deviceType d;
     dev_status := dev_status d;
     dev_lastSeen := Some now;
     dev_isConnected := connected;
     dev_batteryLevel := dev_batteryLevel d;
     dev_isCharging := dev_isCharging d |}.

(** [socket.on('register_device', ...)] *)
Definition register_device (now : Time) (deviceId : Id) (socket : Socket)
  (w : World) : Registered * Socket * World :=
  match find (fun d => (dev_id d =? deviceId)%string
                       && (dev_userId d =? sock_userId socket)%string)
          (devices w) with
  | Some _ =>
      (RegisteredOk deviceId,
       {| sock_userId := sock_userId socket; sock_deviceId := Some deviceId |},
       with_devices w
         (update_where (device_has_id deviceId) (seen true now) (devices w)))
  | None => (RegisteredFailed "Device not found", socket, w)
  end.

(** [socket.on('disconnect', ...)]: an update that rejects changes
    nothing. *)
Definition disconnect (now : Time) (socket : Socket) (w : World) : World :=
  match sock_deviceId socket with
  | Some deviceId =>
      match update_or_throw (device_has_id deviceId) (seen false now)
              (devices w) with
      | Ok ds => with_devices w ds
      | Throw _ => w
      end
  | None => w
  end.

(** The payload of [incoming_message]. *)
Record Incoming := {
  in_deviceId : option Id;
  in_from : option string;
  in_message : option string;
  in_mediaUrl : option string;
  in_messageType : option MessageType
}.

(** [socket.on('incoming_message', ...)].  The device is the one the
    payload names; [Message.deviceId] is a foreign key, so the create
    rejects when no such device is stored.  A create that rejects is logged
    and changes nothing. *)
Definition incoming_message (now : Time) (newId : Id) (data : Incoming)
  (socket : Socket) (w : World) : option Message * World :=
  let known :=
    match in_deviceId data with
    | Some d => existsb (device_has_id d) (devices w)
    | None => false
    end in
  if negb known then (None, w)
  else
    match message_create now newId
            {| mi_userId := sock_userId socket;
               mi_deviceId := in_deviceId data;
               mi_taskId := None;
               mi_phoneNumber := in_from data;
               mi_messageType := Some (keep TEXT (in_messageType data));
               mi_content := in_message data;
               mi_mediaUrl := in_mediaUrl data;
               mi_status := Some DELIVERED;
               mi_direction := Some INCOMING;
               mi_deliveredAt := Some now |} w with
    | Ok (m, w') => (Some m, w')
    | Throw _ => (None, w)
    end.

End SocketHandlers.

(** ** Helpers of the WhatsApp Web session wrapper *)

Module WhatsAppWeb.
Import Store Phone MobZapSessions.

(** [formatChatId(phoneNumber)] *)
Definition formatChatId (phoneNumber : string) : string :=
  let cleaned := strip_non_digits phoneNumber in
  if negb (includes cleaned "@") then cleaned ++ "@c.us" else cleaned.

(** The [switch (ack)] of [updateMessageStatus]. *)
Definition ack_status (ack : Z) : MessageStatus :=
  if ack =? 0 then MSG_PENDING
  else if ack =? 1 then SENT
  else if ack =? 2 then DELIVERED
  else if ack =? 3 then READ
  else MSG_FAILED.

(** [WHERE metadata->>'messageId' = ${message.id._serialized}] *)
Definition has_remote_id (remoteId : string) (m : Message) : bool :=
  match m_metadata m with
  | Some md =>
      match md_messageId md with
      | Some id => (id =? remoteId)%string
      | None => false
      end
  | None => false
  end.

(** [SET status = ${status}]: the raw statement writes this one column. *)
Definition set_status (status : MessageStatus) (m : Message) : Message :=
  {| m_id := m_id m; m_userId := m_userId m; m_deviceId := m_deviceId m;
     m_taskId := m_taskId m; m_phoneNumber := m_phoneNumber m;
     m_messageType := m_messageType m; m_content := m_content m;
     m_mediaUrl := m_mediaUrl m;
     m_status := status;
     m_direction := m_direction m; m_isRead := m_isRead m;
     m_deliveredAt := m_deliveredAt m; m_readAt := m_readAt m;
     m_error := m_error m; m_metadata := m_metadata m;
     m_createdAt := m_createdAt m; m_updatedAt := m_updatedAt m |}.

(** [updateMessageStatus(session, message, ack)] *)
Definition updateMessageStatus (remoteId : string) (ack : Z) (w : World)
  : World :=
  with_messages w
    (update_where (has_remote_id remoteId) (set_status (ack_status ack))
       (messages w)).

End WhatsAppWeb.

(** ** The handlers as transitions of the store *)

Module System.
Import Store WebhookService MobZapService QueueService TaskController.
Import SocketServer.

(** One call of a handler, a socket event or a worker.  Bull decides which
    queued job a worker runs next, and when it runs one again after a
    failure; none of that is in this code, so a worker may run any job that
    is in its queue.  What holds after every sequence of these steps holds
    whichever order Bull serves the queue in. *)
Inductive step : World -> World -> Prop :=
| step_fetchTasks now stamp newId userId deviceData w :
    step w (snd (fetchTasks now stamp newId userId deviceData w))
| step_getTasks now stamp userId body w :
    step w (snd (getTasks now stamp userId body w))
| step_createTask maxRetries post added now today newId userId body w :
    step w (snd (createTask maxRetries post added now today newId userId body w))
| step_processCallback now newId userId callback w :
    step w (snd (processCallback now newId userId callback w))
| step_updateTaskStatus maxRetries post now newId userId taskId status
    result error w :
    step w (snd (updateTaskStatus maxRetries post now newId userId taskId
                   status result error w))
| step_cancelTask now userId taskId w :
    step w (snd (cancelTask now userId taskId w))
| step_process_message send maxRetries post now newId job w :
    In job (messageQueue w) ->
    step w (snd (process_message send maxRetries post now newId job w))
| step_message_status now messageId status w :
    step w (message_status now messageId status w)
| step_bulkCreateTasks now uuid userId bodies w :
    step w (snd (TaskListing.bulkCreateTasks now uuid userId bodies w))
| step_sendMessage added now newTaskId newMessageId userId body w :
    step w (snd (MessageController.sendMessage added now newTaskId
                   newMessageId userId body w))
| step_bulkSendMessages added now today newTaskId userId body w :
    step w (snd (MessageController.bulkSendMessages added now today
                   newTaskId userId body w))
| step_markAsRead now userId messageId w :
    step w (snd (MessageController.markAsRead now userId messageId w))
| step_cleanupInactiveSessions now sessions w :
    step w (snd (MobZapSessions.cleanupInactiveSessions now sessions w))
| step_checkAutoResponder toLowerCase regex_test now newId cached userId
    deviceId message w :
    step w (MobZapSessions.checkAutoResponder toLowerCase regex_test now
              newId cached userId deviceId message w)
| step_register_device now deviceId socket w :
    step w (snd (SocketHandlers.register_device now deviceId socket w))
| step_disconnect now socket w :
    step w (SocketHandlers.disconnect now socket w)
| step_incoming_message now newId data socket w :
    step w (snd (SocketHandlers.incoming_message now newId data socket w))
| step_updateMessageStatus remoteId ack w :
    step w (WhatsAppWeb.updateMessageStatus remoteId ack w).

(** The stores a sequence of handler calls leads to. *)
Inductive reachable (w0 : World) : World -> Prop :=
| reach_start : reachable w0 w0
| reach_step w w' : reachable w0 w -> step w w' -> reachable w0 w'.

(** The jobs waiting in the three queues. *)
Definition queued_jobs (w : World) : list Job :=
  (messageQueue w ++ mediaQueue w ++ groupQueue w)%list.

(** Every queued job is for a stored task that has no [scheduledAt]. *)
Definition queue_unscheduled (w : World) : Prop :=
  forall j, In j (queued_jobs w) ->
  exists t, In t (tasks w) /\ t_id t = job_taskId j
            /\ t_scheduledAt t = None.

(** The columns of the task table the queue invariant reads. *)
Definition task_keys (w : World) : list (Id * option Time) :=
  map (fun t => (t_id t, t_scheduledAt t)) (tasks w).


End System.

(** ** More observations on the store *)

Module ObserveMore.
Import Store WebhookService MobZapService QueueService TaskController.
Import Observe TaskListing MobZapSessions.

(** The messages recorded for a task. *)
Definition messages_of (taskId : Id) (w : World) : list Message :=
  filter (message_of_task taskId) (messages w).

(** What the worker leaves in the task's row when the send rejects. *)
Definition send_failed (now : Time) (e : string) (t : Task) : Task :=
  patch_task now (failed_patch e) (patch_task now (claim_patch now) t).

(** What it leaves when the send resolved and the message could not be
    recorded. *)
Definition record_failed (now : Time) (result : Json) (e : string) (t : Task)
  : Task :=
  patch_task now (failed_patch e)
    (patch_task now (completed_patch now result)
       (patch_task now (claim_patch now) t)).

(** What one delivery leaves in a row: [seen] is the row as the query
    returned it. *)
Definition outcome (maxRetries : Z) (post : Webhook -> bool) (now : Time)
  (seen : Webhook) (h : Webhook) : Webhook :=
  if post seen then reset_failures now h else after_failure maxRetries seen h.

(** The row [n] has the configuration of [o] and is not enabled unless
    [o] was. *)
Definition same_configuration (o n : Webhook) : Prop :=
  wh_id n = wh_id o /\ wh_userId n = wh_userId o
  /\ wh_url n = wh_url o /\ wh_events n = wh_events o
  /\ wh_secret n = wh_secret o
  /\ (wh_isActive n = true -> wh_isActive o = true).

(** The query [q] asked for page [p]. *)
Definition with_page (q : ListQuery) (p : Z) : ListQuery :=
  {| lq_page := Some p; lq_limit := lq_limit q; lq_status := lq_status q;
     lq_type := lq_type q; lq_deviceId := lq_deviceId q |}.

(** The tasks on the page [getTaskList] answers with; none when it answers
    an error. *)
Definition page_tasks (userId : Id) (q : ListQuery) (w : World)
  : list Task :=
  match getTaskList userId q w with
  | Json_ _ (rows, _) => map lt_task rows
  | _ => []
  end.

(** The tasks of pages [1 .. n], one page after the other. *)
Definition pages_upto (userId : Id) (q : ListQuery) (w : World) (n : nat)
  : list Task :=
  List.concat
    (map (fun i => page_tasks userId (with_page q (Z.of_nat (S i))) w)
       (seq 0 n)).

(** The device has a session that is stale at [now]. *)
Definition expired (now : Time) (sessions : Sessions) (d : Device) : bool :=
  existsb (fun e => has_key (dev_id d) e && stale now (snd e)) sessions.

(** The task types the [switch] of [getTasks] has a case for. *)
Definition supported (ty : TaskType) : bool :=
  match ty with
  | GROUP_LEAVE | SCHEDULED_MESSAGE => false
  | _ => true
  end.

End ObserveMore.

(** ** More sample data *)

Module Samples.
Import Store MobZapService QueueService TaskController MessageController.
Import MobZapSessions SocketHandlers Scenario.

Definition empty_world : World := world_of [] [] [].

(** A text message for device [d1]. *)
Definition send_body : SendBody :=
  {| sb_deviceId := "d1"; sb_phoneNumber := "5511988887777";
     sb_messageType := TEXT; sb_content := Some "hello";
     sb_mediaUrl := None |}.

(** A bulk request for two numbers with the default delay. *)
Definition bulk_body : BulkSendBody :=
  {| bs_deviceId := "d1";
     bs_phoneNumbers := ["5511988887777"; "5511977776666"];
     bs_content := "promo"; bs_delay := None |}.

(** The socket of user [u1] before any registration, and a message its
    device reports. *)
Definition socket1 : Socket := {| sock_userId := "u1"; sock_deviceId := None |}.

Definition incoming1 : Incoming :=
  {| in_deviceId := Some "d1"; in_from := Some "5511988887777";
     in_message := Some "oi"; in_mediaUrl := None; in_messageType := None |}.

(** A session written at time 400000 and one written at time 0. *)
Definition session1 : Session :=
  {| s_userId := "u1"; s_deviceData := fetch_body; s_lastSeen := 400000 |}.

Definition session_old : Session :=
  {| s_userId := "u1"; s_deviceData := fetch_body; s_lastSeen := 0 |}.

(** The task of [one_processing], and its row after the completion
    callback. *)
Definition processing_task : Task :=
  mk_task "t1" MESSAGE PROCESSING 5 None 10
    (text_data "+5511666554433" "Callback test").

Definition completed_task : Task :=
  Eval vm_compute in
    match tasks after_completion with
    | t :: _ => t
    | [] => processing_task
    end.

(** A MESSAGE task handed to the device whose payload names no
    destination. *)
Definition undeliverable_task : Task :=
  mk_task "t7" MESSAGE PROCESSING 5 None 10 no_data.

Definition one_undeliverable : World := world_of [undeliverable_task] [] [].

(** A pending task with a list of numbers and no [phoneNumber], and its
    job. *)
Definition bulk_task : Task :=
  mk_task "t1" BULK_MESSAGE PENDING 5 None 10 (bulk_data bulk_body).

Definition one_bulk : World := world_of [bulk_task] [] [].

Definition bulk_job : Job := job_of "process-message" bulk_task (Some 0).

(** The pending task of [one_pending]. *)
Definition text_task : Task :=
  mk_task "t1" MESSAGE PENDING 5 None 10 (text_data "11999887766" "hi").

(** A transport that rejects every message. *)
Definition send_fails (_ : option Id) (_ : TaskData) : Res Json :=
  Throw "Device offline".







(** The first page of two of the tasks of the caller. *)
Definition first_two : TaskListing.ListQuery :=
  {| TaskListing.lq_page := Some 1; TaskListing.lq_limit := Some 2;
     TaskListing.lq_status := None; TaskListing.lq_type := None;
     TaskListing.lq_deviceId := None |}.

(** A store with one webhook that has not failed yet. *)
Definition one_webhook : World := world_of [] [] [webhook1 0].

(** A case mapping and a pattern test for the sample rules, which use
    ASCII text and no pattern. *)
Definition ascii_lower_char (c : ascii) : ascii :=
  let n := nat_of_ascii c in
  if ((65 <=? n) && (n <=? 90))%nat then ascii_of_nat (n + 32) else c.

Fixpoint ascii_lower (s : string) : string :=
  match s with
  | EmptyString => EmptyString
  | String c r => String (ascii_lower_char c) (ascii_lower r)
  end.

Definition no_pattern (_ _ : string) : Res bool := Ok false.

(** A configuration with two rules: an exact greeting, and an answer to
    any message that mentions a price. *)
Definition greeting_rule : Rule :=
  {| rule_type := "exact"; rule_keywords := ["Hello"]; rule_pattern := "";
     rule_response := "Hi there" |}.

Definition price_rule : Rule :=
  {| rule_type := "contains"; rule_keywords := ["price"; "cost"];
     rule_pattern := ""; rule_response := "See our catalogue" |}.

Definition responder1 : AutoResponder :=
  {| ar_enabled := true; ar_rules := Some [greeting_rule; price_rule] |}.

(** An incoming message that asks for a price. *)
Definition price_question : Message :=
  {| m_id := "m3"; m_userId := "u1"; m_deviceId := "d1"; m_taskId := None;
     m_phoneNumber := "5511988887777"; m_messageType := TEXT;
     m_content := Some "What is the PRICE?"; m_mediaUrl := None;
     m_status := DELIVERED; m_direction := INCOMING; m_isRead := false;
     m_deliveredAt := Some 100; m_readAt := None; m_error := None;
     m_metadata := None; m_createdAt := 100; m_updatedAt := 100 |}.

End Samples.

(** ** Facts about destination formatting *)

Module PhoneFacts.
Import Phone.

(** The expectations of the unit test [formatPhoneNumber]. *)
Example format_test_1 : formatPhoneNumber "+55 11 99988-7766" = "5511999887766".
Proof. reflexivity. Qed.
Example format_test_2 : formatPhoneNumber "11999887766" = "5511999887766".
Proof. reflexivity. Qed.
Example format_test_3 : formatPhoneNumber "999887766" = "55999887766".
Proof. reflexivity. Qed.
Example format_test_4 : formatPhoneNumber "+5511999887766" = "5511999887766".
Proof. reflexivity. Qed.

Lemma strip_all_digits s : all_digits (strip_non_digits s) = true.
Proof.
  induction s as [|c r IH]; simpl; [reflexivity|].
  destruct (is_digit c) eqn:E; simpl; [rewrite E|]; exact IH.
Qed.

Lemma strip_fixes_digits s : all_digits s = true -> strip_non_digits s = s.
Proof.
  induction s as [|c r IH]; simpl; [reflexivity|].
  intros H. apply andb_prop in H as [Hc Hr].
  rewrite Hc, (IH Hr). reflexivity.
Qed.

Lemma format_all_digits s : all_digits (formatPhoneNumber s) = true.
Proof.
  unfold formatPhoneNumber.
  destruct (startsWith55 (strip_non_digits s)); simpl; apply strip_all_digits.
Qed.

Lemma format_startsWith55 s : startsWith55 (formatPhoneNumber s) = true.
Proof.
  unfold formatPhoneNumber.
  destruct (startsWith55 (strip_non_digits s)) eqn:E; simpl; [exact E|].
  unfold startsWith55. simpl.
  destruct (strip_non_digits s); reflexivity.
Qed.

(** A digits-only string that already starts with the country code is
    returned as it is. *)
Lemma format_normalized s :
  all_digits s = true -> startsWith55 s = true -> formatPhoneNumber s = s.
Proof.
  intros Hd Hp. unfold formatPhoneNumber.
  rewrite (strip_fixes_digits s Hd), Hp. reflexivity.
Qed.

(** C8: [formatPhoneNumber] is idempotent: formatting the result of a
    formatting again (strip the non-digits, prefix the country code 55 when
    absent) returns it unchanged, for every input string. *)
Theorem formatPhoneNumber_idempotent (phone : string) :
  formatPhoneNumber (formatPhoneNumber phone) = formatPhoneNumber phone.
Proof.
  apply format_normalized.
  - apply format_all_digits.
  - apply format_startsWith55.
Qed.

End PhoneFacts.

(** ** Rows and queries: general facts *)

Module StoreFacts.
Import Store.

Section Rows.
Context {A : Type}.

Lemma update_where_length (sel : A -> bool) (f : A -> A) (rows : list A) :
  List.length (update_where sel f rows) = List.length rows.
Proof. unfold update_where. apply length_map. Qed.

Lemma update_where_none (sel : A -> bool) (f : A -> A) (rows : list A) :
  existsb sel rows = false -> update_where sel f rows = rows.
Proof.
  induction rows as [|r rows IH]; simpl; [reflexivity|].
  intros H. apply orb_false_iff in H as [Hr Hrows].
  rewrite Hr, (IH Hrows). reflexivity.
Qed.

(** Updating twice with the same selection composes the two changes, as
    long as the first change keeps the selection. *)
Lemma update_where_twice (sel : A -> bool) (f g : A -> A) (rows : list A) :
  (forall r, sel (f r) = sel r) ->
  update_where sel g (update_where sel f rows)
  = update_where sel (fun r => g (f r)) rows.
Proof.
  intros Hsel. unfold update_where. rewrite map_map.
  apply map_ext. intros r.
  destruct (sel r) eqn:E; [rewrite Hsel, E | rewrite E]; reflexivity.
Qed.

Lemma update_where_ext (sel : A -> bool) (f g : A -> A) (rows : list A) :
  (forall r, sel r = true -> f r = g r) ->
  update_where sel f rows = update_where sel g rows.
Proof.
  intros H. unfold update_where. apply map_ext_in. intros r _.
  destruct (sel r) eqn:E; [apply H, E | reflexivity].
Qed.

Lemma find_some_exists (p : A -> bool) (rows : list A) (r : A) :
  find p rows = Some r -> existsb p rows = true.
Proof.
  intros H. apply find_some in H as [Hin Hp].
  apply existsb_exists. exists r. split; assumption.
Qed.

(** A row found by [p] is still the first one found after an update that
    keeps [p], and it carries the update when the update selects it. *)
Lemma find_update_where (p sel : A -> bool) (f : A -> A) (rows : list A)
  (r : A) :
  (forall x, p (f x) = p x) ->
  find p rows = Some r ->
  find p (update_where sel f rows) = Some (if sel r then f r else r).
Proof.
  intros Hp. induction rows as [|x rows IH]; simpl; [discriminate|].
  destruct (p x) eqn:Ex.
  - intros [= <-]. destruct (sel x); [rewrite Hp|]; rewrite Ex; reflexivity.
  - intros H. destruct (sel x); [rewrite Hp|]; rewrite Ex; apply IH, H.
Qed.

Lemma find_update_where_none (p sel : A -> bool) (f : A -> A)
  (rows : list A) :
  (forall x, p (f x) = p x) ->
  find p rows = None ->
  find p (update_where sel f rows) = None.
Proof.
  intros Hp. induction rows as [|x rows IH]; simpl; [reflexivity|].
  destruct (p x) eqn:Ex; [discriminate|].
  intros H. destruct (sel x); [rewrite Hp|]; rewrite Ex; apply IH, H.
Qed.

Lemma find_app_none (p : A -> bool) (rows : list A) (r : A) :
  find p rows = None ->
  find p (rows ++ [r]) = if p r then Some r else None.
Proof.
  induction rows as [|x rows IH]; simpl; [reflexivity|].
  destruct (p x); [discriminate | exact IH].
Qed.

Lemma firstn_In (n : nat) (l : list A) (x : A) :
  In x (firstn n l) -> In x l.
Proof.
  intros H. rewrite <- (firstn_skipn n l). apply in_or_app. left. exact H.
Qed.

(** *** Insertion sort by a total, transitive comparison *)

Variable le : A -> A -> bool.
Hypothesis le_total : forall a b, le a b = false -> le b a = true.
Hypothesis le_trans :
  forall a b c, le a b = true -> le b c = true -> le a c = true.

Let Le (a b : A) : Prop := le a b = true.

Lemma insert_by_perm (x : A) (l : list A) :
  Permutation (x :: l) (insert_by le x l).
Proof.
  induction l as [|y l IH]; simpl; [apply Permutation_refl|].
  destruct (le x y); [apply Permutation_refl|].
  eapply perm_trans; [apply perm_swap|]. apply perm_skip, IH.
Qed.

Lemma orderBy_perm (l : list A) : Permutation l (orderBy le l).
Proof.
  induction l as [|x l IH]; simpl; [constructor|].
  eapply perm_trans; [apply perm_skip, IH | apply insert_by_perm].
Qed.

Lemma insert_by_hd (x a : A) (l : list A) :
  Le a x -> HdRel Le a l -> HdRel Le a (insert_by le x l).
Proof.
  intros Hax Hl. destruct l as [|y l]; simpl.
  - constructor. exact Hax.
  - destruct (le x y); constructor; [exact Hax|].
    inversion Hl; assumption.
Qed.

Lemma insert_by_sorted (x : A) (l : list A) :
  Sorted Le l -> Sorted Le (insert_by le x l).
Proof.
  induction 1 as [|y l Hs IH Hhd]; simpl.
  - repeat constructor.
  - destruct (le x y) eqn:E.
    + constructor; [constructor; assumption|]. constructor. exact E.
    + constructor; [exact IH|].
      apply insert_by_hd; [apply le_total, E | exact Hhd].
Qed.

Lemma orderBy_sorted (l : list A) : StronglySorted Le (orderBy le l).
Proof.
  apply Sorted_StronglySorted.
  - intros a b c. apply le_trans.
  - induction l as [|x l IH]; simpl; [constructor|].
    apply insert_by_sorted, IH.
Qed.

Lemma strongly_sorted_app (l1 l2 : list A) :
  StronglySorted Le (l1 ++ l2) ->
  StronglySorted Le l1 /\ forall a b, In a l1 -> In b l2 -> Le a b.
Proof.
  induction l1 as [|x l1 IH]; simpl; intros H.
  - split; [constructor | intros a b []].
  - inversion H as [|? ? Hs Hall]; subst.
    destruct (IH Hs) as [Hs1 Hcross]. split.
    + constructor; [exact Hs1|].
      rewrite Forall_forall in *. intros y Hy. apply Hall, in_or_app. auto.
    + intros a b [<-|Ha] Hb.
      * rewrite Forall_forall in Hall. apply Hall, in_or_app. auto.
      * apply Hcross; assumption.
Qed.

End Rows.

(** [before] is a total preorder on tasks. *)
Lemma before_total (a b : Task) : before a b = false -> before b a = true.
Proof.
  unfold before. intros H.
  apply orb_false_iff in H as [H1 H2].
  apply Z.ltb_ge in H1.
  apply andb_false_iff in H2.
  apply orb_true_iff.
  destruct (Z.eq_dec (t_priority a) (t_priority b)) as [E|E].
  - right. destruct H2 as [H2|H2].
    + apply Z.eqb_neq in H2. contradiction.
    + apply Z.leb_gt in H2. apply andb_true_iff. split.
      * apply Z.eqb_eq. symmetry. exact E.
      * apply Z.leb_le. lia.
  - left. apply Z.ltb_lt. lia.
Qed.

Lemma before_spec (a b : Task) :
  before a b = true <->
  t_priority b < t_priority a
  \/ (t_priority a = t_priority b /\ t_createdAt a <= t_createdAt b).
Proof.
  unfold before. rewrite orb_true_iff, andb_true_iff.
  rewrite Z.ltb_lt, Z.eqb_eq, Z.leb_le. reflexivity.
Qed.

Lemma before_trans (a b c : Task) :
  before a b = true -> before b c = true -> before a c = true.
Proof. rewrite !before_spec. lia. Qed.

Lemma eligible_spec (now : Time) (userId deviceId : Id) (t : Task) :
  eligible now userId deviceId t = true <->
  t_userId t = userId /\ t_deviceId t = Some deviceId
  /\ t_status t = PENDING /\ due now t = true.
Proof.
  unfold eligible. rewrite !andb_true_iff, String.eqb_eq.
  unfold opt_id_eqb.
  split.
  - intros [[[Hu Hd] Hs] Hdue]. repeat split; try assumption.
    + destruct (t_deviceId t); [|discriminate].
      apply String.eqb_eq in Hd. congruence.
    + destruct (t_status t); simpl in Hs; congruence.
  - intros (Hu & Hd & Hs & Hdue). rewrite Hd, Hs, String.eqb_refl. auto.
Qed.

Lemma due_spec (now : Time) (t : Task) :
  due now t = true <->
  t_scheduledAt t = None
  \/ exists s, t_scheduledAt t = Some s /\ s <= now.
Proof.
  unfold due. destruct (t_scheduledAt t) as [s|].
  - rewrite Z.leb_le. split.
    + intros H. right. exists s. auto.
    + intros [H|[s' [[= <-] H]]]; [discriminate | exact H].
  - split; auto.
Qed.

(** The batch of a fetch: a sublist of the table, of at most ten rows, each
    of them eligible. *)
Lemma find_pending_length now userId deviceId w :
  (List.length (find_pending now userId deviceId w) <= 10)%nat.
Proof. unfold find_pending. apply firstn_le_length. Qed.

Lemma find_pending_In now userId deviceId w t :
  In t (find_pending now userId deviceId w) ->
  In t (tasks w) /\ eligible now userId deviceId t = true.
Proof.
  unfold find_pending. intros H.
  apply firstn_In in H.
  eapply Permutation_in in H; [|apply Permutation_sym, orderBy_perm].
  apply filter_In in H. exact H.
Qed.

End StoreFacts.

(** ** Claiming tasks: [fetchTasks] and [getTasks] *)

Module FetchFacts.
Import Store MobZapService TaskController QueueService WebhookService.
Import Observe StoreFacts.

Lemma patch_task_id now p t : t_id (patch_task now p t) = t_id t.
Proof. reflexivity. Qed.

Lemma patch_task_scheduledAt now p t :
  t_scheduledAt (patch_task now p t) = t_scheduledAt t.
Proof. reflexivity. Qed.

Lemma claim_patch_twice stamp t :
  patch_task stamp (claim_patch stamp) (patch_task stamp (claim_patch stamp) t)
  = patch_task stamp (claim_patch stamp) t.
Proof. reflexivity. Qed.

Lemma claim_batch_nil stamp rows : claim_batch stamp [] rows = rows.
Proof. unfold claim_batch, update_where. simpl. apply map_id. Qed.

(** The updates [fetchTasks] issues one by one amount to one batch claim. *)
Lemma claim_all stamp batch w :
  tasks (fold_left (claim stamp) batch w) = claim_batch stamp batch (tasks w).
Proof.
  revert w. induction batch as [|b batch IH]; intros w; simpl.
  - symmetry. apply claim_batch_nil.
  - rewrite IH. unfold claim, claim_batch, update_where. simpl.
    rewrite map_map. apply map_ext. intros r.
    unfold task_has_id, id_in. simpl.
    destruct (t_id r =? t_id b)%string eqn:E; simpl.
    + destruct (existsb _ _); reflexivity.
    + reflexivity.
Qed.

Lemma claim_keeps_rest stamp batch w :
  let w' := fold_left (claim stamp) batch w in
  messages w' = messages w /\ devices w' = devices w
  /\ webhooks w' = webhooks w /\ messageQueue w' = messageQueue w
  /\ mediaQueue w' = mediaQueue w /\ groupQueue w' = groupQueue w.
Proof.
  revert w. induction batch as [|b batch IH]; intros w; simpl.
  - repeat split.
  - specialize (IH (claim stamp w b)). simpl in IH. exact IH.
Qed.

Lemma find_or_register_tasks now newId userId phone dd w device w1 :
  find_or_register now newId userId phone dd w = Ok (device, w1) ->
  tasks w1 = tasks w.
Proof.
  unfold find_or_register.
  destruct (find _ (devices w)).
  - intros [= _ <-]. reflexivity.
  - destruct (existsb _ (devices w)); [discriminate|].
    destruct (existsb _ (devices w)); [discriminate|].
    intros [= _ <-]. reflexivity.
Qed.

Lemma find_pending_tasks now userId deviceId w w1 :
  tasks w1 = tasks w ->
  find_pending now userId deviceId w1 = find_pending now userId deviceId w.
Proof. unfold find_pending. intros ->. reflexivity. Qed.

Lemma fetchTasks_fetched now stamp newId userId dd w :
  fetched now stamp userId w (snd (fetchTasks now stamp newId userId dd w)).
Proof.
  unfold fetchTasks.
  destruct (or_else _ _) as [phone|]; [|left; reflexivity].
  destruct (phone =? "")%string; [left; reflexivity|].
  destruct (find_or_register _ _ _ _ _ _) as [[device w1]|e] eqn:E;
    [|left; reflexivity].
  pose proof (find_or_register_tasks _ _ _ _ _ _ _ _ E) as Ht.
  right. exists (dev_id device).
  rewrite <- (find_pending_tasks now userId (dev_id device) w w1 Ht), <- Ht.
  destruct (promise_all _) as [l|e]; [destruct (ids_for_cache l)|];
    simpl; apply claim_all.
Qed.

Lemma getTasks_fetched now stamp userId body w :
  fetched now stamp userId w (snd (getTasks now stamp userId body w)).
Proof.
  unfold getTasks.
  destruct (find _ (devices w)) as [device|]; [|left; reflexivity].
  simpl. right. exists (dev_id device).
  match goal with
  | |- context [find_pending now userId (dev_id device) ?w1] =>
      rewrite (find_pending_tasks now userId (dev_id device) w w1 eq_refl)
  end.
  destruct (find_pending now userId (dev_id device) w) eqn:E.
  - simpl. symmetry. apply claim_batch_nil.
  - reflexivity.
Qed.

Lemma In_combine_update {A : Type} (sel : A -> bool) (f : A -> A)
  (rows : list A) (o n : A) :
  In (o, n) (combine rows (update_where sel f rows)) ->
  In o rows /\ n = if sel o then f o else o.
Proof.
  induction rows as [|r rows IH]; simpl; [intros []|].
  intros [[= <- <-]|H]; [auto|].
  destruct (IH H). auto.
Qed.

Lemma In_combine_same {A : Type} (rows : list A) (o n : A) :
  In (o, n) (combine rows rows) -> n = o.
Proof.
  induction rows as [|r rows IH]; simpl; [intros []|].
  intros [[= <- <-]|H]; auto.
Qed.

Lemma claimed_same o : claimed o o = false.
Proof. unfold claimed. destruct (TaskStatus_beq _ _); reflexivity. Qed.

Lemma unique_row {A B : Type} (f : A -> B) (rows : list A) (a b : A) :
  NoDup (map f rows) -> In a rows -> In b rows -> f a = f b -> a = b.
Proof.
  induction rows as [|r rows IH]; simpl; [intros _ []|].
  intros Hnd Ha Hb E. inversion Hnd as [|? ? Hnotin Hnd']; subst.
  destruct Ha as [<-|Ha], Hb as [<-|Hb]; auto.
  - exfalso. apply Hnotin. rewrite E. apply in_map, Hb.
  - exfalso. apply Hnotin. rewrite <- E. apply in_map, Ha.
Qed.

Lemma id_in_spec ids t : id_in ids t = true <-> In (t_id t) ids.
Proof.
  unfold id_in. rewrite existsb_exists. split.
  - intros [x [Hin E]]. apply String.eqb_eq in E. rewrite E. exact Hin.
  - intros H. exists (t_id t). split; [exact H | apply String.eqb_refl].
Qed.

(** A row a fetch moved to PROCESSING was one of the rows of its batch. *)
Lemma claimed_in_batch now stamp userId w w' o n :
  task_ids_unique w ->
  fetched now stamp userId w w' ->
  In (o, n) (claimed_rows w w') ->
  n = patch_task stamp (claim_patch stamp) o
  /\ exists deviceId,
       In o (find_pending now userId deviceId w)
       /\ tasks w' = claim_batch stamp (find_pending now userId deviceId w)
                       (tasks w).
Proof.
  intros Hnd Hf Hin. unfold claimed_rows in Hin.
  apply filter_In in Hin as [Hin Hc]. simpl in Hc.
  destruct Hf as [Hsame|[deviceId Hw']].
  - rewrite Hsame in Hin. apply In_combine_same in Hin. subst n.
    rewrite claimed_same in Hc. discriminate.
  - rewrite Hw' in Hin. unfold claim_batch in Hin.
    apply In_combine_update in Hin as [Ho Hn].
    destruct (id_in _ o) eqn:E.
    + split; [exact Hn|]. exists deviceId. split; [|exact Hw'].
      apply id_in_spec, in_map_iff in E as [b [Eb Hb]].
      pose proof (find_pending_In _ _ _ _ _ Hb) as [Hbt _].
      rewrite <- (unique_row t_id (tasks w) b o Hnd Hbt Ho Eb). exact Hb.
    + subst n. rewrite claimed_same in Hc. discriminate.
Qed.

Lemma filter_combine_update_le {A : Type} (q : A * A -> bool)
  (sel : A -> bool) (f : A -> A) (rows : list A) :
  (forall o, q (o, o) = false) ->
  (List.length (filter q (combine rows (update_where sel f rows)))
   <= List.length (filter sel rows))%nat.
Proof.
  intros Hq. induction rows as [|r rows IH]; simpl; [lia|].
  destruct (sel r); simpl.
  - destruct (q (r, f r)); simpl; lia.
  - rewrite Hq. exact IH.
Qed.

Lemma NoDup_map_filter {A B : Type} (f : A -> B) (p : A -> bool)
  (rows : list A) :
  NoDup (map f rows) -> NoDup (map f (filter p rows)).
Proof.
  induction rows as [|r rows IH]; simpl; [auto|].
  intros H. inversion H as [|? ? Hnotin Hnd]; subst.
  destruct (p r); simpl; [|auto].
  constructor; [|auto].
  intros Hin. apply Hnotin.
  apply in_map_iff in Hin as [x [E Hx]]. apply filter_In in Hx as [Hx _].
  rewrite <- E. apply in_map, Hx.
Qed.

Lemma selected_rows_le ids rows :
  NoDup (map t_id rows) ->
  (List.length (filter (id_in ids) rows) <= List.length ids)%nat.
Proof.
  intros Hnd.
  rewrite <- (length_map t_id (filter (id_in ids) rows)).
  apply NoDup_incl_length.
  - apply NoDup_map_filter, Hnd.
  - intros x Hx. apply in_map_iff in Hx as [t [<- Ht]].
    apply filter_In in Ht as [_ Ht]. apply id_in_spec, Ht.
Qed.

Lemma batch_claim_bound now stamp userId w w' :
  task_ids_unique w ->
  fetched now stamp userId w w' ->
  (List.length (claimed_rows w w') <= 10)%nat.
Proof.
  intros Hnd [Hsame|[deviceId Hw']]; unfold claimed_rows.
  - rewrite Hsame.
    assert (H : forall l : list Task,
               filter (fun on => claimed (fst on) (snd on)) (combine l l) = []).
    { induction l as [|r l IH]; simpl; [reflexivity|].
      rewrite claimed_same. exact IH. }
    rewrite H. simpl. lia.
  - rewrite Hw'. unfold claim_batch.
    eapply Nat.le_trans;
      [apply filter_combine_update_le; intros o; apply claimed_same|].
    eapply Nat.le_trans; [apply selected_rows_le, Hnd|].
    rewrite length_map. apply find_pending_length.
Qed.

Lemma promise_all_length {A : Type} (rs : list (Res A)) (l : list A) :
  promise_all rs = Ok l -> List.length l = List.length rs.
Proof.
  revert l. induction rs as [|r rs IH]; simpl; intros l.
  - intros [= <-]. reflexivity.
  - destruct r as [a|e]; [|discriminate].
    destruct (promise_all rs) as [l'|e]; [|discriminate].
    intros [= <-]. simpl. rewrite (IH l' eq_refl). reflexivity.
Qed.

Lemma filter_Boolean_length {A : Type} (l : list (option A)) :
  (List.length (filter_Boolean l) <= List.length l)%nat.
Proof.
  induction l as [|[a|] l IH]; simpl; lia.
Qed.

(** An instruction carries the id of the task it was converted from. *)
Lemma convert_id task deviceType m :
  snd (convertToMobZapFormat task deviceType) = Ok (Some m) ->
  mz_id m = t_id task.
Proof.
  unfold convertToMobZapFormat.
  destruct (t_type task); simpl;
    try destruct (format_destination (data_phoneNumber (t_data task)));
    try destruct (format_destinations (data_phoneNumbers (t_data task)));
    simpl; intros [= <-]; reflexivity.
Qed.

(** When no conversion threw and none returned [null], the instructions
    are those of the batch, in its order. *)
Lemma converted_ids deviceType batch mobzapTasks ids :
  promise_all
    (map (fun task => snd (convertToMobZapFormat task deviceType)) batch)
  = Ok mobzapTasks ->
  ids_for_cache mobzapTasks = Ok ids ->
  map mz_id (filter_Boolean mobzapTasks) = map t_id batch.
Proof.
  revert mobzapTasks ids.
  induction batch as [|b batch IH]; simpl; intros l ids.
  - intros [= <-] _. reflexivity.
  - destruct (snd (convertToMobZapFormat b deviceType)) as [m|e] eqn:E;
      [|discriminate].
    destruct (promise_all _) as [l'|e]; [|discriminate].
    intros [= <-]. simpl.
    destruct m as [m|]; [|discriminate].
    destruct (ids_for_cache l') as [ids'|e] eqn:E'; [|discriminate].
    intros _. simpl. rewrite (convert_id _ _ _ E).
    f_equal. apply (IH l' ids'); [reflexivity | exact E'].
Qed.

(** The batch of a fetch is sorted by the dispatch order, and no eligible
    row left out of it is ahead of a row in it. *)
Lemma find_pending_sorted now userId deviceId w :
  StronglySorted ahead (find_pending now userId deviceId w).
Proof.
  unfold find_pending.
  set (sorted := orderBy before _).
  assert (Hs : StronglySorted (fun a b => before a b = true) sorted)
    by (apply orderBy_sorted; [apply before_total | apply before_trans]).
  rewrite <- (firstn_skipn 10 sorted) in Hs.
  apply strongly_sorted_app in Hs as [Hs _].
  induction Hs as [|a l Hl IH Hall]; constructor; [exact IH|].
  rewrite Forall_forall in *. intros b Hb. apply before_spec, Hall, Hb.
Qed.

Lemma find_pending_first now userId deviceId w a b :
  In a (find_pending now userId deviceId w) ->
  In b (tasks w) -> eligible now userId deviceId b = true ->
  ~ In b (find_pending now userId deviceId w) ->
  ahead a b.
Proof.
  unfold find_pending.
  set (sorted := orderBy before _).
  intros Ha Hb He Hnot.
  assert (Hs : StronglySorted (fun a b => before a b = true) sorted)
    by (apply orderBy_sorted; [apply before_total | apply before_trans]).
  assert (Hin : In b sorted).
  { eapply Permutation_in; [apply orderBy_perm|].
    apply filter_In. split; assumption. }
  rewrite <- (firstn_skipn 10 sorted) in Hs, Hin.
  apply strongly_sorted_app in Hs as [_ Hcross].
  apply in_app_or in Hin as [Hin|Hin]; [contradiction|].
  apply before_spec, Hcross; assumption.
Qed.

Lemma fetchTasks_result now stamp newId userId dd w l :
  fst (fetchTasks now stamp newId userId dd w) = Ok l ->
  exists deviceId,
    map mz_id l = map t_id (find_pending now userId deviceId w)
    /\ tasks (snd (fetchTasks now stamp newId userId dd w))
       = claim_batch stamp (find_pending now userId deviceId w) (tasks w).
Proof.
  unfold fetchTasks.
  destruct (or_else _ _) as [phone|]; [|discriminate].
  destruct (phone =? "")%string; [discriminate|].
  destruct (find_or_register _ _ _ _ _ _) as [[device w1]|e] eqn:E;
    [|discriminate].
  pose proof (find_or_register_tasks _ _ _ _ _ _ _ _ E) as Ht.
  rewrite (find_pending_tasks now userId (dev_id device) w w1 Ht).
  destruct (promise_all _) as [ms|e] eqn:Ep; [|discriminate].
  destruct (ids_for_cache ms) as [ids|e] eqn:Ei; [|discriminate].
  simpl. intros [= <-]. exists (dev_id device). split.
  - eapply converted_ids; eassumption.
  - rewrite claim_all, Ht. reflexivity.
Qed.

Lemma getTasks_result now stamp userId body w c l :
  fst (getTasks now stamp userId body w) = Json_ c l ->
  exists device,
    l = filter_Boolean
          (map (format_task device)
             (find_pending now userId (dev_id device) w))
    /\ tasks (snd (getTasks now stamp userId body w))
       = claim_batch stamp (find_pending now userId (dev_id device) w)
           (tasks w).
Proof.
  unfold getTasks.
  destruct (find _ (devices w)) as [device|]; [|discriminate].
  simpl.
  match goal with
  | |- context [find_pending now userId (dev_id device) ?w1] =>
      rewrite (find_pending_tasks now userId (dev_id device) w w1 eq_refl)
  end.
  intros [= _ <-]. exists device. split; [reflexivity|].
  destruct (find_pending now userId (dev_id device) w) eqn:E.
  - simpl. symmetry. apply claim_batch_nil.
  - reflexivity.
Qed.

(** The batch a fetch claims is taken in dispatch order.  The rows of
    the batch are sorted with higher priority first and, within a priority,
    earlier [createdAt] first; every eligible pending row left out of the
    batch comes after every row in it; and the instructions [fetchTasks]
    returns are those of the batch, in that order. *)
Theorem fetch_follows_dispatch_order (now stamp : Time) (newId userId : Id)
  (dd : MobZapDevice) (w : World) (l : list MobZapTask) :
  fst (fetchTasks now stamp newId userId dd w) = Ok l ->
  exists deviceId,
    let batch := find_pending now userId deviceId w in
    map mz_id l = map t_id batch
    /\ tasks (snd (fetchTasks now stamp newId userId dd w))
       = claim_batch stamp batch (tasks w)
    /\ StronglySorted ahead batch
    /\ (forall a b,
          In a batch -> In b (tasks w) ->
          eligible now userId deviceId b = true -> ~ In b batch ->
          ahead a b).
Proof.
  intros H. apply fetchTasks_result in H as [deviceId [Hids Hclaim]].
  exists deviceId. simpl. repeat split.
  - exact Hids.
  - exact Hclaim.
  - apply find_pending_sorted.
  - apply find_pending_first.
Qed.

(** The high-priority task is fetched first; the task scheduled for 900
    is left alone at time 100. *)
Lemma fetch_follows_dispatch_order_witness :
  exists deviceId,
    let batch := find_pending 100 "u1" deviceId Scenario.three_tasks in
    map mz_id Scenario.three_tasks_fetched = map t_id batch
    /\ tasks (snd (fetchTasks 100 101 "d9" "u1" Scenario.fetch_body
                     Scenario.three_tasks))
       = claim_batch 101 batch (tasks Scenario.three_tasks)
    /\ StronglySorted ahead batch
    /\ (forall a b,
          In a batch -> In b (tasks Scenario.three_tasks) ->
          eligible 100 "u1" deviceId b = true -> ~ In b batch ->
          ahead a b).
Proof.
  apply (fetch_follows_dispatch_order 100 101 "d9" "u1" Scenario.fetch_body
           Scenario.three_tasks).
  vm_compute. reflexivity.
Defined.

Example fetch_order_example :
  map t_id (find_pending 100 "u1" "d1" Scenario.three_tasks) = ["t2"; "t1"].
Proof. reflexivity. Qed.

(** C10: a fetch hands out at most ten tasks.  The list [fetchTasks] (or
    [getTasks]) answers with has at most ten entries, and the call moves at
    most ten rows of the task table to PROCESSING. *)
Theorem fetch_claims_at_most_ten (now stamp : Time) (newId userId : Id)
  (dd : MobZapDevice) (w : World) :
  task_ids_unique w ->
  (forall l, fst (fetchTasks now stamp newId userId dd w) = Ok l ->
             (List.length l <= 10)%nat)
  /\ (List.length
        (claimed_rows w (snd (fetchTasks now stamp newId userId dd w)))
      <= 10)%nat
  /\ (forall c l, fst (getTasks now stamp userId dd w) = Json_ c l ->
                  (List.length l <= 10)%nat)
  /\ (List.length (claimed_rows w (snd (getTasks now stamp userId dd w)))
      <= 10)%nat.
Proof.
  intros Hnd. repeat split.
  - intros l H. apply fetchTasks_result in H as [deviceId [Hids _]].
    rewrite <- (length_map mz_id), Hids, length_map.
    apply find_pending_length.
  - eapply batch_claim_bound; [exact Hnd|].
    apply fetchTasks_fetched.
  - intros c l H. apply getTasks_result in H as [device [-> _]].
    eapply Nat.le_trans; [apply filter_Boolean_length|].
    rewrite length_map. apply find_pending_length.
  - eapply batch_claim_bound; [exact Hnd|].
    apply getTasks_fetched.
Qed.

(** A fetch never claims a task ahead of its schedule: every row that
    [fetchTasks] or [getTasks] moves to PROCESSING was PENDING, is stamped
    with the claim time in [executedAt], and has no [scheduledAt] or one
    that is not after the query time, hence not after the claim time. *)
Lemma fetch_claims_due_tasks (now stamp : Time) (newId userId : Id)
  (dd : MobZapDevice) (w : World) (o n : Task) :
  task_ids_unique w -> now <= stamp ->
  In (o, n) (claimed_rows w (snd (fetchTasks now stamp newId userId dd w)))
  \/ In (o, n) (claimed_rows w (snd (getTasks now stamp userId dd w))) ->
  t_status o = PENDING /\ t_status n = PROCESSING
  /\ t_executedAt n = Some stamp
  /\ scheduled_by now n /\ scheduled_by stamp n.
Proof.
  intros Hnd Hle Hin.
  assert (H : exists w', fetched now stamp userId w w'
                         /\ In (o, n) (claimed_rows w w')).
  { destruct Hin as [Hin|Hin]; eexists; (split; [|exact Hin]).
    - apply fetchTasks_fetched.
    - apply getTasks_fetched. }
  destruct H as [w' [Hf Hin']].
  destruct (claimed_in_batch _ _ _ _ _ _ _ Hnd Hf Hin')
    as [-> [deviceId [Hb _]]].
  apply find_pending_In in Hb as [_ He].
  apply eligible_spec in He as (_ & _ & Hs & Hdue).
  apply due_spec in Hdue.
  repeat split; try assumption; try reflexivity.
  unfold scheduled_by. simpl.
  destruct Hdue as [H|[s [H Hs']]]; [left; exact H|].
  right. exists s. split; [exact H | lia].
Qed.

(** [createTask] hands a task to a Bull queue only when the request has no
    [scheduledAt]. *)
Lemma createTask_queues_unscheduled maxRetries post added now today newId userId
  (b : CreateBody) (w : World) :
  body_scheduledAt b <> None ->
  let w' := snd (createTask maxRetries post added now today newId userId b w) in
  messageQueue w' = messageQueue w /\ mediaQueue w' = mediaQueue w
  /\ groupQueue w' = groupQueue w.
Proof.
  intros Hsched. unfold createTask.
  destruct (negb (valid_create b)); [repeat split|].
  destruct (match body_deviceId b with Some _ => _ | None => _ end);
    [repeat split|].
  destruct (active_licenses now userId w) as [|license rest];
    [repeat split|].
  destruct (match lic_messageLimit license with Some _ => _ | None => _ end);
    [repeat split|].
  destruct (existsb _ (tasks w)); [repeat split|].
  destruct (body_scheduledAt b); [|contradiction].
  repeat split.
Qed.

Example fetch_leaves_scheduled_task :
  map (fun t => (t_id t, t_status t))
    (tasks (snd (fetchTasks 100 101 "d9" "u1" Scenario.fetch_body
                   Scenario.three_tasks)))
  = [("t1", PROCESSING); ("t2", PROCESSING); ("t3", PENDING)].
Proof. reflexivity. Qed.

(** Of twelve eligible tasks a fetch claims the ten created first. *)
Lemma fetch_claims_at_most_ten_witness :
  (forall l, fst (fetchTasks 100 101 "d9" "u1" Scenario.fetch_body
                    Scenario.twelve_tasks) = Ok l ->
             le (List.length l) 10%nat)
  /\ le (List.length
          (claimed_rows Scenario.twelve_tasks
             (snd (fetchTasks 100 101 "d9" "u1" Scenario.fetch_body
                     Scenario.twelve_tasks)))) 10%nat
  /\ (forall c l, fst (getTasks 100 101 "u1" Scenario.fetch_body
                         Scenario.twelve_tasks) = Json_ c l ->
                  le (List.length l) 10%nat)
  /\ le (List.length
          (claimed_rows Scenario.twelve_tasks
             (snd (getTasks 100 101 "u1" Scenario.fetch_body
                     Scenario.twelve_tasks)))) 10%nat.
Proof.
  apply (fetch_claims_at_most_ten 100 101 "d9" "u1" Scenario.fetch_body
           Scenario.twelve_tasks).
  unfold task_ids_unique. simpl.
  repeat (constructor; [simpl; intuition discriminate|]). constructor.
Defined.

Example fetch_twelve_example :
  List.length
    (claimed_rows Scenario.twelve_tasks
       (snd (fetchTasks 100 101 "d9" "u1" Scenario.fetch_body
               Scenario.twelve_tasks))) = 10%nat
  /\ map t_status
       (skipn 10 (tasks (snd (fetchTasks 100 101 "d9" "u1" Scenario.fetch_body
                                Scenario.twelve_tasks))))
     = [PENDING; PENDING].
Proof. split; reflexivity. Qed.

End FetchFacts.

(** ** Cancelling a task *)

Module CancelFacts.
Import Store MobZapService TaskController Observe StoreFacts FetchFacts.

Lemma owned_task_spec taskId userId t :
  owned_task taskId userId t = true <-> t_id t = taskId /\ t_userId t = userId.
Proof.
  unfold owned_task. rewrite andb_true_iff, !String.eqb_eq. reflexivity.
Qed.

Lemma status_beq_spec (a b : TaskStatus) :
  TaskStatus_beq a b = true <-> a = b.
Proof.
  split; [|intros ->; destruct b; reflexivity].
  destruct a, b; simpl; congruence.
Qed.

Lemma In_update_where {A : Type} (sel : A -> bool) (f : A -> A)
  (rows : list A) (r : A) :
  In r rows -> In (if sel r then f r else r) (update_where sel f rows).
Proof.
  intros H. unfold update_where.
  apply (in_map (fun r => if sel r then f r else r)), H.
Qed.



(** Scenario C: the task already handed to the device is not. *)
Example cancel_processing_rejected :
  cancelTask 50 "u1" "t1" Scenario.one_processing
  = (Fail 404 "Task not found or cannot be cancelled",
     Scenario.one_processing).
Proof. reflexivity. Qed.

End CancelFacts.

(** ** Translating a task *)

Module TranslateFacts.
Import Store Phone MobZapService TaskController Spec Observe.

Lemma format_destination_usable (v : option JsValue) :
  match v with
  | Some (JStr phone) => format_destination v = Ok (formatPhoneNumber phone)
  | _ => exists e, format_destination v = Throw e
                   /\ In e conversion_type_errors
  end.
Proof.
  destruct v as [[|phone|items|raw]|]; simpl;
    try (eexists; split; [reflexivity | simpl; tauto]).
  reflexivity.
Qed.

Lemma format_all_usable (items : list JsValue) :
  if forallb is_string items
  then exists numbers, format_all items = Ok numbers
  else exists e, format_all items = Throw e /\ In e conversion_type_errors.
Proof.
  induction items as [|n rest IH]; simpl; [eauto|].
  destruct n as [|phone|inner|raw]; simpl;
    try (eexists; split; [reflexivity | simpl; tauto]).
  destruct (forallb is_string rest).
  - destruct IH as [numbers ->]. eauto.
  - destruct IH as (e & -> & He). eauto.
Qed.

Lemma format_destinations_usable (v : option JsValue) :
  match v with
  | Some (JArr items) =>
      if forallb is_string items
      then exists numbers, format_destinations v = Ok numbers
      else exists e, format_destinations v = Throw e
                     /\ In e conversion_type_errors
  | _ => exists e, format_destinations v = Throw e
                   /\ In e conversion_type_errors
  end.
Proof.
  destruct v as [[|phone|items|raw]|]; simpl;
    try (eexists; split; [reflexivity | simpl; tauto]).
  apply format_all_usable.
Qed.

(** What the conversion does with a task it has a case for: it throws one
    of the type errors when the destination is not usable, and returns an
    instruction for the task otherwise. *)
Lemma convert_outcome (task : Task) (deviceType : DeviceType) :
  t_type task <> SCHEDULED_MESSAGE ->
  fst (convertToMobZapFormat task deviceType) = []
  /\ if no_usable_destination task
     then exists e, snd (convertToMobZapFormat task deviceType) = Throw e
                    /\ In e conversion_type_errors
     else exists m, snd (convertToMobZapFormat task deviceType) = Ok (Some m)
                    /\ mz_id m = t_id task.
Proof.
  intros Hty. unfold convertToMobZapFormat, no_usable_destination.
  pose proof (format_destination_usable (data_phoneNumber (t_data task)))
    as Hone.
  pose proof (format_destinations_usable (data_phoneNumbers (t_data task)))
    as Hmany.
  destruct (t_type task); try congruence; simpl.
  - destruct (data_phoneNumber (t_data task)) as [[|phone|items|raw]|];
      try (destruct Hone as (e & -> & He); simpl; eauto).
    rewrite Hone. simpl. eauto.
  - destruct (data_phoneNumber (t_data task)) as [[|phone|items|raw]|];
      try (destruct Hone as (e & -> & He); simpl; eauto).
    rewrite Hone. simpl. eauto.
  - eauto.
  - eauto.
  - eauto.
  - destruct (data_phoneNumbers (t_data task)) as [[|phone|items|raw]|];
      try (destruct Hmany as (e & -> & He); simpl; eauto).
    simpl in Hmany. destruct (forallb is_string items); simpl.
    + destruct Hmany as [numbers ->]. simpl. eauto.
    + destruct Hmany as (e & -> & He). simpl. eauto.
Qed.

(** C7, as the code has it: [convertToMobZapFormat] raises neither an
    unknown-category nor a malformed-payload error.  For the task type it
    has no case for it logs one warning and returns [null].  For the other
    types it checks nothing and logs nothing: it throws exactly when the
    destination it formats is absent or of the wrong shape (a [phoneNumber]
    that is not a string, [phoneNumbers] that is not an array of strings),
    the error then being the [TypeError] of the failed method call, and
    otherwise it returns an instruction for the task, whatever other field
    is absent.  [getTasks] maps GROUP_LEAVE and SCHEDULED_MESSAGE tasks to
    [null], which its answer leaves out. *)
Theorem convert_reports_no_category_error (task : Task)
  (deviceType : DeviceType) (device : Device) :
  (t_type task = SCHEDULED_MESSAGE ->
   convertToMobZapFormat task deviceType
   = (["Unknown task type: SCHEDULED_MESSAGE"], Ok None))
  /\ (t_type task <> SCHEDULED_MESSAGE ->
      fst (convertToMobZapFormat task deviceType) = []
      /\ ((exists e, snd (convertToMobZapFormat task deviceType) = Throw e)
          <-> no_usable_destination task = true)
      /\ (forall e,
            snd (convertToMobZapFormat task deviceType) = Throw e ->
            In e conversion_type_errors)
      /\ (no_usable_destination task = false ->
          exists m, snd (convertToMobZapFormat task deviceType) = Ok (Some m)
                    /\ mz_id m = t_id task))
  /\ (format_task device task = None
      <-> t_type task = GROUP_LEAVE \/ t_type task = SCHEDULED_MESSAGE).
Proof.
  split; [|split].
  - intros Hty. unfold convertToMobZapFormat. rewrite Hty. reflexivity.
  - intros Hty. destruct (convert_outcome task deviceType Hty) as [Hlog Hout].
    split; [exact Hlog|].
    destruct (no_usable_destination task).
    + destruct Hout as (e & He & Hin). split; [|split].
      * split; [reflexivity | intros _; eauto].
      * intros e' He'. rewrite He in He'. injection He' as <-. exact Hin.
      * discriminate.
    + destruct Hout as (m & Hm & Hid). split; [|split].
      * split; [|discriminate]. intros [e He]. rewrite Hm in He.
        discriminate.
      * intros e He. rewrite Hm in He. discriminate.
      * intros _. eauto.
  - unfold format_task. split.
    + destruct (t_type task); intros He; try discriminate; auto.
    + intros [He|He]; rewrite He; reflexivity.
Qed.

(** The MESSAGE task without a body and device [d1]; and a MESSAGE task
    whose [phoneNumber] is a number, for which the conversion throws. *)
Lemma convert_reports_no_category_error_witness :
  (t_type Scenario.message_without_body <> SCHEDULED_MESSAGE
   /\ fst (convertToMobZapFormat Scenario.message_without_body NORMAL) = []
   /\ no_usable_destination Scenario.message_without_body = false
   /\ exists m, snd (convertToMobZapFormat Scenario.message_without_body
                       NORMAL) = Ok (Some m)
                /\ mz_id m = t_id Scenario.message_without_body)
  /\ (t_type Scenario.message_to_a_number <> SCHEDULED_MESSAGE
      /\ no_usable_destination Scenario.message_to_a_number = true
      /\ snd (convertToMobZapFormat Scenario.message_to_a_number NORMAL)
         = Throw no_replace
      /\ In no_replace conversion_type_errors).
Proof.
  assert (H1 : t_type Scenario.message_without_body <> SCHEDULED_MESSAGE)
    by discriminate.
  assert (H2 : t_type Scenario.message_to_a_number <> SCHEDULED_MESSAGE)
    by discriminate.
  destruct (proj1 (proj2 (convert_reports_no_category_error
                            Scenario.message_without_body NORMAL
                            Scenario.device1)) H1)
    as (Ha & _ & _ & Hd).
  destruct (proj1 (proj2 (convert_reports_no_category_error
                            Scenario.message_to_a_number NORMAL
                            Scenario.device1)) H2)
    as (_ & _ & Hc & _).
  split.
  - split; [exact H1|]. split; [exact Ha|]. split; [reflexivity|].
    exact (Hd eq_refl).
  - split; [exact H2|]. split; [reflexivity|]. split; [reflexivity|].
    exact (Hc no_replace eq_refl).
Defined.

(** C7 fails as stated: a MESSAGE task without its body text is translated
    without any error, a task of an unrecognized category is translated to
    [null] without any error, and [getTasks] answers 200 with an empty list
    for it while marking it PROCESSING. *)
Lemma malformed_and_unknown_tasks_pass :
  spec_lacks_required_field Scenario.message_without_body = true
  /\ convertToMobZapFormat Scenario.message_without_body NORMAL
     = ([], Ok (Some {| mz_id := "t7"; mz_type := chat; mz_package := normal;
                        mz_number := Some (JStr "5511999887766");
                        mz_numbers := None; mz_text := None; mz_url := None;
                        mz_mediaType := None; mz_link := None;
                        mz_groupId := None; mz_actionChat := Some send;
                        mz_delay := None |}))
  /\ spec_recognized (t_type Scenario.scheduled_message) = false
  /\ snd (convertToMobZapFormat Scenario.scheduled_message NORMAL) = Ok None
  /\ fst (getTasks 100 101 "u1" Scenario.fetch_body
            Scenario.one_scheduled_message) = Json_ 200 []
  /\ map t_status
       (tasks (snd (getTasks 100 101 "u1" Scenario.fetch_body
                      Scenario.one_scheduled_message))) = [PROCESSING].
Proof. repeat split; reflexivity. Qed.

(** In [fetchTasks] the [null] of an unrecognized task makes the whole
    fetch reject, after the batch was marked PROCESSING. *)
Example fetch_rejects_on_null :
  fst (fetchTasks 100 101 "d9" "u1" Scenario.fetch_body
         Scenario.one_scheduled_message) = Throw null_id
  /\ map t_status
       (tasks (snd (fetchTasks 100 101 "d9" "u1" Scenario.fetch_body
                      Scenario.one_scheduled_message))) = [PROCESSING].
Proof. split; reflexivity. Qed.

(** The expectation of the unit test [should convert MESSAGE task
    correctly]. *)
Example convert_message_test :
  snd (convertToMobZapFormat
         (Scenario.mk_task "task_123" MESSAGE PENDING 5 None 0
            (Scenario.text_data "11999887766" "Test message")) NORMAL)
  = Ok (Some {| mz_id := "task_123"; mz_type := chat; mz_package := normal;
                mz_number := Some (JStr "5511999887766"); mz_numbers := None;
                mz_text := Some "Test message"; mz_url := None;
                mz_mediaType := None; mz_link := None; mz_groupId := None;
                mz_actionChat := Some send; mz_delay := None |}).
Proof. reflexivity. Qed.

End TranslateFacts.

(** ** Webhook deliveries *)

Module WebhookFacts.
Import Store WebhookService StoreFacts Observe.

(** [triggerWebhook] touches the webhook table only. *)
Lemma triggerWebhook_rest maxRetries post now userId event w :
  let w' := triggerWebhook maxRetries post now userId event w in
  tasks w' = tasks w /\ messages w' = messages w /\ devices w' = devices w
  /\ messageQueue w' = messageQueue w /\ mediaQueue w' = mediaQueue w
  /\ groupQueue w' = groupQueue w.
Proof. repeat split. Qed.

(** A webhook that is not active is not posted to. *)
Lemma inactive_not_targeted userId event w h :
  In h (targets userId event w) -> wh_isActive h = true.
Proof.
  unfold targets. intros H. apply filter_In in H as [_ H].
  unfold subscribed in H.
  apply andb_true_iff in H as [H _]. apply andb_true_iff in H as [_ H].
  exact H.
Qed.

Lemma deliver_failure maxRetries post now table webhook :
  post webhook = false ->
  deliver maxRetries post now table webhook
  = update_where (webhook_has_id (wh_id webhook))
      (after_failure maxRetries webhook) table.
Proof.
  intros Hp. unfold deliver, after_failure. rewrite Hp.
  destruct (maxRetries <=? wh_failureCount webhook); [|reflexivity].
  apply update_where_twice. reflexivity.
Qed.

(** A successful post resets the failure count to zero. *)
Lemma deliver_success maxRetries post now table webhook :
  post webhook = true ->
  deliver maxRetries post now table webhook
  = update_where (webhook_has_id (wh_id webhook)) (reset_failures now) table
  /\ wh_failureCount (reset_failures now webhook) = 0
  /\ wh_isActive (reset_failures now webhook) = wh_isActive webhook.
Proof.
  intros Hp. unfold deliver. rewrite Hp. repeat split.
Qed.

(** After a failed post of an active webhook the row is still active
    exactly when its new failure count does not exceed [maxRetries]. *)
Lemma active_after_failure maxRetries h :
  wh_isActive h = true ->
  wh_failureCount (after_failure maxRetries h h) = wh_failureCount h + 1
  /\ (wh_isActive (after_failure maxRetries h h) = true
      <-> wh_failureCount (after_failure maxRetries h h) <= maxRetries).
Proof.
  intros Ha. unfold after_failure.
  destruct (maxRetries <=? wh_failureCount h) eqn:E; simpl.
  - apply Z.leb_le in E. split; [reflexivity|].
    split; [discriminate | lia].
  - apply Z.leb_gt in E. split; [reflexivity|].
    split; [lia | intros _; exact Ha].
Qed.

(** C9 at the failing input: with WEBHOOK_MAX_RETRIES = 3, a webhook that
    has failed twice fails a third time.  Its failure count is now 3, the
    configured maximum, and it is still active, so the next event is posted
    to it; only that fourth failure disables it, at count 4. *)
Theorem webhook_not_disabled_at_max :
  let w0 := Scenario.world_of [] [] [Scenario.webhook1 2] in
  let w1 := triggerWebhook default_max_retries Scenario.post_fails 100 "u1" "task.completed"
              w0 in
  let w2 := triggerWebhook default_max_retries Scenario.post_fails 200 "u1" "task.completed"
              w1 in
  map (fun h => (wh_failureCount h, wh_isActive h)) (webhooks w1)
  = [(3, true)]
  /\ map wh_id (targets "u1" "task.completed" w1) = ["h1"]
  /\ map (fun h => (wh_failureCount h, wh_isActive h)) (webhooks w2)
     = [(4, false)]
  /\ targets "u1" "task.completed" w2 = [].
Proof. repeat split; reflexivity. Qed.

(** A 2xx answer resets the count. *)
Example webhook_success_resets :
  map (fun h => (wh_failureCount h, wh_isActive h, wh_lastTriggered h))
    (webhooks (triggerWebhook 3 Scenario.post_succeeds 100 "u1"
                 "task.completed"
                 (Scenario.world_of [] [] [Scenario.webhook1 2])))
  = [(0, true, Some 100)].
Proof. reflexivity. Qed.

End WebhookFacts.

(** ** The message worker *)

Module WorkerFacts.
Import Store WebhookService MobZapService QueueService StoreFacts Observe.
Import WebhookFacts.

Lemma existsb_update_where {A : Type} (sel : A -> bool) (f : A -> A)
  (rows : list A) :
  (forall r, sel (f r) = sel r) ->
  existsb sel (update_where sel f rows) = existsb sel rows.
Proof.
  intros H. induction rows as [|r rows IH]; simpl; [reflexivity|].
  rewrite IH. destruct (sel r) eqn:E; [rewrite H, E | rewrite E]; reflexivity.
Qed.

Lemma task_update_exists now id p w :
  existsb (task_has_id id) (tasks w) = true ->
  task_update now id p w
  = Ok (with_tasks w
          (update_where (task_has_id id) (patch_task now p) (tasks w))).
Proof.
  intros H. unfold task_update, update_or_throw. rewrite H. reflexivity.
Qed.

Lemma In_update_where_inv {A : Type} (sel : A -> bool) (f : A -> A)
  (rows : list A) (x : A) :
  In x (update_where sel f rows) ->
  exists r, In r rows /\ x = if sel r then f r else r.
Proof.
  unfold update_where. intros H. apply in_map_iff in H as [r [E Hr]].
  exists r. auto.
Qed.




(** A send that rejects marks the task FAILED and counts a retry. *)
Example worker_failure_example :
  let out := process_message (fun _ _ => Throw "Device offline") 3
               Scenario.post_succeeds 100 "m1" Scenario.job1
               Scenario.one_pending in
  fst out = Throw "Device offline"
  /\ map (fun t => (t_status t, t_error t, t_retryCount t)) (tasks (snd out))
     = [(FAILED, Some "Device offline", 1)].
Proof. split; reflexivity. Qed.

End WorkerFacts.

(** ** Reconciling callbacks *)

Module CallbackFacts.
Import Store MobZapService TaskController SocketServer Observe StoreFacts.
Import CancelFacts.

Lemma with_tasks_same w : with_tasks w (tasks w) = w.
Proof. destruct w; reflexivity. Qed.

Lemma with_messages_same w : with_messages w (messages w) = w.
Proof. destruct w; reflexivity. Qed.

Lemma owned_has_id taskId userId t :
  owned_task taskId userId t = true -> task_has_id taskId t = true.
Proof.
  unfold owned_task, task_has_id. intros H.
  apply andb_true_iff in H as [H _]. exact H.
Qed.

(** The task of a callback is found again after the callback's update. *)
Lemma find_owned_after now cb userId rows task :
  find (owned_task (cb_taskId cb) userId) rows = Some task ->
  find (owned_task (cb_taskId cb) userId) (apply_task_patch now cb rows)
  = Some (patch_task now (callback_patch now cb) task).
Proof.
  intros H. unfold apply_task_patch.
  rewrite (find_update_where (owned_task (cb_taskId cb) userId)
             (task_has_id (cb_taskId cb))
             (patch_task now (callback_patch now cb)) _ task
             (fun _ => eq_refl) H).
  apply find_some in H as [_ H]. rewrite (owned_has_id _ _ _ H). reflexivity.
Qed.

Lemma message_of_task_patch now p taskId m :
  message_of_task taskId (patch_message now p m) = message_of_task taskId m.
Proof. reflexivity. Qed.

Lemma message_has_own_id m : message_has_id (m_id m) m = true.
Proof. unfold message_has_id. apply String.eqb_refl. Qed.

Lemma patched_message_id now cb m : m_id (patched_message now cb m) = m_id m.
Proof.
  unfold patched_message. destruct (callback_message_patch now cb);
    reflexivity.
Qed.

Lemma find_message_after now cb rows m :
  find (message_of_task (cb_taskId cb)) rows = Some m ->
  find (message_of_task (cb_taskId cb))
    (apply_message_patch now cb (m_id m) rows)
  = Some (patched_message now cb m).
Proof.
  intros H. unfold apply_message_patch, patched_message.
  destruct (callback_message_patch now cb) as [p|]; [|exact H].
  rewrite (find_update_where (message_of_task (cb_taskId cb))
             (message_has_id (m_id m))
             (patch_message now p) _ m (fun _ => eq_refl) H).
  rewrite message_has_own_id. reflexivity.
Qed.

Lemma reconcile_found now newId userId task cb w m :
  find (message_of_task (cb_taskId cb)) (messages w) = Some m ->
  reconcile_message now newId userId task cb w
  = (Ok CallbackProcessed,
     with_messages w (apply_message_patch now cb (m_id m) (messages w))).
Proof.
  intros H. unfold reconcile_message, apply_message_patch. rewrite H.
  destruct (callback_message_patch now cb); [reflexivity|].
  rewrite with_messages_same. reflexivity.
Qed.

Lemma message_create_ok now newId d w m w' :
  message_create now newId d w = Ok (m, w') ->
  w' = with_messages w (messages w ++ [m])
  /\ m_id m = newId /\ m_taskId m = mi_taskId d
  /\ m_status m = keep MSG_PENDING (mi_status d).
Proof.
  unfold message_create.
  destruct (mi_deviceId d) as [dev|]; [|discriminate].
  destruct (mi_phoneNumber d) as [phone|]; [|discriminate].
  destruct (mi_messageType d) as [ty|]; [|discriminate].
  destruct (existsb _ (messages w)); [discriminate|].
  intros [= <- <-]. repeat split.
Qed.

Lemma reconcile_created now newId userId task cb w o w' :
  find (message_of_task (cb_taskId cb)) (messages w) = None ->
  reconcile_message now newId userId task cb w = (Ok o, w') ->
  exists m,
    m_taskId m = Some (t_id task) /\ m_status m = MSG_PENDING
    /\ o = CallbackProcessed
    /\ w' = with_messages w
              (apply_message_patch now cb (m_id m) (messages w ++ [m])).
Proof.
  intros H. unfold reconcile_message, apply_message_patch. rewrite H.
  destruct (message_create _ _ _ _) as [[m wm]|e] eqn:E; [|discriminate].
  apply message_create_ok in E as (-> & _ & Htid & Hst).
  intros H0. exists m.
  destruct (callback_message_patch now cb); injection H0 as <- <-;
    repeat split; assumption.
Qed.

(** What a processed callback leaves in the store. *)
Lemma processCallback_inv now newId userId cb w o w' :
  processCallback now newId userId cb w = (Ok o, w') ->
  (o = TaskNotFound /\ w' = w
   /\ find (owned_task (cb_taskId cb) userId) (tasks w) = None)
  \/ (o = CallbackProcessed
      /\ exists task,
           find (owned_task (cb_taskId cb) userId) (tasks w) = Some task
           /\ ((is_message_task task = false
                /\ w' = with_tasks w (apply_task_patch now cb (tasks w)))
               \/ (is_message_task task = true
                   /\ exists m rows,
                        find (message_of_task (cb_taskId cb)) rows = Some m
                        /\ w' = with_messages
                                  (with_tasks w
                                     (apply_task_patch now cb (tasks w)))
                                  (apply_message_patch now cb (m_id m) rows)
                        /\ (find (message_of_task (cb_taskId cb))
                              (messages w) = Some m
                            \/ (find (message_of_task (cb_taskId cb))
                                  (messages w) = None
                                /\ m_status m = MSG_PENDING))))).
Proof.
  unfold processCallback.
  destruct (find (owned_task _ _) (tasks w)) as [task|] eqn:Et.
  - fold (apply_task_patch now cb (tasks w)).
    destruct (is_message_task task) eqn:Em.
    + set (w1 := with_tasks w (apply_task_patch now cb (tasks w))).
      destruct (find (message_of_task (cb_taskId cb)) (messages w))
        as [m|] eqn:Ef.
      * rewrite (reconcile_found now newId userId task cb w1 m Ef).
        intros [= <- <-]. right. split; [reflexivity|].
        exists task. split; [reflexivity|]. right. split; [exact Em|].
        exists m, (messages w). auto.
      * intros H.
        destruct (reconcile_created now newId userId task cb w1 o w' Ef H)
          as (m & Htid & Hst & -> & ->).
        right. split; [reflexivity|].
        exists task. split; [reflexivity|]. right. split; [exact Em|].
        exists m, (messages w ++ [m])%list. split; [|split; [reflexivity|auto]].
        rewrite (find_app_none _ _ _ Ef).
        apply find_some in Et as [_ Et].
        apply owned_task_spec in Et as [Et _].
        unfold message_of_task, opt_id_eqb.
        rewrite Htid, Et, String.eqb_refl. reflexivity.
    + intros [= <- <-]. right. split; [reflexivity|].
      exists task. split; [reflexivity|]. left. auto.
  - intros [= <- <-]. left. auto.
Qed.

Lemma processCallback_plain now newId userId cb w task :
  find (owned_task (cb_taskId cb) userId) (tasks w) = Some task ->
  is_message_task task = false ->
  processCallback now newId userId cb w
  = (Ok CallbackProcessed, with_tasks w (apply_task_patch now cb (tasks w))).
Proof.
  intros Et Em. unfold processCallback. rewrite Et, Em. reflexivity.
Qed.

Lemma processCallback_message now newId userId cb w task m :
  find (owned_task (cb_taskId cb) userId) (tasks w) = Some task ->
  is_message_task task = true ->
  find (message_of_task (cb_taskId cb)) (messages w) = Some m ->
  processCallback now newId userId cb w
  = (Ok CallbackProcessed,
     with_messages (with_tasks w (apply_task_patch now cb (tasks w)))
       (apply_message_patch now cb (m_id m) (messages w))).
Proof.
  intros Et Em Ef. unfold processCallback. rewrite Et, Em.
  fold (apply_task_patch now cb (tasks w)).
  apply (reconcile_found now newId userId task cb
           (with_tasks w (apply_task_patch now cb (tasks w))) m Ef).
Qed.

(** A second task update of the same callback changes the clock-stamped
    columns only, and nothing at the same clock reading. *)
Lemma task_patch_again t1 t2 cb rows :
  map unstamp_task (apply_task_patch t2 cb (apply_task_patch t1 cb rows))
  = map unstamp_task (apply_task_patch t1 cb rows)
  /\ apply_task_patch t1 cb (apply_task_patch t1 cb rows)
     = apply_task_patch t1 cb rows.
Proof.
  unfold apply_task_patch, update_where. rewrite !map_map. split.
  - apply map_ext. intros r.
    destruct (task_has_id (cb_taskId cb) r) eqn:E.
    + change (task_has_id (cb_taskId cb)
                (patch_task t1 (callback_patch t1 cb) r))
        with (task_has_id (cb_taskId cb) r).
      rewrite E. unfold unstamp_task, patch_task, callback_patch. simpl.
      destruct (cb_status cb), (cb_result cb), (cb_error cb); reflexivity.
    + rewrite E. reflexivity.
  - apply map_ext. intros r.
    destruct (task_has_id (cb_taskId cb) r) eqn:E.
    + change (task_has_id (cb_taskId cb)
                (patch_task t1 (callback_patch t1 cb) r))
        with (task_has_id (cb_taskId cb) r).
      rewrite E. unfold patch_task, callback_patch. simpl.
      destruct (cb_status cb), (cb_result cb), (cb_error cb); reflexivity.
    + rewrite E. reflexivity.
Qed.

Lemma message_patch_again t1 t2 cb id rows :
  map unstamp_message
    (apply_message_patch t2 cb id (apply_message_patch t1 cb id rows))
  = map unstamp_message (apply_message_patch t1 cb id rows)
  /\ apply_message_patch t1 cb id (apply_message_patch t1 cb id rows)
     = apply_message_patch t1 cb id rows.
Proof.
  unfold apply_message_patch, callback_message_patch.
  destruct (cb_status cb); [| |split; reflexivity];
    unfold update_where; rewrite !map_map; split; apply map_ext; intros r;
    (destruct (message_has_id id r) eqn:E;
     [ match goal with
       | |- context [message_has_id id (patch_message ?n ?p r)] =>
           change (message_has_id id (patch_message n p r))
             with (message_has_id id r)
       end;
       rewrite E; unfold unstamp_message, patch_message; simpl;
       destruct (cb_deliveryInfo cb) as [[d rd [da|] [ra|]]|];
       destruct (cb_error cb); reflexivity
     | rewrite E; reflexivity ]).
Qed.

(** C1, as the code has it: [processCallback] does not look at the task's
    status, so a repeated callback is processed again.  After a callback
    that was processed, the same callback gives the same outcome, and the
    store it leaves equals the store after the first call up to the
    clock-stamped columns ([completedAt] and [updatedAt] of tasks,
    [deliveredAt] and [updatedAt] of messages); it is identical when both
    calls read the same clock value. *)
Theorem repeated_callback_restamps (t1 t2 : Time) (id1 id2 userId : Id)
  (cb : MobZapCallback) (w : World) (o : CallbackOutcome) (w1 : World) :
  processCallback t1 id1 userId cb w = (Ok o, w1) ->
  fst (processCallback t2 id2 userId cb w1) = Ok o
  /\ unstamped (snd (processCallback t2 id2 userId cb w1)) = unstamped w1
  /\ (t2 = t1 -> snd (processCallback t2 id2 userId cb w1) = w1).
Proof.
  intros H. apply processCallback_inv in H
    as [(-> & -> & Et)
       |(-> & task & Et & [[Em ->]|(Em & m & rows & Ef & -> & _)])].
  - unfold processCallback. rewrite Et. repeat split.
  - pose proof (find_owned_after t1 cb userId (tasks w) task Et) as Et2.
    rewrite (processCallback_plain t2 id2 userId cb
               (with_tasks w (apply_task_patch t1 cb (tasks w)))
               (patch_task t1 (callback_patch t1 cb) task) Et2 Em).
    destruct (task_patch_again t1 t2 cb (tasks w)) as [Hu Hs].
    simpl. split; [reflexivity|]. split.
    + unfold unstamped. simpl. rewrite Hu. reflexivity.
    + intros ->. rewrite Hs. reflexivity.
  - pose proof (find_owned_after t1 cb userId (tasks w) task Et) as Et2.
    pose proof (find_message_after t1 cb rows m Ef) as Ef2.
    rewrite (processCallback_message t2 id2 userId cb
               (with_messages
                  (with_tasks w (apply_task_patch t1 cb (tasks w)))
                  (apply_message_patch t1 cb (m_id m) rows))
               (patch_task t1 (callback_patch t1 cb) task)
               (patched_message t1 cb m) Et2 Em Ef2).
    rewrite patched_message_id.
    destruct (task_patch_again t1 t2 cb (tasks w)) as [Hu Hs].
    destruct (message_patch_again t1 t2 cb (m_id m) rows) as [Hmu Hms].
    simpl. split; [reflexivity|]. split.
    + unfold unstamped. simpl. rewrite Hu, Hmu. reflexivity.
    + intros ->. rewrite Hs, Hms. reflexivity.
Qed.

(** C2, as the code has it: the status a callback leaves in the task's
    message depends on the callback alone, not on the status stored before.
    After a processed callback for a MESSAGE or MEDIA task, the first
    message of the task is DELIVERED or SENT (by [deliveryInfo.delivered])
    for a completion, FAILED for a failure, and as it was (PENDING when just
    created) for a progress callback; and the [message_status] handler
    stores whatever status it is sent. *)
Theorem callback_overwrites_message_status (now : Time)
  (newId userId : Id) (cb : MobZapCallback) (w w' : World) (task : Task) :
  find (owned_task (cb_taskId cb) userId) (tasks w) = Some task ->
  is_message_task task = true ->
  processCallback now newId userId cb w = (Ok CallbackProcessed, w') ->
  (exists m,
     find (message_of_task (cb_taskId cb)) (messages w') = Some m
     /\ m_status m
        = match cb_status cb with
          | cb_completed => if delivered cb then DELIVERED else SENT
          | cb_failed => MSG_FAILED
          | cb_processing =>
              match find (message_of_task (cb_taskId cb)) (messages w) with
              | Some m0 => m_status m0
              | None => MSG_PENDING
              end
          end)
  /\ (forall time id status m0,
        find (message_has_id id) (messages w) = Some m0 ->
        exists m1,
          find (message_has_id id)
            (messages (message_status time id status w)) = Some m1
          /\ m_status m1 = status).
Proof.
  intros Et Em H. split.
  - apply processCallback_inv in H
      as [(Ho & _)|(_ & task' & Et' & [[Em' _]|(_ & m & rows & Ef & -> & Hm)])];
      [discriminate | congruence |].
    exists (patched_message now cb m). split.
    + simpl. apply find_message_after, Ef.
    + unfold patched_message, callback_message_patch.
      destruct (cb_status cb); simpl; try reflexivity.
      destruct Hm as [->|[-> Hp]]; [reflexivity | exact Hp].
  - intros time id status m0 Hf.
    unfold message_status, message_update, update_or_throw.
    rewrite (find_some_exists _ _ _ Hf). simpl.
    eexists. split.
    + apply (find_update_where (message_has_id id) (message_has_id id)
               (patch_message time (SocketServer.status_update time status))
               (messages w) m0 (fun _ => eq_refl) Hf).
    + apply find_some in Hf as [_ Hf]. rewrite Hf. reflexivity.
Qed.

(** The retried completion callback of the integration test, one hundred
    milliseconds later. *)
Lemma repeated_callback_restamps_witness :
  fst (processCallback 200 "m2" "u1" (Scenario.completed_callback "t1")
         Scenario.after_completion) = Ok CallbackProcessed
  /\ unstamped
       (snd (processCallback 200 "m2" "u1" (Scenario.completed_callback "t1")
               Scenario.after_completion))
     = unstamped Scenario.after_completion
  /\ (200 = 100 ->
      snd (processCallback 200 "m2" "u1" (Scenario.completed_callback "t1")
             Scenario.after_completion)
      = Scenario.after_completion).
Proof.
  apply (repeated_callback_restamps 100 200 "m1" "m2" "u1"
           (Scenario.completed_callback "t1") Scenario.one_processing
           CallbackProcessed Scenario.after_completion).
  reflexivity.
Defined.

(** C1 fails as stated: the task is COMPLETED after the first callback, and
    the same callback sent again is not a no-op: it moves [completedAt] of
    the task and [deliveredAt] of the message from 100 to 200. *)
Lemma repeated_callback_is_not_a_noop :
  let w1 := Scenario.after_completion in
  let w2 := snd (processCallback 200 "m2" "u1"
                   (Scenario.completed_callback "t1") w1) in
  map (fun t => (t_status t, t_completedAt t)) (tasks w1)
  = [(COMPLETED, Some 100)]
  /\ map (fun t => (t_status t, t_completedAt t)) (tasks w2)
     = [(COMPLETED, Some 200)]
  /\ map m_deliveredAt (messages w1) = [Some 100]
  /\ map m_deliveredAt (messages w2) = [Some 200]
  /\ w2 <> w1.
Proof.
  repeat split; try reflexivity.
  intros H. apply (f_equal (fun w => map t_completedAt (tasks w))) in H.
  discriminate H.
Qed.

(** In [updateTaskStatus] a repeated COMPLETED status inserts a second
    message for the task. *)
Example update_status_twice_example :
  let w1 := snd (updateTaskStatus 3 Scenario.post_succeeds 100 "m1" "u1" "t1"
                   COMPLETED None None Scenario.one_processing) in
  let w2 := snd (updateTaskStatus 3 Scenario.post_succeeds 200 "m2" "u1" "t1"
                   COMPLETED None None w1) in
  map m_id (messages w1) = ["m1"] /\ map m_id (messages w2) = ["m1"; "m2"].
Proof. split; reflexivity. Qed.

(** The message was read; the device retries its completion callback. *)
Lemma callback_overwrites_message_status_witness :
  (exists m,
     find (message_of_task "t1")
       (messages (snd (processCallback 300 "m2" "u1"
                         (Scenario.completed_callback "t1")
                         Scenario.after_read))) = Some m
     /\ m_status m = SENT)
  /\ (forall time id status m0,
        find (message_has_id id) (messages Scenario.after_read) = Some m0 ->
        exists m1,
          find (message_has_id id)
            (messages (message_status time id status Scenario.after_read))
          = Some m1
          /\ m_status m1 = status).
Proof.
  apply (callback_overwrites_message_status 300 "m2" "u1"
           (Scenario.completed_callback "t1") Scenario.after_read
           (snd (processCallback 300 "m2" "u1"
                   (Scenario.completed_callback "t1") Scenario.after_read))
           (patch_task 100 (callback_patch 100
                              (Scenario.completed_callback "t1"))
              (Scenario.mk_task "t1" MESSAGE PROCESSING 5 None 10
                 (Scenario.text_data "+5511666554433" "Callback test"))));
    reflexivity.
Defined.

(** C2 fails as stated: the message of task [t1] is READ, and the retried
    completion callback sets it back to SENT; so does a [message_status]
    event that carries SENT. *)
Lemma read_message_set_back_to_sent :
  map m_status (messages Scenario.after_read) = [READ]
  /\ map m_status
       (messages (snd (processCallback 300 "m2" "u1"
                         (Scenario.completed_callback "t1")
                         Scenario.after_read))) = [SENT]
  /\ map m_status
       (messages (message_status 300 "m1" SENT Scenario.after_read))
     = [SENT].
Proof. repeat split; reflexivity. Qed.

(** Scenario A on the pull path: the device fetches the pending message
    task and later reports it completed. *)
Example scenario_A :
  let w1 := snd (fetchTasks 100 101 "d9" "u1" Scenario.fetch_body
                   Scenario.one_pending) in
  let w2 := snd (processCallback 200 "m1" "u1"
                   (Scenario.completed_callback "t1") w1) in
  map mz_number
    match fst (fetchTasks 100 101 "d9" "u1" Scenario.fetch_body
                 Scenario.one_pending) with
    | Ok l => l
    | Throw _ => []
    end = [Some (JStr "5511999887766")]
  /\ map t_status (tasks w1) = [PROCESSING]
  /\ map (fun t => (t_status t, t_completedAt t)) (tasks w2)
     = [(COMPLETED, Some 200)]
  /\ map (fun m => (m_taskId m, m_status m, m_direction m)) (messages w2)
     = [(Some "t1", SENT, OUTGOING)].
Proof. repeat split; reflexivity. Qed.

End CallbackFacts.

(** ** The queues only hold unscheduled tasks *)

Module QueueFacts.
Import Store WebhookService MobZapService QueueService TaskController.
Import SocketServer Observe System StoreFacts FetchFacts WorkerFacts.

Lemma keys_update_where sel now p rows :
  map (fun t => (t_id t, t_scheduledAt t))
    (update_where sel (patch_task now p) rows)
  = map (fun t => (t_id t, t_scheduledAt t)) rows.
Proof.
  unfold update_where. rewrite map_map. apply map_ext. intros r.
  destruct (sel r); reflexivity.
Qed.

Lemma unique_by_keys w :
  task_ids_unique w <-> NoDup (map fst (task_keys w)).
Proof.
  unfold task_ids_unique, task_keys. rewrite map_map. reflexivity.
Qed.

Lemma unscheduled_by_keys w :
  queue_unscheduled w
  <-> forall j, In j (queued_jobs w) -> In (job_taskId j, None) (task_keys w).
Proof.
  unfold queue_unscheduled, task_keys. split; intros H j Hj.
  - destruct (H j Hj) as (t & Ht & Hid & Hs).
    apply in_map_iff. exists t. split; [congruence | exact Ht].
  - apply H, in_map_iff in Hj as (t & [= Hid Hs] & Ht). eauto.
Qed.

(** A handler that keeps the keys of the tasks and the queues keeps the
    invariant. *)
Lemma invariant_by_keys w w' :
  task_keys w' = task_keys w -> queued_jobs w' = queued_jobs w ->
  task_ids_unique w /\ queue_unscheduled w ->
  task_ids_unique w' /\ queue_unscheduled w'.
Proof.
  intros Hk Hq. rewrite !unique_by_keys, !unscheduled_by_keys, Hk, Hq.
  auto.
Qed.

Ltac same_keys :=
  unfold task_keys, queued_jobs; simpl;
  rewrite ?keys_update_where; auto.

Lemma fetchTasks_queues now stamp newId userId dd w :
  queued_jobs (snd (fetchTasks now stamp newId userId dd w)) = queued_jobs w.
Proof.
  unfold fetchTasks.
  destruct (or_else _ _) as [phone|]; [|reflexivity].
  destruct (phone =? "")%string; [reflexivity|].
  destruct (find_or_register _ _ _ _ _ _) as [[device w1]|e] eqn:E;
    [|reflexivity].
  assert (Hq : queued_jobs w1 = queued_jobs w).
  { unfold find_or_register in E.
    destruct (find _ (devices w)); [injection E as _ <-; reflexivity|].
    destruct (existsb _ (devices w)); [discriminate|].
    destruct (existsb _ (devices w)); [discriminate|].
    injection E as _ <-. reflexivity. }
  rewrite <- Hq.
  pose proof (claim_keeps_rest stamp
                (find_pending now userId (dev_id device) w1) w1)
    as (_ & _ & _ & Hm & Hd & Hg).
  unfold queued_jobs.
  destruct (promise_all _) as [l|e]; [destruct (ids_for_cache l)|];
    simpl; rewrite Hm, Hd, Hg; reflexivity.
Qed.

Lemma fetched_keys now stamp userId w w' :
  fetched now stamp userId w w' -> task_keys w' = task_keys w.
Proof.
  unfold task_keys. intros [->|[deviceId ->]]; [reflexivity|].
  apply keys_update_where.
Qed.

Lemma getTasks_queues now stamp userId body w :
  queued_jobs (snd (getTasks now stamp userId body w)) = queued_jobs w.
Proof.
  unfold getTasks.
  destruct (find _ (devices w)) as [device|]; [|reflexivity].
  simpl. destruct (find_pending _ _ _ _); reflexivity.
Qed.

Lemma processCallback_keeps now newId userId cb w :
  task_keys (snd (processCallback now newId userId cb w)) = task_keys w
  /\ queued_jobs (snd (processCallback now newId userId cb w))
     = queued_jobs w.
Proof.
  unfold processCallback, reconcile_message, message_create.
  destruct (find (owned_task _ _) (tasks w)) as [task|]; [|split; reflexivity].
  destruct (is_message_task task); [|split; same_keys].
  destruct (find (message_of_task _) _) as [m|].
  - destruct (callback_message_patch now cb); split; same_keys.
  - destruct (mi_deviceId (callback_message_input userId task));
      [|split; same_keys].
    destruct (mi_phoneNumber (callback_message_input userId task));
      [|split; same_keys].
    destruct (mi_messageType (callback_message_input userId task));
      [|split; same_keys].
    destruct (existsb (message_has_id newId) _); [split; same_keys|].
    cbv zeta.
    destruct (callback_message_patch now cb); split; same_keys.
Qed.

Lemma updateTaskStatus_keeps maxRetries post now newId userId taskId status
  result error w :
  let w' := snd (updateTaskStatus maxRetries post now newId userId taskId
                   status result error w) in
  task_keys w' = task_keys w /\ queued_jobs w' = queued_jobs w.
Proof.
  unfold updateTaskStatus, message_create.
  destruct (find (owned_task _ _) (tasks w)) as [task|]; [|split; reflexivity].
  destruct (TaskStatus_beq status COMPLETED
            && TaskType_beq (t_type task) MESSAGE);
    [|split; same_keys].
  destruct (mi_deviceId (completed_message_input userId task now));
    [|split; same_keys].
  destruct (mi_phoneNumber (completed_message_input userId task now));
    [|split; same_keys].
  destruct (mi_messageType (completed_message_input userId task now));
    [|split; same_keys].
  destruct (existsb (message_has_id newId) _); split; same_keys.
Qed.

Lemma cancelTask_keeps now userId taskId w :
  task_keys (snd (cancelTask now userId taskId w)) = task_keys w
  /\ queued_jobs (snd (cancelTask now userId taskId w)) = queued_jobs w.
Proof.
  unfold cancelTask. destruct (find _ (tasks w)); split; same_keys.
Qed.

Lemma process_message_keeps send maxRetries post now newId job w :
  let w' := snd (process_message send maxRetries post now newId job w) in
  task_keys w' = task_keys w /\ queued_jobs w' = queued_jobs w.
Proof.
  unfold process_message, process_try, task_update, update_or_throw,
    message_create.
  destruct (existsb (task_has_id (job_taskId job)) (tasks w)) eqn:Ex;
    [|simpl; rewrite Ex; split; reflexivity].
  assert (Ex1 : forall p,
            existsb (task_has_id (job_taskId job))
              (update_where (task_has_id (job_taskId job)) (patch_task now p)
                 (tasks w)) = true)
    by (intros p; rewrite existsb_update_where; [exact Ex | reflexivity]).
  assert (Ex2 : forall p q,
            existsb (task_has_id (job_taskId job))
              (update_where (task_has_id (job_taskId job)) (patch_task now q)
                 (update_where (task_has_id (job_taskId job))
                    (patch_task now p) (tasks w))) = true)
    by (intros p q; rewrite !existsb_update_where;
        [exact Ex | reflexivity | reflexivity]).
  destruct (send (job_deviceId job) (job_data job)) as [result|e];
    simpl; rewrite ?Ex1; simpl; [|split; same_keys].
  destruct (job_deviceId job); simpl; rewrite ?Ex2; [|split; same_keys].
  destruct (as_string (data_phoneNumber (job_data job))); simpl;
    rewrite ?Ex2; [|split; same_keys].
  destruct (existsb _ (messages w)); simpl; rewrite ?Ex2; split; same_keys.
Qed.

Lemma message_status_keeps now messageId status w :
  task_keys (message_status now messageId status w) = task_keys w
  /\ queued_jobs (message_status now messageId status w) = queued_jobs w.
Proof.
  unfold message_status, message_update, update_or_throw.
  destruct (existsb _ (messages w)); split; reflexivity.
Qed.

Lemma addToQueue_jobs added task w w' :
  addToQueue added task w = Ok w' ->
  tasks w' = tasks w
  /\ forall j, In j (queued_jobs w') ->
               In j (queued_jobs w) \/ job_taskId j = t_id task.
Proof.
  unfold addToQueue, queue_add, queued_jobs.
  destruct (t_type task), added as [u|e]; simpl; intros [= <-];
    (split; [reflexivity|]);
    intros j Hj; simpl in Hj; rewrite ?in_app_iff in *; simpl in *;
    intuition (subst; auto).
Qed.

(** [addToQueue] appends one job to the queue of the task's type and
    passes the task's priority on as the job's [priority] option; the order
    in which Bull serves the jobs of a queue is the library's. *)
Lemma addToQueue_priority task w :
  t_type task <> SCHEDULED_MESSAGE ->
  exists name delay w',
    addToQueue (Ok tt) task w = Ok w'
    /\ queued_jobs w' <> queued_jobs w
    /\ In (job_of name task delay) (queued_jobs w')
    /\ job_priority (job_of name task delay) = t_priority task.
Proof.
  intros Hty. unfold addToQueue, queue_add, queued_jobs.
  destruct (t_type task); try congruence; simpl;
    eexists; eexists; eexists; (split; [reflexivity|]); simpl;
    (split;
     [ intros H; apply (f_equal (@List.length Job)) in H;
       rewrite ?length_app in H; simpl in H; lia
     | split; [rewrite ?in_app_iff; simpl; auto 6 | reflexivity] ]).
Qed.

(** [createTask] keeps the invariant: the id it inserts is new, and the
    job it queues is for the task it inserted without a [scheduledAt]. *)
Lemma createTask_invariant maxRetries post added now today newId userId b w :
  task_ids_unique w /\ queue_unscheduled w ->
  let w' := snd (createTask maxRetries post added now today newId userId b w) in
  task_ids_unique w' /\ queue_unscheduled w'.
Proof.
  intros [Hu Hq]. unfold createTask.
  destruct (negb (valid_create b)); [auto|].
  destruct (match body_deviceId b with Some _ => _ | None => _ end); [auto|].
  destruct (active_licenses now userId w) as [|license rest]; [auto|].
  destruct (match lic_messageLimit license with Some _ => _ | None => _ end);
    [auto|].
  destruct (existsb (task_has_id newId) (tasks w)) eqn:Ef; [auto|].
  cbv zeta.
  set (task := new_task now newId userId b).
  set (w1 := with_tasks w (tasks w ++ [task])).
  assert (Hu1 : task_ids_unique w1).
  { unfold task_ids_unique, w1. simpl. rewrite map_app. simpl.
    apply (Permutation_NoDup (l := newId :: map t_id (tasks w))).
    - apply Permutation_cons_append.
    - constructor; [|exact Hu].
      intros Hin. apply in_map_iff in Hin as [t [Hid Ht]].
      assert (H : existsb (task_has_id newId) (tasks w) = true).
      { apply existsb_exists. exists t. split; [exact Ht|].
        unfold task_has_id. rewrite Hid. apply String.eqb_refl. }
      congruence. }
  assert (Hq1 : queue_unscheduled w1).
  { intros j Hj. destruct (Hq j Hj) as (t & Ht & Hid & Hs).
    exists t. split; [|auto]. unfold w1. simpl. apply in_or_app. auto. }
  destruct (body_scheduledAt b) eqn:Es; [simpl; auto|].
  destruct (addToQueue added task w1) as [w2|e] eqn:Ea; [|simpl; auto].
  destruct (addToQueue_jobs added task w1 w2 Ea) as [Ht Hj].
  assert (H2 : task_ids_unique w2 /\ queue_unscheduled w2).
  { split; [unfold task_ids_unique; rewrite Ht; exact Hu1|].
    intros j Hin. rewrite Ht. destruct (Hj j Hin) as [Hold|Hnew].
    - apply Hq1, Hold.
    - exists task. split; [unfold w1; simpl; apply in_or_app; simpl; auto|].
      split; [symmetry; exact Hnew | exact Es]. }
  exact H2.
Qed.

Lemma distinct_NoDup (ids : list Id) :
  TaskListing.distinct ids = true -> NoDup ids.
Proof.
  induction ids as [|x r IH]; simpl; intros H; constructor.
  - apply andb_true_iff in H as [H _]. apply negb_true_iff in H.
    intros Hin.
    assert (existsb (String.eqb x) r = true)
      by (apply existsb_exists; exists x; split;
          [exact Hin | apply String.eqb_refl]).
    congruence.
  - apply IH. apply andb_true_iff in H as [_ H]. exact H.
Qed.

(** Rows with ids that are new and all different, added to the task
    table without a job, keep the invariant. *)
Lemma add_tasks_invariant w rows :
  task_ids_unique w /\ queue_unscheduled w ->
  NoDup (map t_id rows) ->
  existsb (fun r => existsb (task_has_id (t_id r)) (tasks w)) rows = false ->
  let w1 := with_tasks w (tasks w ++ rows) in
  task_ids_unique w1 /\ queue_unscheduled w1.
Proof.
  intros [Hu Hq] Hnd Hnew. split.
  - unfold task_ids_unique. simpl. rewrite map_app.
    apply NoDup_app; [exact Hu | exact Hnd |].
    intros id Hold Hin.
    apply in_map_iff in Hin as [r [Hid Hr]].
    apply in_map_iff in Hold as [t [Hid' Ht]].
    assert (H : existsb (fun r => existsb (task_has_id (t_id r)) (tasks w))
                  rows = true).
    { apply existsb_exists. exists r. split; [exact Hr|].
      apply existsb_exists. exists t. split; [exact Ht|].
      unfold task_has_id. rewrite Hid, Hid'. apply String.eqb_refl. }
    congruence.
  - intros j Hj. destruct (Hq j Hj) as (t & Ht & Hid & Hs).
    exists t. split; [|auto]. simpl. apply in_or_app. auto.
Qed.

Lemma add_task_invariant w task :
  task_ids_unique w /\ queue_unscheduled w ->
  existsb (task_has_id (t_id task)) (tasks w) = false ->
  let w1 := with_tasks w (tasks w ++ [task]) in
  task_ids_unique w1 /\ queue_unscheduled w1.
Proof.
  intros H Hnew. apply add_tasks_invariant; [exact H | |].
  - simpl. constructor; [intros [] | constructor].
  - simpl. rewrite Hnew. reflexivity.
Qed.

(** A job for a stored task without a [scheduledAt] keeps the invariant. *)
Lemma queue_task_invariant added task w w' :
  task_ids_unique w /\ queue_unscheduled w ->
  In task (tasks w) -> t_scheduledAt task = None ->
  addToQueue added task w = Ok w' ->
  task_ids_unique w' /\ queue_unscheduled w'.
Proof.
  intros [Hu Hq] Hin Hs Ha.
  destruct (addToQueue_jobs added task w w' Ha) as [Ht Hj].
  split; [unfold task_ids_unique; rewrite Ht; exact Hu|].
  intros j Hjin. rewrite Ht. destruct (Hj j Hjin) as [Hold|Hnew].
  - apply Hq, Hold.
  - exists task. split; [exact Hin|]. split; [symmetry; exact Hnew | exact Hs].
Qed.

Lemma bulkCreateTasks_invariant now uuid userId bodies w :
  task_ids_unique w /\ queue_unscheduled w ->
  let w' := snd (TaskListing.bulkCreateTasks now uuid userId bodies w) in
  task_ids_unique w' /\ queue_unscheduled w'.
Proof.
  intros H. unfold TaskListing.bulkCreateTasks.
  destruct (_ || _)%bool; [exact H|].
  destruct (negb (TaskListing.distinct _) || _) eqn:Ek; [exact H|].
  destruct (negb (forallb _ _)); [exact H|].
  apply orb_false_iff in Ek as [Ed Ee]. apply negb_false_iff in Ed.
  apply add_tasks_invariant;
    [exact H | apply distinct_NoDup, Ed | exact Ee].
Qed.

Lemma sendMessage_invariant added now newTaskId newMessageId userId b w :
  task_ids_unique w /\ queue_unscheduled w ->
  let w' := snd (MessageController.sendMessage added now newTaskId
                   newMessageId userId b w) in
  task_ids_unique w' /\ queue_unscheduled w'.
Proof.
  intros H. unfold MessageController.sendMessage.
  destruct (find _ (devices w)); [|exact H].
  destruct (existsb (task_has_id newTaskId) (tasks w)) eqn:Ef; [exact H|].
  cbv zeta.
  set (task := MessageController.default_task now newTaskId userId _ _ _ _).
  pose proof (add_task_invariant w task H Ef) as H1. cbv zeta in H1.
  set (w1 := with_tasks w (tasks w ++ [task])) in *.
  destruct (message_create now newMessageId _ w1) as [[m w2]|e] eqn:Em;
    [|exact H1].
  apply CallbackFacts.message_create_ok in Em as [-> _].
  assert (H2 : task_ids_unique (with_messages w1 (messages w1 ++ [m]))
               /\ queue_unscheduled (with_messages w1 (messages w1 ++ [m])))
    by (revert H1; apply invariant_by_keys; reflexivity).
  destruct (addToQueue added task _) as [w3|e] eqn:Ea; [|exact H2].
  apply (queue_task_invariant added task _ w3 H2);
    [simpl; apply in_or_app; simpl; auto | reflexivity | exact Ea].
Qed.

Lemma bulkSendMessages_invariant added now today newTaskId userId b w :
  task_ids_unique w /\ queue_unscheduled w ->
  let w' := snd (MessageController.bulkSendMessages added now today
                   newTaskId userId b w) in
  task_ids_unique w' /\ queue_unscheduled w'.
Proof.
  intros H. unfold MessageController.bulkSendMessages.
  destruct (negb _); [exact H|].
  destruct (find _ (devices w)); [|exact H].
  destruct (match active_licenses now userId w with
            | [] => false | _ => _ end); [exact H|].
  destruct (existsb (task_has_id newTaskId) (tasks w)) eqn:Ef; [exact H|].
  cbv zeta.
  set (task := MessageController.default_task now newTaskId userId _ _ _ _).
  pose proof (add_task_invariant w task H Ef) as H1. cbv zeta in H1.
  set (w1 := with_tasks w (tasks w ++ [task])) in *.
  destruct (addToQueue added task w1) as [w2|e] eqn:Ea; [|exact H1].
  apply (queue_task_invariant added task w1 w2 H1);
    [simpl; apply in_or_app; simpl; auto | reflexivity | exact Ea].
Qed.

Lemma checkAutoResponder_invariant toLowerCase regex_test now newId cached
  userId deviceId message w :
  task_ids_unique w /\ queue_unscheduled w ->
  let w' := MobZapSessions.checkAutoResponder toLowerCase regex_test now
              newId cached userId deviceId message w in
  task_ids_unique w' /\ queue_unscheduled w'.
Proof.
  intros H. unfold MobZapSessions.checkAutoResponder.
  destruct cached as [autoResponder|]; [|exact H].
  destruct (MobZapSessions.ar_enabled autoResponder); [|exact H].
  destruct (MobZapSessions.ar_rules autoResponder) as [rules|]; [|exact H].
  destruct (MobZapSessions.first_match _ _ _ _) as [[rule|]|e];
    [|exact H|exact H].
  destruct (existsb (task_has_id newId) (tasks w)) eqn:Ef; [exact H|].
  destruct (negb _); [exact H|].
  apply (add_task_invariant w
           (MobZapSessions.reply_task now newId userId deviceId message rule)
           H Ef).
Qed.

Lemma cleanup_loop_keeps now entries w :
  task_keys (snd (MobZapSessions.cleanup_loop now entries w)) = task_keys w
  /\ queued_jobs (snd (MobZapSessions.cleanup_loop now entries w))
     = queued_jobs w.
Proof.
  revert w. induction entries as [|[deviceId session] rest IH]; intros w;
    simpl; [split; reflexivity|].
  destruct (MobZapSessions.stale now session).
  - destruct (update_or_throw _ _ (devices w)) as [ds|e];
      [|split; reflexivity].
    destruct (IH (with_devices w ds)) as [H1 H2]. rewrite H1, H2.
    split; reflexivity.
  - specialize (IH w).
    destruct (MobZapSessions.cleanup_loop now rest w) as [[r kept] w'].
    exact IH.
Qed.

Lemma incoming_message_keeps now newId data socket w :
  let w' := snd (SocketHandlers.incoming_message now newId data socket w) in
  task_keys w' = task_keys w /\ queued_jobs w' = queued_jobs w.
Proof.
  cbv zeta. unfold SocketHandlers.incoming_message.
  destruct (negb _); [split; reflexivity|].
  destruct (message_create now newId _ w) as [[m w']|e] eqn:Em;
    [|split; reflexivity].
  apply CallbackFacts.message_create_ok in Em as [-> _]. split; reflexivity.
Qed.

Lemma step_invariant w w' :
  step w w' ->
  task_ids_unique w /\ queue_unscheduled w ->
  task_ids_unique w' /\ queue_unscheduled w'.
Proof.
  intros Hs. destruct Hs.
  - apply invariant_by_keys;
      [apply (fetched_keys now stamp userId), fetchTasks_fetched
      | apply fetchTasks_queues].
  - apply invariant_by_keys;
      [apply (fetched_keys now stamp userId), getTasks_fetched
      | apply getTasks_queues].
  - apply createTask_invariant.
  - apply invariant_by_keys; apply processCallback_keeps.
  - apply invariant_by_keys; apply updateTaskStatus_keeps.
  - apply invariant_by_keys; apply cancelTask_keeps.
  - apply invariant_by_keys; apply process_message_keeps.
  - apply invariant_by_keys; apply message_status_keeps.
  - apply bulkCreateTasks_invariant.
  - apply sendMessage_invariant.
  - apply bulkSendMessages_invariant.
  - apply invariant_by_keys; unfold MessageController.markAsRead;
      destruct (find _ (messages w)); reflexivity.
  - apply invariant_by_keys; apply cleanup_loop_keeps.
  - apply checkAutoResponder_invariant.
  - apply invariant_by_keys; unfold SocketHandlers.register_device;
      destruct (find _ (devices w)); reflexivity.
  - apply invariant_by_keys; unfold SocketHandlers.disconnect;
      destruct (SocketHandlers.sock_deviceId socket); try reflexivity;
      destruct (update_or_throw _ _ (devices w)); reflexivity.
  - apply invariant_by_keys; apply incoming_message_keeps.
  - apply invariant_by_keys; reflexivity.
Qed.

(** From a store with unique task ids and empty queues, every sequence of
    handler calls leads to a store whose queued jobs are all for tasks
    without a [scheduledAt]. *)
Lemma queues_hold_unscheduled_tasks w0 w :
  task_ids_unique w0 -> queued_jobs w0 = [] ->
  reachable w0 w ->
  task_ids_unique w /\ queue_unscheduled w.
Proof.
  intros Hu Hq Hr. induction Hr as [|w w' _ IH Hs].
  - split; [exact Hu|]. intros j Hj. rewrite Hq in Hj. destruct Hj.
  - apply (step_invariant w w' Hs IH).
Qed.

(** So the first update of the worker, which moves the job's task to
    PROCESSING, only touches a task that has no [scheduledAt]. *)
Lemma worker_claims_unscheduled w0 w now job w1 o n :
  task_ids_unique w0 -> queued_jobs w0 = [] -> reachable w0 w ->
  In job (messageQueue w) ->
  task_update now (job_taskId job) (claim_patch now) w = Ok w1 ->
  In (o, n) (claimed_rows w w1) ->
  t_scheduledAt o = None /\ t_executedAt n = Some now.
Proof.
  intros Hu0 Hq0 Hr Hj Hup Hin.
  destruct (queues_hold_unscheduled_tasks w0 w Hu0 Hq0 Hr) as [Hu Hq].
  destruct (Hq job) as (t & Ht & Hid & Hs);
    [unfold queued_jobs; apply in_or_app; auto|].
  unfold task_update, update_or_throw in Hup.
  destruct (existsb _ (tasks w)); [|discriminate].
  injection Hup as <-.
  unfold claimed_rows in Hin. apply filter_In in Hin as [Hin Hc].
  simpl in Hin, Hc. apply In_combine_update in Hin as [Ho Hn].
  destruct (task_has_id (job_taskId job) o) eqn:E.
  - unfold task_has_id in E. apply String.eqb_eq in E.
    assert (o = t) by (apply (unique_row t_id (tasks w) o t Hu Ho Ht);
                       congruence).
    subst. auto.
  - subst n. rewrite claimed_same in Hc. discriminate.
Qed.


(** C4: no claim runs ahead of a task's schedule.  In every store the
    handlers lead to from one with unique task ids and empty queues: every
    row that [fetchTasks] or [getTasks] moves to PROCESSING was PENDING, is
    stamped with the claim time, and has no [scheduledAt] or one that is
    not after the claim time; the task a queue worker picks up and moves to
    PROCESSING has no [scheduledAt] at all; and [createTask] queues no task
    whose request carries a [scheduledAt]. *)
Theorem no_claim_before_schedule (w0 w : World) (now stamp : Time)
  (newId userId : Id) (dd : MobZapDevice) :
  task_ids_unique w0 -> queued_jobs w0 = [] -> reachable w0 w ->
  now <= stamp ->
  (forall o n,
     In (o, n) (claimed_rows w (snd (fetchTasks now stamp newId userId dd w)))
     \/ In (o, n) (claimed_rows w (snd (getTasks now stamp userId dd w))) ->
     t_status o = PENDING /\ t_status n = PROCESSING
     /\ t_executedAt n = Some stamp
     /\ scheduled_by now n /\ scheduled_by stamp n)
  /\ (forall job w1 o n,
        In job (messageQueue w) ->
        task_update stamp (job_taskId job) (claim_patch stamp) w = Ok w1 ->
        In (o, n) (claimed_rows w w1) ->
        t_scheduledAt o = None /\ t_executedAt n = Some stamp)
  /\ (forall maxRetries post added today (b : CreateBody),
        body_scheduledAt b <> None ->
        let w' := snd (createTask maxRetries post added now today newId userId b w) in
        messageQueue w' = messageQueue w /\ mediaQueue w' = mediaQueue w
        /\ groupQueue w' = groupQueue w).
Proof.
  intros Hu0 Hq0 Hr Hle.
  destruct (queues_hold_unscheduled_tasks w0 w Hu0 Hq0 Hr) as [Hu _].
  split; [|split].
  - intros o n. apply fetch_claims_due_tasks; assumption.
  - intros job w1 o n. apply (worker_claims_unscheduled w0); assumption.
  - intros maxRetries post added today b.
    apply createTask_queues_unscheduled.
Qed.

(** The store after one create request: at time 100 the fetch of device
    [d1] claims the three due tasks and leaves the one scheduled for 900;
    the queued job is for the task just created. *)
Lemma no_claim_before_schedule_witness :
  (forall o n,
     In (o, n)
       (claimed_rows Scenario.after_create
          (snd (fetchTasks 100 101 "d9" "u1" Scenario.fetch_body
                  Scenario.after_create)))
     \/ In (o, n)
          (claimed_rows Scenario.after_create
             (snd (getTasks 100 101 "u1" Scenario.fetch_body
                     Scenario.after_create))) ->
     t_status o = PENDING /\ t_status n = PROCESSING
     /\ t_executedAt n = Some 101
     /\ scheduled_by 100 n /\ scheduled_by 101 n)
  /\ (forall job w1 o n,
        In job (messageQueue Scenario.after_create) ->
        task_update 101 (job_taskId job) (claim_patch 101)
          Scenario.after_create = Ok w1 ->
        In (o, n) (claimed_rows Scenario.after_create w1) ->
        t_scheduledAt o = None /\ t_executedAt n = Some 101)
  /\ (forall maxRetries post added today (b : CreateBody),
        body_scheduledAt b <> None ->
        let w' := snd (createTask maxRetries post added 100 today "d9" "u1" b
                         Scenario.after_create) in
        messageQueue w' = messageQueue Scenario.after_create
        /\ mediaQueue w' = mediaQueue Scenario.after_create
        /\ groupQueue w' = groupQueue Scenario.after_create).
Proof.
  apply (no_claim_before_schedule Scenario.three_tasks Scenario.after_create
           100 101 "d9" "u1" Scenario.fetch_body).
  - unfold task_ids_unique. simpl.
    repeat (constructor; [simpl; intuition discriminate|]). constructor.
  - reflexivity.
  - eapply reach_step; [apply reach_start|].
    exact (step_createTask 3 (fun _ => true) (Ok tt) 50 0 "t4" "u1"
             Scenario.create_body Scenario.three_tasks).
  - lia.
Defined.

Example queued_job_example :
  map job_taskId (messageQueue Scenario.after_create) = ["t4"]
  /\ map (fun t => (t_id t, t_status t))
       (tasks (snd (fetchTasks 100 101 "d9" "u1" Scenario.fetch_body
                      Scenario.after_create)))
     = [("t1", PROCESSING); ("t2", PROCESSING); ("t3", PENDING);
        ("t4", PROCESSING)].
Proof. split; reflexivity. Qed.

End QueueFacts.

(** ** More about the translator *)

Module TranslateMore.
Import Store Phone MobZapService PhoneFacts.

(** X1: The number [formatPhoneNumber] returns is a string of digits that
    begins with 55: the digits of the input, with 55 put in front unless
    they already begin with 55.  An input without any digit gives 55. *)
Theorem formatPhoneNumber_normal_form (phone : string) :
  all_digits (formatPhoneNumber phone) = true
  /\ startsWith55 (formatPhoneNumber phone) = true
  /\ (startsWith55 (strip_non_digits phone) = true ->
      formatPhoneNumber phone = strip_non_digits phone)
  /\ (startsWith55 (strip_non_digits phone) = false ->
      formatPhoneNumber phone = "55" ++ strip_non_digits phone)
  /\ (strip_non_digits phone = "" -> formatPhoneNumber phone = "55").
Proof.
  split; [apply format_all_digits|].
  split; [apply format_startsWith55|].
  unfold formatPhoneNumber. repeat split.
  - intros ->. reflexivity.
  - intros ->. reflexivity.
  - intros ->. reflexivity.
Qed.

Lemma formatted_is_fixed (phone : string) :
  formatPhoneNumber (formatPhoneNumber phone) = formatPhoneNumber phone.
Proof.
  apply format_normalized; [apply format_all_digits|apply format_startsWith55].
Qed.

Lemma format_destination_value (v : option JsValue) (n : string) :
  format_destination v = Ok n -> exists p, n = formatPhoneNumber p.
Proof.
  destruct v as [[|phone|items|raw]|]; simpl; try discriminate.
  intros [= <-]. eauto.
Qed.

Lemma format_all_values (items : list JsValue) (numbers : list string) :
  format_all items = Ok numbers ->
  forall n, In n numbers -> exists p, n = formatPhoneNumber p.
Proof.
  revert numbers. induction items as [|v rest IH]; simpl; intros numbers.
  - intros [= <-] n [].
  - destruct v as [|phone|inner|raw]; simpl; try discriminate.
    destruct (format_all rest) as [l|e]; [|discriminate].
    intros [= <-] n [<-|Hin]; [eauto | apply (IH l eq_refl n Hin)].
Qed.

Lemma format_destinations_values (v : option JsValue)
  (numbers : list string) :
  format_destinations v = Ok numbers ->
  forall n, In n numbers -> exists p, n = formatPhoneNumber p.
Proof.
  destruct v as [[|phone|items|raw]|]; simpl; try discriminate.
  apply format_all_values.
Qed.

(** X2: Every destination of an instruction [convertToMobZapFormat] returns is
    in normal form: the [number] of a chat or media instruction and each of
    the [numbers] of a bulk instruction is a string that is digits only,
    begins with 55 and is left as it is by another formatting, and
    [numbers] is an array.  The instruction carries the id of its task and
    the package of the device type. *)
Theorem converted_destinations_normalized (task : Task)
  (deviceType : DeviceType) (m : MobZapTask) :
  snd (convertToMobZapFormat task deviceType) = Ok (Some m) ->
  (forall v, mz_number m = Some v \/
             (exists vs, mz_numbers m = Some (JArr vs) /\ In v vs) ->
             exists n, v = JStr n
                       /\ all_digits n = true /\ startsWith55 n = true
                       /\ formatPhoneNumber n = n)
  /\ (forall v, mz_numbers m = Some v -> exists vs, v = JArr vs)
  /\ mz_id m = t_id task
  /\ mz_package m = package_of deviceType.
Proof.
  unfold convertToMobZapFormat.
  assert (Hn : forall n, (exists p, n = formatPhoneNumber p) ->
                         exists n', JStr n = JStr n'
                                    /\ all_digits n' = true
                                    /\ startsWith55 n' = true
                                    /\ formatPhoneNumber n' = n').
  { intros n [p ->]. exists (formatPhoneNumber p).
    split; [reflexivity|]. split; [apply format_all_digits|].
    split; [apply format_startsWith55 | apply formatted_is_fixed]. }
  pose proof (format_destination_value (data_phoneNumber (t_data task)))
    as Hone.
  pose proof (format_destinations_values (data_phoneNumbers (t_data task)))
    as Hmany.
  destruct (t_type task);
    try destruct (format_destination (data_phoneNumber (t_data task)))
      as [number|];
    try destruct (format_destinations (data_phoneNumbers (t_data task)))
      as [numbers|];
    simpl; intros H; try discriminate; injection H as <-; simpl;
    (split; [|split; [|split; reflexivity]]);
    try (intros v Hv; discriminate).
  all: try (intros v [= <-]; eauto).
  all: intros v [Hv|[vs [Hvs Hin]]]; try discriminate.
  all: try (injection Hv as <-; apply Hn, (Hone number eq_refl)).
  all: injection Hvs as <-; apply in_map_iff in Hin as [n [<- Hin]];
    apply Hn, (Hmany numbers eq_refl n Hin).
Qed.

Lemma converted_destinations_normalized_witness :
  exists m,
    snd (convertToMobZapFormat Samples.text_task NORMAL) = Ok (Some m)
    /\ mz_id m = "t1"
    /\ mz_number m = Some (JStr "5511999887766").
Proof.
  eexists. split; [reflexivity|]. split; [|reflexivity].
  exact (proj1 (proj2 (proj2 (converted_destinations_normalized
                                Samples.text_task NORMAL _ eq_refl)))).
Defined.

End TranslateMore.

(** ** More about callbacks *)

Module CallbackMore.
Import Store MobZapService TaskController SocketServer Observe StoreFacts.
Import ObserveMore.
Import FetchFacts CancelFacts WorkerFacts CallbackFacts.

(** Once the task is found its update is stored, however the call ends. *)
Lemma processCallback_tasks now newId userId cb w task :
  find (owned_task (cb_taskId cb) userId) (tasks w) = Some task ->
  tasks (snd (processCallback now newId userId cb w))
  = apply_task_patch now cb (tasks w).
Proof.
  intros Et. unfold processCallback, reconcile_message, message_create.
  rewrite Et.
  destruct (is_message_task task); [|reflexivity].
  destruct (find (message_of_task _) _) as [m|].
  - destruct (callback_message_patch now cb); reflexivity.
  - destruct (mi_deviceId (callback_message_input userId task));
      [|reflexivity].
    destruct (mi_phoneNumber (callback_message_input userId task));
      [|reflexivity].
    destruct (mi_messageType (callback_message_input userId task));
      [|reflexivity].
    destruct (existsb (message_has_id newId) _); [reflexivity|].
    cbv zeta. destruct (callback_message_patch now cb); reflexivity.
Qed.

(** The callback decides the status of its task whatever status was
    stored: the row of the task the callback names is rewritten with the
    status of the callback (COMPLETED, FAILED or PROCESSING) even when it
    was CANCELLED or already terminal, [completedAt] is stamped on a
    completion and left alone otherwise, and this update is stored also
    when the call goes on to reject.  Rows with another id are kept. *)
Theorem callback_decides_task_status (now : Time) (newId userId : Id)
  (cb : MobZapCallback) (w : World) (task : Task) :
  find (owned_task (cb_taskId cb) userId) (tasks w) = Some task ->
  let w' := snd (processCallback now newId userId cb w) in
  let task' := patch_task now (callback_patch now cb) task in
  In task' (tasks w')
  /\ t_status task' = task_status_of (cb_status cb)
  /\ t_completedAt task'
     = match cb_status cb with
       | cb_completed => Some now
       | _ => t_completedAt task
       end
  /\ (forall t, In t (tasks w) -> t_id t <> cb_taskId cb -> In t (tasks w')).
Proof.
  intros Et. cbv zeta.
  rewrite (processCallback_tasks now newId userId cb w task Et).
  pose proof (find_some _ _ Et) as [Hin Ho].
  apply owned_has_id in Ho.
  unfold apply_task_patch. split; [|split; [|split]].
  - apply (In_update_where (task_has_id (cb_taskId cb))
             (patch_task now (callback_patch now cb))) in Hin.
    rewrite Ho in Hin. exact Hin.
  - reflexivity.
  - unfold patch_task, callback_patch. simpl.
    destruct (cb_status cb); reflexivity.
  - intros t Ht Hid.
    apply (In_update_where (task_has_id (cb_taskId cb))
             (patch_task now (callback_patch now cb))) in Ht.
    destruct (task_has_id (cb_taskId cb) t) eqn:E; [|exact Ht].
    unfold task_has_id in E. apply String.eqb_eq in E. contradiction.
Qed.

Lemma filter_update_where {A : Type} (p sel : A -> bool) (f : A -> A)
  (rows : list A) :
  (forall r, In r rows -> sel r = true -> p r = false /\ p (f r) = false) ->
  filter p (update_where sel f rows) = filter p rows.
Proof.
  induction rows as [|r rows IH]; simpl; intros H; [reflexivity|].
  rewrite IH by (intros x Hx; apply H; right; exact Hx).
  destruct (sel r) eqn:E; [|reflexivity].
  destruct (H r (or_introl eq_refl) E) as [-> ->]. reflexivity.
Qed.

(** X3: A callback only reaches the tasks of the user it comes from: with the
    task ids unique, the tasks of every other user are left exactly as
    they were; and a callback that names no task of its user is answered
    as not found and changes nothing at all. *)
Theorem callback_owner_isolation (now : Time) (newId userId : Id)
  (cb : MobZapCallback) (w : World) :
  task_ids_unique w ->
  let out := processCallback now newId userId cb w in
  filter (fun t => negb (t_userId t =? userId)%string) (tasks (snd out))
  = filter (fun t => negb (t_userId t =? userId)%string) (tasks w)
  /\ (find (owned_task (cb_taskId cb) userId) (tasks w) = None ->
      out = (Ok TaskNotFound, w)).
Proof.
  intros Hu. cbv zeta. split.
  - destruct (find (owned_task (cb_taskId cb) userId) (tasks w))
      as [task|] eqn:Et.
    + rewrite (processCallback_tasks now newId userId cb w task Et).
      unfold apply_task_patch. apply filter_update_where.
      intros r Hr Hsel.
      pose proof (find_some _ _ Et) as [Hin Ho].
      apply owned_task_spec in Ho as [Hid Huser].
      unfold task_has_id in Hsel. apply String.eqb_eq in Hsel.
      assert (r = task)
        by (apply (unique_row t_id (tasks w) r task Hu Hr Hin); congruence).
      subst r. simpl. rewrite Huser, String.eqb_refl. auto.
    + unfold processCallback. rewrite Et. reflexivity.
  - intros Et. unfold processCallback. rewrite Et. reflexivity.
Qed.

Lemma callback_owner_isolation_witness :
  task_ids_unique Scenario.one_processing
  /\ processCallback 100 "m1" "u2" (Scenario.completed_callback "t1")
       Scenario.one_processing
     = (Ok TaskNotFound, Scenario.one_processing).
Proof.
  assert (Hu : task_ids_unique Scenario.one_processing)
    by (repeat constructor; simpl; tauto).
  split; [exact Hu|].
  apply (proj2 (callback_owner_isolation 100 "m1" "u2"
                  (Scenario.completed_callback "t1")
                  Scenario.one_processing Hu)).
  reflexivity.
Defined.

Lemma filter_find_none {A : Type} (p : A -> bool) (rows : list A) :
  find p rows = None -> filter p rows = [].
Proof.
  induction rows as [|r rows IH]; simpl; [reflexivity|].
  destruct (p r); [discriminate | exact IH].
Qed.

Lemma messages_of_patched now cb id rows :
  List.length
    (filter (message_of_task (cb_taskId cb))
       (apply_message_patch now cb id rows))
  = List.length (filter (message_of_task (cb_taskId cb)) rows).
Proof.
  unfold apply_message_patch.
  destruct (callback_message_patch now cb) as [p|]; [|reflexivity].
  induction rows as [|r rows IH]; simpl; [reflexivity|].
  destruct (message_has_id id r); simpl;
    [change (message_of_task (cb_taskId cb) (patch_message now p r))
       with (message_of_task (cb_taskId cb) r)|];
    destruct (message_of_task (cb_taskId cb) r); simpl; rewrite IH;
    reflexivity.
Qed.

(** The message table after a processed callback for a message task: the
    message found, or the one created at the end of the table, patched. *)
Lemma processCallback_messages now newId userId cb w w' task :
  find (owned_task (cb_taskId cb) userId) (tasks w) = Some task ->
  is_message_task task = true ->
  processCallback now newId userId cb w = (Ok CallbackProcessed, w') ->
  (exists m,
     find (message_of_task (cb_taskId cb)) (messages w) = Some m
     /\ messages w' = apply_message_patch now cb (m_id m) (messages w))
  \/ (exists m,
        find (message_of_task (cb_taskId cb)) (messages w) = None
        /\ message_of_task (cb_taskId cb) m = true
        /\ m_id m = newId /\ m_status m = MSG_PENDING
        /\ m_direction m = OUTGOING /\ m_userId m = userId
        /\ messages w'
           = apply_message_patch now cb (m_id m) (messages w ++ [m])).
Proof.
  intros Et Em. unfold processCallback. rewrite Et, Em.
  fold (apply_task_patch now cb (tasks w)).
  set (w1 := with_tasks w (apply_task_patch now cb (tasks w))).
  destruct (find (message_of_task (cb_taskId cb)) (messages w))
    as [m|] eqn:Ef.
  - rewrite (reconcile_found now newId userId task cb w1 m Ef).
    intros [= <-]. left. exists m. auto.
  - unfold reconcile_message. change (messages w1) with (messages w).
    rewrite Ef.
    destruct (message_create _ _ _ _) as [[m wm]|e] eqn:E; [|discriminate].
    pose proof (message_create_ok _ _ _ _ _ _ E) as (-> & Hid & Htid & Hst).
    assert (Hdir : m_direction m = OUTGOING /\ m_userId m = userId).
    { unfold message_create in E.
      destruct (mi_deviceId _); [|discriminate].
      destruct (mi_phoneNumber _); [|discriminate].
      destruct (mi_messageType _); [|discriminate].
      destruct (existsb _ _); [discriminate|].
      injection E as <-. split; reflexivity. }
    destruct Hdir as [Hdir Huser].
    intros H. right. exists m.
    pose proof (find_some _ _ Et) as [_ Ho].
    apply owned_task_spec in Ho as [Ho _].
    split; [reflexivity|]. split.
    { unfold message_of_task, opt_id_eqb. rewrite Htid. simpl.
      rewrite Ho. apply String.eqb_refl. }
    repeat (split; [assumption|]).
    unfold apply_message_patch.
    destruct (callback_message_patch now cb); injection H as <-; reflexivity.
Qed.

(** X4: [processCallback] finds or creates: after a processed callback for a
    MESSAGE or MEDIA task the task has as many messages as before, and
    exactly one when it had none.  Repeated callbacks never add a second
    message, and no message is removed. *)
Theorem callback_keeps_one_message (now : Time) (newId userId : Id)
  (cb : MobZapCallback) (w w' : World) (task : Task) :
  find (owned_task (cb_taskId cb) userId) (tasks w) = Some task ->
  is_message_task task = true ->
  processCallback now newId userId cb w = (Ok CallbackProcessed, w') ->
  List.length (messages_of (cb_taskId cb) w')
  = Nat.max 1 (List.length (messages_of (cb_taskId cb) w))
  /\ (List.length (messages w) <= List.length (messages w')
      <= S (List.length (messages w)))%nat.
Proof.
  intros Et Em H. unfold messages_of.
  assert (Hlen : forall id rows,
            List.length (apply_message_patch now cb id rows)
            = List.length rows).
  { intros id rows. unfold apply_message_patch.
    destruct (callback_message_patch now cb); [|reflexivity].
    apply update_where_length. }
  destruct (processCallback_messages _ _ _ _ _ _ _ Et Em H)
    as [(m & Hf & ->)|(m & Hnone & Hm & _ & _ & _ & _ & ->)];
    rewrite messages_of_patched, Hlen.
  - split; [|lia].
    destruct (find_some _ _ Hf) as [Hin Hp].
    assert (Hin' : In m (filter (message_of_task (cb_taskId cb)) (messages w)))
      by (apply filter_In; auto).
    destruct (filter _ (messages w)); [destruct Hin'|]. simpl. lia.
  - rewrite filter_app, (filter_find_none _ _ Hnone). simpl. rewrite Hm.
    rewrite length_app. simpl. lia.
Qed.

Lemma callback_keeps_one_message_witness :
  List.length (messages_of "t1" Scenario.after_completion) = 1%nat
  /\ List.length
       (messages_of "t1"
          (snd (processCallback 300 "m2" "u1"
                  (Scenario.completed_callback "t1")
                  Scenario.after_completion))) = 1%nat.
Proof.
  split; [reflexivity|].
  exact (proj1 (callback_keeps_one_message 300 "m2" "u1"
                  (Scenario.completed_callback "t1")
                  Scenario.after_completion
                  (snd (processCallback 300 "m2" "u1"
                          (Scenario.completed_callback "t1")
                          Scenario.after_completion))
                  Samples.completed_task eq_refl eq_refl eq_refl)).
Defined.

(** X5: The update of the task and the creation of the message are two
    separate writes: for a MESSAGE or MEDIA task that has no message yet
    and lacks a device or a destination, the call rejects, no message is
    recorded, and the task keeps the status the callback gave it. *)
Theorem callback_rejects_after_updating_task (now : Time)
  (newId userId : Id) (cb : MobZapCallback) (w : World) (task : Task) :
  find (owned_task (cb_taskId cb) userId) (tasks w) = Some task ->
  is_message_task task = true ->
  find (message_of_task (cb_taskId cb)) (messages w) = None ->
  t_deviceId task = None \/
  as_string (data_phoneNumber (t_data task)) = None ->
  let out := processCallback now newId userId cb w in
  (exists e, fst out = Throw e)
  /\ messages (snd out) = messages w
  /\ In (patch_task now (callback_patch now cb) task) (tasks (snd out))
  /\ t_status (patch_task now (callback_patch now cb) task)
     = task_status_of (cb_status cb).
Proof.
  intros Et Em Ef Hmiss. cbv zeta.
  assert (Hin : In (patch_task now (callback_patch now cb) task)
                  (apply_task_patch now cb (tasks w))).
  { pose proof (find_some _ _ Et) as [Hin Ho]. apply owned_has_id in Ho.
    apply (In_update_where (task_has_id (cb_taskId cb))
             (patch_task now (callback_patch now cb))) in Hin.
    rewrite Ho in Hin. exact Hin. }
  unfold processCallback, reconcile_message, message_create.
  rewrite Et, Em. simpl. rewrite Ef.
  destruct (t_deviceId task) as [d|] eqn:Ed.
  - destruct Hmiss as [Hm|Hm]; [discriminate|]. rewrite Hm.
    simpl. repeat split; eauto.
  - simpl. repeat split; eauto.
Qed.

Lemma callback_rejects_after_updating_task_witness :
  let out := processCallback 100 "m1" "u1" (Scenario.completed_callback "t7")
               Samples.one_undeliverable in
  (exists e, fst out = Throw e)
  /\ messages (snd out) = []
  /\ map t_status (tasks Samples.one_undeliverable) = [PROCESSING]
  /\ t_status (patch_task 100
                 (callback_patch 100 (Scenario.completed_callback "t7"))
                 Samples.undeliverable_task) = COMPLETED.
Proof.
  pose proof (callback_rejects_after_updating_task 100 "m1" "u1"
                (Scenario.completed_callback "t7") Samples.one_undeliverable
                Samples.undeliverable_task eq_refl eq_refl eq_refl
                (or_intror eq_refl)) as H.
  cbv zeta in H. destruct H as (H1 & H2 & _ & H4).
  cbv zeta. split; [exact H1|]. split; [exact H2|].
  split; [reflexivity | exact H4].
Defined.

End CallbackMore.

(** ** More about the message worker *)

Module WorkerMore.
Import Store WebhookService MobZapService QueueService StoreFacts Observe.
Import ObserveMore.
Import CancelFacts WorkerFacts.

Lemma rows_with_id {A : Type} (sel : A -> bool) (f : A -> A) (rows : list A)
  (x : A) :
  (forall r, sel (f r) = sel r) ->
  In x (update_where sel f rows) -> sel x = true ->
  exists r, In r rows /\ x = f r.
Proof.
  intros Hsel Hin Hx. apply In_update_where_inv in Hin as [r [Hr ->]].
  exists r. split; [exact Hr|].
  destruct (sel r) eqn:E; [reflexivity | congruence].
Qed.

(** X6: When the transport rejects, the worker rethrows its error and the
    job's task is left FAILED, with the error message stored, one more
    retry counted and [executedAt] stamped; no message is recorded and no
    webhook is triggered. *)
Theorem worker_marks_failed_on_send_error
  (sendWhatsAppMessage : option Id -> TaskData -> Res Json)
  (maxRetries : Z) (post : Webhook -> bool) (now : Time) (newMessageId : Id)
  (job : Job) (w : World) (e : string) :
  existsb (task_has_id (job_taskId job)) (tasks w) = true ->
  sendWhatsAppMessage (job_deviceId job) (job_data job) = Throw e ->
  let out := process_message sendWhatsAppMessage maxRetries post now
               newMessageId job w in
  fst out = Throw e
  /\ tasks (snd out)
     = update_where (task_has_id (job_taskId job)) (send_failed now e)
         (tasks w)
  /\ (forall t, In t (tasks w) -> t_id t = job_taskId job ->
        In (send_failed now e t) (tasks (snd out))
        /\ t_status (send_failed now e t) = FAILED
        /\ t_error (send_failed now e t) = Some e
        /\ t_retryCount (send_failed now e t) = t_retryCount t + 1
        /\ t_executedAt (send_failed now e t) = Some now)
  /\ messages (snd out) = messages w
  /\ webhooks (snd out) = webhooks w.
Proof.
  intros Hex Hsend.
  unfold process_message, process_try.
  rewrite (task_update_exists _ _ _ _ Hex), Hsend.
  rewrite task_update_exists
    by (simpl; rewrite existsb_update_where; [exact Hex | reflexivity]).
  simpl.
  rewrite (update_where_twice (task_has_id (job_taskId job))
             (patch_task now (claim_patch now))
             (patch_task now (failed_patch e)) (tasks w) (fun _ => eq_refl)).
  split; [reflexivity|]. split; [reflexivity|].
  split; [|split; reflexivity].
  intros t Hin Hid.
  apply (In_update_where (task_has_id (job_taskId job)) (send_failed now e))
    in Hin.
  unfold task_has_id in Hin at 1. rewrite Hid, String.eqb_refl in Hin.
  repeat split. exact Hin.
Qed.

Lemma worker_marks_failed_on_send_error_witness :
  let out := process_message Samples.send_fails 3 Scenario.post_succeeds 100
               "m1" Scenario.job1 Scenario.one_pending in
  fst out = Throw "Device offline"
  /\ messages (snd out) = []
  /\ webhooks (snd out) = [].
Proof.
  pose proof (worker_marks_failed_on_send_error Samples.send_fails 3
                Scenario.post_succeeds 100 "m1" Scenario.job1
                Scenario.one_pending "Device offline" eq_refl eq_refl) as H.
  cbv zeta in H. destruct H as (H1 & _ & _ & H4 & H5).
  cbv zeta. split; [exact H1|]. split; [exact H4 | exact H5].
Defined.

(** X7: The completion is not final: when the send resolved and the message
    cannot be recorded, because the job names no device or no destination,
    the worker rejects and the task ends FAILED with one more retry
    counted, although [completedAt] and the result of the send stay in its
    row; no message is recorded and no webhook is triggered. *)
Theorem worker_fails_task_after_send
  (sendWhatsAppMessage : option Id -> TaskData -> Res Json)
  (maxRetries : Z) (post : Webhook -> bool) (now : Time) (newMessageId : Id)
  (job : Job) (w : World) (result : Json) :
  existsb (task_has_id (job_taskId job)) (tasks w) = true ->
  sendWhatsAppMessage (job_deviceId job) (job_data job) = Ok result ->
  job_deviceId job = None \/
  as_string (data_phoneNumber (job_data job)) = None ->
  let out := process_message sendWhatsAppMessage maxRetries post now
               newMessageId job w in
  exists e,
    fst out = Throw e
    /\ tasks (snd out)
       = update_where (task_has_id (job_taskId job))
           (record_failed now result e) (tasks w)
    /\ (forall t, In t (tasks w) -> t_id t = job_taskId job ->
          In (record_failed now result e t) (tasks (snd out))
          /\ t_status (record_failed now result e t) = FAILED
          /\ t_retryCount (record_failed now result e t) = t_retryCount t + 1
          /\ t_completedAt (record_failed now result e t) = Some now
          /\ t_result (record_failed now result e t) = Some result)
    /\ messages (snd out) = messages w
    /\ webhooks (snd out) = webhooks w.
Proof.
  intros Hex Hsend Hmiss.
  exists "Invalid prisma.message.create() invocation".
  unfold process_message, process_try.
  rewrite (task_update_exists _ _ _ _ Hex), Hsend.
  rewrite task_update_exists
    by (simpl; rewrite existsb_update_where; [exact Hex | reflexivity]).
  assert (Hcreate :
            forall w2,
              message_create now newMessageId (sent_message_input job now) w2
              = Throw "Invalid prisma.message.create() invocation").
  { intros w2. unfold message_create, sent_message_input. simpl.
    destruct Hmiss as [-> | ->]; [reflexivity|].
    destruct (job_deviceId job); reflexivity. }
  rewrite Hcreate.
  rewrite task_update_exists
    by (simpl; rewrite !existsb_update_where;
        [exact Hex | reflexivity | reflexivity]).
  simpl.
  assert (Ht : update_where (task_has_id (job_taskId job))
                 (patch_task now
                    (failed_patch
                       "Invalid prisma.message.create() invocation"))
                 (update_where (task_has_id (job_taskId job))
                    (patch_task now (completed_patch now result))
                    (update_where (task_has_id (job_taskId job))
                       (patch_task now (claim_patch now)) (tasks w)))
               = update_where (task_has_id (job_taskId job))
                   (record_failed now result
                      "Invalid prisma.message.create() invocation")
                   (tasks w)).
  { rewrite (update_where_twice (task_has_id (job_taskId job))
               (patch_task now (claim_patch now))
               (patch_task now (completed_patch now result)) (tasks w)
               (fun _ => eq_refl)).
    exact (update_where_twice (task_has_id (job_taskId job))
             (fun t => patch_task now (completed_patch now result)
                         (patch_task now (claim_patch now) t))
             (patch_task now
                (failed_patch
                   "Invalid prisma.message.create() invocation"))
             (tasks w) (fun _ => eq_refl)). }
  rewrite Ht.
  split; [reflexivity|]. split; [reflexivity|].
  split; [|split; reflexivity].
  intros t Hin Hid.
  apply (In_update_where (task_has_id (job_taskId job))
           (record_failed now result
              "Invalid prisma.message.create() invocation")) in Hin.
  unfold task_has_id in Hin at 1. rewrite Hid, String.eqb_refl in Hin.
  repeat split. exact Hin.
Qed.

Lemma worker_fails_task_after_send_witness :
  let out := process_message Scenario.send_ok 3 Scenario.post_succeeds 100
               "m1" Samples.bulk_job Samples.one_bulk in
  (exists e, fst out = Throw e) /\ messages (snd out) = [].
Proof.
  pose proof (worker_fails_task_after_send Scenario.send_ok 3
                Scenario.post_succeeds 100 "m1" Samples.bulk_job
                Samples.one_bulk "{success: true}" eq_refl eq_refl
                (or_intror eq_refl)) as H.
  cbv zeta in H. destruct H as (e & H1 & _ & _ & H4 & _).
  cbv zeta. split; [exists e; exact H1 | exact H4].
Defined.

End WorkerMore.

(** ** More about the webhook fan-out *)

Module WebhookMore.
Import Store WebhookService StoreFacts Observe WebhookFacts FetchFacts.
Import ObserveMore.

Lemma deliver_outcome maxRetries post now table webhook :
  deliver maxRetries post now table webhook
  = update_where (webhook_has_id (wh_id webhook))
      (outcome maxRetries post now webhook) table.
Proof.
  unfold outcome. destruct (post webhook) eqn:Ep.
  - unfold deliver. rewrite Ep. reflexivity.
  - apply deliver_failure, Ep.
Qed.

Lemma outcome_id maxRetries post now seen h :
  wh_id (outcome maxRetries post now seen h) = wh_id h.
Proof.
  unfold outcome, after_failure.
  destruct (post seen); [reflexivity|].
  destruct (maxRetries <=? wh_failureCount seen); reflexivity.
Qed.

Lemma fold_deliver maxRetries post now (ts table : list Webhook) :
  NoDup (map wh_id ts) ->
  fold_left (deliver maxRetries post now) ts table
  = map (fun r =>
           match find (webhook_has_id (wh_id r)) ts with
           | Some seen => outcome maxRetries post now seen r
           | None => r
           end) table.
Proof.
  revert table. induction ts as [|h ts IH]; intros table Hnd; simpl.
  - symmetry. apply map_id.
  - inversion Hnd as [|? ? Hnotin Hnd']; subst.
    rewrite (IH _ Hnd'), deliver_outcome. unfold update_where.
    rewrite map_map. apply map_ext. intros r.
    assert (Hsym : webhook_has_id (wh_id r) h = webhook_has_id (wh_id h) r)
      by (unfold webhook_has_id; apply String.eqb_sym).
    rewrite Hsym.
    destruct (webhook_has_id (wh_id h) r) eqn:E; [|reflexivity].
    rewrite outcome_id.
    destruct (find (webhook_has_id (wh_id r)) ts) as [x|] eqn:Ef;
      [|reflexivity].
    exfalso. apply Hnotin. apply find_some in Ef as [Hx Hid].
    unfold webhook_has_id in Hid, E. apply String.eqb_eq in Hid, E.
    rewrite <- E, <- Hid. apply in_map, Hx.
Qed.

Lemma find_own_row (p : Webhook -> bool) (rows : list Webhook) (r : Webhook) :
  NoDup (map wh_id rows) -> In r rows ->
  find (webhook_has_id (wh_id r)) (filter p rows)
  = if p r then Some r else None.
Proof.
  induction rows as [|x rows IH]; simpl; [intros _ []|].
  intros Hnd Hin. inversion Hnd as [|? ? Hnotin Hnd']; subst.
  destruct Hin as [->|Hin].
  - destruct (p r) eqn:Ep; simpl.
    + unfold webhook_has_id. rewrite String.eqb_refl. reflexivity.
    + destruct (find _ (filter p rows)) as [y|] eqn:Ef; [|reflexivity].
      exfalso. apply Hnotin. apply find_some in Ef as [Hy Hid].
      apply filter_In in Hy as [Hy _].
      unfold webhook_has_id in Hid. apply String.eqb_eq in Hid.
      rewrite <- Hid. apply in_map, Hy.
  - assert (Hne : webhook_has_id (wh_id r) x = false).
    { unfold webhook_has_id. apply String.eqb_neq. intros E.
      apply Hnotin. rewrite E. apply in_map, Hin. }
    destruct (p x); simpl; [rewrite Hne|]; apply IH; assumption.
Qed.

(** X8: What one call of [triggerWebhook] does to each webhook, when the ids
    are unique.  A webhook of another user, an inactive one and one not
    subscribed to the event is left exactly as it was.  A subscribed one
    whose post succeeds has its failure count reset to zero and
    [lastTriggered] stamped; one whose post fails has one more failure
    counted and is disabled when the count it had before had reached
    [maxRetries]. *)
Theorem triggerWebhook_row_by_row (maxRetries : Z) (post : Webhook -> bool)
  (now : Time) (userId : Id) (event : string) (w : World) :
  NoDup (map wh_id (webhooks w)) ->
  webhooks (triggerWebhook maxRetries post now userId event w)
  = map (fun h =>
           if subscribed userId event h then
             if post h then reset_failures now h
             else after_failure maxRetries h h
           else h) (webhooks w).
Proof.
  intros Hnd. unfold triggerWebhook, targets. simpl.
  rewrite fold_deliver by (apply NoDup_map_filter, Hnd).
  apply map_ext_in. intros r Hr.
  rewrite (find_own_row _ _ _ Hnd Hr).
  destruct (subscribed userId event r); reflexivity.
Qed.

Lemma triggerWebhook_row_by_row_witness :
  NoDup (map wh_id (webhooks Samples.one_webhook))
  /\ webhooks (triggerWebhook 3 Scenario.post_fails 100 "u1" "task.completed"
                 Samples.one_webhook)
     = map (fun h =>
              if subscribed "u1" "task.completed" h then
                if Scenario.post_fails h then reset_failures 100 h
                else after_failure 3 h h
              else h) (webhooks Samples.one_webhook).
Proof.
  assert (Hu : NoDup (map wh_id (webhooks Samples.one_webhook)))
    by (repeat constructor; simpl; tauto).
  split; [exact Hu|].
  exact (triggerWebhook_row_by_row 3 Scenario.post_fails 100 "u1"
           "task.completed" Samples.one_webhook Hu).
Defined.

Lemma same_configuration_refl (l : list Webhook) :
  Forall2 same_configuration l l.
Proof.
  induction l; constructor; [|assumption].
  unfold same_configuration. repeat split; auto.
Qed.

Lemma deliver_same_configuration maxRetries post now h table0 table :
  Forall2 same_configuration table0 table ->
  Forall2 same_configuration table0 (deliver maxRetries post now table h).
Proof.
  rewrite deliver_outcome. unfold update_where.
  induction 1 as [|o n l l' Hon Hl IHl]; simpl; constructor; [|exact IHl].
  destruct (webhook_has_id (wh_id h) n); [|exact Hon].
  destruct Hon as (H1 & H2 & H3 & H4 & H5 & H6).
  unfold same_configuration, outcome, after_failure.
  destruct (post h); [|destruct (maxRetries <=? wh_failureCount h)];
    simpl; repeat split; auto; discriminate.
Qed.

(** X9: [triggerWebhook] never enables a webhook and never changes what the
    user configured: every row keeps its id, owner, url, events and secret,
    and a row that is active afterwards was active before. *)
Theorem triggerWebhook_keeps_configuration (maxRetries : Z)
  (post : Webhook -> bool) (now : Time) (userId : Id) (event : string)
  (w : World) :
  Forall2 same_configuration (webhooks w)
    (webhooks (triggerWebhook maxRetries post now userId event w)).
Proof.
  unfold triggerWebhook. simpl.
  generalize (targets userId event w) as ts.
  assert (Hgen : forall ts table,
            Forall2 same_configuration (webhooks w) table ->
            Forall2 same_configuration (webhooks w)
              (fold_left (deliver maxRetries post now) ts table)).
  { induction ts as [|h ts IH]; intros table Ht; simpl; [exact Ht|].
    apply IH, deliver_same_configuration, Ht. }
  intros ts. apply Hgen, same_configuration_refl.
Qed.

End WebhookMore.

(** ** More about fetching *)

Module FetchMore.
Import Store MobZapService TaskController QueueService WebhookService.
Import Observe ObserveMore StoreFacts FetchFacts CancelFacts.

Lemma claim_batch_ids stamp batch rows :
  map t_id (claim_batch stamp batch rows) = map t_id rows.
Proof.
  unfold claim_batch, update_where. rewrite map_map. apply map_ext.
  intros r. destruct (id_in _ r); reflexivity.
Qed.

Lemma fetched_ids now stamp userId w w' :
  fetched now stamp userId w w' -> map t_id (tasks w') = map t_id (tasks w).
Proof.
  intros [->|[d ->]]; [reflexivity | apply claim_batch_ids].
Qed.

Lemma not_fetched_again now stamp userId w w' o n later userId' deviceId' :
  task_ids_unique w -> fetched now stamp userId w w' ->
  In (o, n) (claimed_rows w w') ->
  Forall (fun t => t_id t <> t_id o) (find_pending later userId' deviceId' w').
Proof.
  intros Hu Hf Hin. apply Forall_forall. intros t Ht Hid.
  pose proof (claimed_in_batch _ _ _ _ _ _ _ Hu Hf Hin) as [Hn _].
  unfold claimed_rows in Hin. apply filter_In in Hin as [Hin Hc].
  apply in_combine_r in Hin.
  apply find_pending_In in Ht as [Ht He].
  apply eligible_spec in He as (_ & _ & Hs & _).
  assert (Hu' : NoDup (map t_id (tasks w')))
    by (rewrite (fetched_ids _ _ _ _ _ Hf); exact Hu).
  assert (t = n).
  { apply (unique_row t_id (tasks w') t n Hu' Ht Hin).
    rewrite Hid, Hn. reflexivity. }
  subst t. rewrite Hn in Hs. discriminate.
Qed.

(** X10: No task is handed out twice: a task that [fetchTasks] or [getTasks]
    moved to PROCESSING is in the batch of no later fetch, of any user and
    device, at any time, as long as no other handler touches it. *)
Theorem claimed_task_not_fetched_again (now stamp : Time)
  (newId userId : Id) (dd : MobZapDevice) (w : World) (o n : Task)
  (later : Time) (userId' deviceId' : Id) :
  task_ids_unique w ->
  (In (o, n) (claimed_rows w (snd (fetchTasks now stamp newId userId dd w))) ->
   Forall (fun t => t_id t <> t_id o)
     (find_pending later userId' deviceId'
        (snd (fetchTasks now stamp newId userId dd w))))
  /\ (In (o, n) (claimed_rows w (snd (getTasks now stamp userId dd w))) ->
      Forall (fun t => t_id t <> t_id o)
        (find_pending later userId' deviceId'
           (snd (getTasks now stamp userId dd w)))).
Proof.
  intros Hu. split; intros Hin.
  - apply (not_fetched_again now stamp userId w _ o n); auto.
    apply fetchTasks_fetched.
  - apply (not_fetched_again now stamp userId w _ o n); auto.
    apply getTasks_fetched.
Qed.

Lemma claimed_task_not_fetched_again_witness :
  let w' := snd (fetchTasks 100 101 "d9" "u1" Scenario.fetch_body
                   Scenario.three_tasks) in
  task_ids_unique Scenario.three_tasks
  /\ In (Samples.text_task,
         patch_task 101 (claim_patch 101) Samples.text_task)
       (claimed_rows Scenario.three_tasks w')
  /\ Forall (fun t => t_id t <> "t1") (find_pending 1000 "u1" "d1" w').
Proof.
  assert (Hu : task_ids_unique Scenario.three_tasks).
  { repeat constructor; simpl; intuition discriminate. }
  assert (Hin : In (Samples.text_task,
                    patch_task 101 (claim_patch 101) Samples.text_task)
                  (claimed_rows Scenario.three_tasks
                     (snd (fetchTasks 100 101 "d9" "u1" Scenario.fetch_body
                             Scenario.three_tasks))))
    by (left; reflexivity).
  cbv zeta. split; [exact Hu|]. split; [exact Hin|].
  exact (proj1 (claimed_task_not_fetched_again 100 101 "d9" "u1"
                  Scenario.fetch_body Scenario.three_tasks Samples.text_task
                  (patch_task 101 (claim_patch 101) Samples.text_task)
                  1000 "u1" "d1" Hu) Hin).
Defined.

(** The task types [getTasks] has a case for. *)
Lemma format_task_ids device batch :
  map mz_id (filter_Boolean (map (format_task device) batch))
  = map t_id (filter (fun t => supported (t_type t)) batch).
Proof.
  induction batch as [|t batch IH]; simpl; [reflexivity|].
  unfold format_task at 1, supported at 1.
  destruct (t_type t); simpl; rewrite IH; reflexivity.
Qed.

(** X11: [getTasks] claims more than it answers: its answer lists, in batch
    order, the tasks of the batch whose type it has a case for, while
    every task of the batch, a GROUP_LEAVE or SCHEDULED_MESSAGE one
    included, is moved to PROCESSING. *)
Theorem getTasks_answers_supported_tasks (now stamp : Time) (userId : Id)
  (body : MobZapDevice) (w : World) (c : Z) (l : list MobZapTask) :
  fst (getTasks now stamp userId body w) = Json_ c l ->
  exists device,
    let batch := find_pending now userId (dev_id device) w in
    In device (devices w)
    /\ map mz_id l = map t_id (filter (fun t => supported (t_type t)) batch)
    /\ tasks (snd (getTasks now stamp userId body w))
       = claim_batch stamp batch (tasks w)
    /\ (List.length l <= List.length batch)%nat.
Proof.
  intros H.
  assert (Hdev : exists device,
            find (active_device userId
                    (or_else (phone_normal body) (phone_business body)))
              (devices w) = Some device).
  { unfold getTasks in H. destruct (find _ (devices w)) as [d|];
      [eauto | discriminate]. }
  destruct Hdev as [device Hd].
  pose proof H as H'. unfold getTasks in H'. rewrite Hd in H'.
  simpl in H'. injection H' as _ Hl.
  pose proof (getTasks_result _ _ _ _ _ _ _ H) as [device' [_ Hclaim]].
  exists device. cbv zeta.
  split; [apply (find_some _ _ Hd)|].
  assert (Hbatch : find_pending now userId (dev_id device)
                     (with_devices w
                        (update_where (device_has_id (dev_id device))
                           (fun d =>
                              {| dev_id := dev_id d;
                                 dev_userId := dev_userId d;
                                 dev_phoneNumber := dev_phoneNumber d;
                                 dev_deviceName := dev_deviceName d;
                                 dev_deviceType := dev_deviceType d;
                                 dev_status := dev_status d;
                                 dev_lastSeen := Some now;
                                 dev_isConnected := true;
                                 dev_batteryLevel := dev_batteryLevel d;
                                 dev_isCharging := dev_isCharging d |})
                           (devices w)))
                   = find_pending now userId (dev_id device) w)
    by reflexivity.
  rewrite Hbatch in Hl. subst l.
  split; [apply format_task_ids|]. split.
  - unfold getTasks. rewrite Hd. simpl.
    change (find_pending now userId (dev_id device) _)
      with (find_pending now userId (dev_id device) w).
    destruct (find_pending now userId (dev_id device) w) eqn:E.
    + simpl. symmetry. apply claim_batch_nil.
    + reflexivity.
  - eapply Nat.le_trans; [apply filter_Boolean_length|].
    rewrite length_map. apply Nat.le_refl.
Qed.

Lemma getTasks_answers_supported_tasks_witness :
  fst (getTasks 100 101 "u1" Scenario.fetch_body
         Scenario.one_scheduled_message) = Json_ 200 []
  /\ exists device,
       In device (devices Scenario.one_scheduled_message)
       /\ tasks (snd (getTasks 100 101 "u1" Scenario.fetch_body
                        Scenario.one_scheduled_message))
          = claim_batch 101
              (find_pending 100 "u1" (dev_id device)
                 Scenario.one_scheduled_message)
              (tasks Scenario.one_scheduled_message).
Proof.
  split; [reflexivity|].
  destruct (getTasks_answers_supported_tasks 100 101 "u1" Scenario.fetch_body
              Scenario.one_scheduled_message 200 [] eq_refl)
    as (device & H).
  cbv zeta in H. destruct H as (H1 & _ & H3 & _).
  exists device. split; [exact H1 | exact H3].
Defined.

End FetchMore.

(** ** More about the task controller *)

Module ControllerMore.
Import Store MobZapService TaskController QueueService WebhookService.
Import SocketServer System Observe ObserveMore StoreFacts FetchFacts.
Import CancelFacts WorkerFacts CallbackFacts QueueFacts.

Lemma addToQueue_rest added task w w' :
  addToQueue added task w = Ok w' ->
  tasks w' = tasks w /\ messages w' = messages w
  /\ devices w' = devices w /\ webhooks w' = webhooks w.
Proof.
  unfold addToQueue, queue_add.
  destruct (t_type task), added as [u|e]; simpl; intros [= <-];
    repeat split.
Qed.

Lemma addToQueue_rejects added task w e :
  addToQueue added task w = Throw e ->
  added = Throw e /\ t_type task <> SCHEDULED_MESSAGE.
Proof.
  unfold addToQueue, queue_add.
  destruct (t_type task), added as [u|e']; simpl; intros [= <-];
    split; congruence.
Qed.

Lemma addToQueue_rejected task w e :
  t_type task <> SCHEDULED_MESSAGE ->
  addToQueue (Throw e) task w = Throw e.
Proof.
  unfold addToQueue, queue_add.
  destruct (t_type task); simpl; congruence.
Qed.

(** X12: [createTask] writes only after all its checks, and then in two
    steps.  Every 4xx answer leaves the store as it was.  With 201 exactly
    one task is added, at the end of the table: it is PENDING, belongs to
    the caller, has a priority between 1 and 10 (5 when the request gives
    none), no retry counted, and the schedule of the request; nothing else
    in the task, message and device tables changes.  An answer through
    [next(error)] comes either from the primary key, with the store as it
    was, or from a rejected [queue.add] of a request without a schedule,
    and then the task is stored and nothing else has changed: no job, no
    webhook delivery.  When [queue.add] rejects for such a request, 201 is
    not answered. *)
Theorem createTask_outcomes (maxRetries : Z) (post : Webhook -> bool)
  (added : Res unit) (now today : Time) (newId userId : Id) (b : CreateBody)
  (w : World) :
  let out := createTask maxRetries post added now today newId userId b w in
  (forall c msg, fst out = Fail c msg -> snd out = w)
  /\ (forall e, fst out = NextError e ->
        (existsb (task_has_id newId) (tasks w) = true /\ snd out = w)
        \/ (added = Throw e /\ body_scheduledAt b = None
            /\ existsb (task_has_id newId) (tasks w) = false
            /\ snd out
               = with_tasks w (tasks w ++ [new_task now newId userId b])))
  /\ (forall e, added = Throw e -> body_scheduledAt b = None ->
        forall c task, fst out <> Json_ c task)
  /\ (forall c task, fst out = Json_ c task ->
        c = 201 /\ task = new_task now newId userId b
        /\ tasks (snd out) = (tasks w ++ [task])%list
        /\ messages (snd out) = messages w
        /\ devices (snd out) = devices w
        /\ t_status task = PENDING /\ t_userId task = userId
        /\ t_id task = newId /\ t_retryCount task = 0
        /\ t_scheduledAt task = body_scheduledAt b
        /\ 1 <= t_priority task <= 10
        /\ (body_priority b = None -> t_priority task = 5)
        /\ ~ In newId (map t_id (tasks w))).
Proof.
  cbv zeta. unfold createTask.
  destruct (negb (valid_create b)) eqn:Ev;
    [split; [reflexivity | repeat split; discriminate]|].
  destruct (match body_deviceId b with Some _ => _ | None => _ end);
    [split; [reflexivity | repeat split; discriminate]|].
  destruct (active_licenses now userId w) as [|license rest];
    [split; [reflexivity | repeat split; discriminate]|].
  destruct (match lic_messageLimit license with Some _ => _ | None => _ end);
    [split; [reflexivity | repeat split; discriminate]|].
  destruct (existsb (task_has_id newId) (tasks w)) eqn:Ef.
  { split; [reflexivity|]. split; [intros e _; left; auto|].
    split; discriminate. }
  apply negb_false_iff in Ev. unfold valid_create in Ev.
  apply andb_true_iff in Ev as [Hty Hp].
  assert (Htype : t_type (new_task now newId userId b) <> SCHEDULED_MESSAGE).
  { simpl. intros E. rewrite E in Hty. discriminate. }
  set (task := new_task now newId userId b) in *.
  set (w1 := with_tasks w (tasks w ++ [task])).
  destruct (match body_scheduledAt b with
            | Some _ => Ok w1
            | None => addToQueue added task w1
            end) as [w2|e] eqn:Eq.
  - assert (Hrest : tasks w2 = tasks w1 /\ messages w2 = messages w1
                    /\ devices w2 = devices w1).
    { destruct (body_scheduledAt b).
      - injection Eq as <-. auto.
      - destruct (addToQueue_rest _ _ _ _ Eq) as (H1 & H2 & H3 & _). auto. }
    destruct Hrest as (Ht & Hm & Hd).
    split; [discriminate|]. split; [discriminate|]. split.
    + intros e -> Hs c t _. rewrite Hs in Eq.
      rewrite (addToQueue_rejected task w1 e Htype) in Eq. discriminate.
    + intros c t Hout. simpl in Hout. injection Hout as <- <-. simpl.
      rewrite Ht, Hm, Hd. simpl.
      repeat split; try reflexivity.
      * unfold or_num. destruct (body_priority b) as [p|]; [|lia].
        apply andb_true_iff in Hp as [H1 H2].
        apply Z.leb_le in H1, H2. destruct (p =? 0) eqn:E; lia.
      * unfold or_num. destruct (body_priority b) as [p|]; [|lia].
        apply andb_true_iff in Hp as [H1 H2].
        apply Z.leb_le in H1, H2. destruct (p =? 0) eqn:E; lia.
      * intros ->. reflexivity.
      * intros Hin. apply in_map_iff in Hin as [t [Hid Ht']].
        assert (H : existsb (task_has_id newId) (tasks w) = true).
        { apply existsb_exists. exists t. split; [exact Ht'|].
          unfold task_has_id. rewrite Hid. apply String.eqb_refl. }
        congruence.
  - split; [discriminate|]. split; [|split; discriminate].
    intros e' Hout. simpl in Hout. injection Hout as <-. right.
    destruct (body_scheduledAt b); [discriminate|].
    apply addToQueue_rejects in Eq as [-> _]. auto.
Qed.

(** A request that passes every check while the queue cannot be reached:
    the answer is an error and the task is in the table, without a job. *)
Lemma createTask_outcomes_witness :
  let out := createTask 3 Scenario.post_succeeds (Throw "ECONNREFUSED") 50 0
               "t4" "u1" Scenario.create_body Scenario.three_tasks in
  fst out = NextError "ECONNREFUSED"
  /\ map t_id (tasks (snd out)) = ["t1"; "t2"; "t3"; "t4"]
  /\ messageQueue (snd out) = []
  /\ (forall c task, fst out <> Json_ c task).
Proof.
  pose proof (createTask_outcomes 3 Scenario.post_succeeds
                (Throw "ECONNREFUSED") 50 0 "t4" "u1" Scenario.create_body
                Scenario.three_tasks) as H.
  cbv zeta in H. destruct H as (_ & _ & H3 & _).
  cbv zeta. split; [reflexivity|]. split; [reflexivity|].
  split; [reflexivity|]. exact (H3 "ECONNREFUSED" eq_refl eq_refl).
Defined.

(** X13: A task created without a schedule gets exactly one job, in the queue
    of its type: the message queue for MESSAGE and BULK_MESSAGE, the media
    queue for MEDIA, the group queue for the three group types.  The job
    carries the id, owner, device, payload and priority of the task. *)
Theorem createTask_queues_one_job (maxRetries : Z) (post : Webhook -> bool)
  (added : Res unit) (now today : Time) (newId userId : Id) (b : CreateBody) (w : World)
  (c : Z) (task : Task) :
  fst (createTask maxRetries post added now today newId userId b w)
  = Json_ c task ->
  body_scheduledAt b = None ->
  let w' := snd (createTask maxRetries post added now today newId userId b w) in
  exists name delay,
    let job := job_of name task delay in
    job_taskId job = newId /\ job_priority job = t_priority task
    /\ match body_type b with
       | MESSAGE | BULK_MESSAGE =>
           messageQueue w' = (messageQueue w ++ [job])%list
           /\ mediaQueue w' = mediaQueue w /\ groupQueue w' = groupQueue w
       | MEDIA =>
           mediaQueue w' = (mediaQueue w ++ [job])%list
           /\ messageQueue w' = messageQueue w /\ groupQueue w' = groupQueue w
       | SCHEDULED_MESSAGE => False
       | _ =>
           groupQueue w' = (groupQueue w ++ [job])%list
           /\ messageQueue w' = messageQueue w /\ mediaQueue w' = mediaQueue w
       end.
Proof.
  cbv zeta. unfold createTask.
  destruct (negb (valid_create b)) eqn:Ev; [discriminate|].
  destruct (match body_deviceId b with Some _ => _ | None => _ end);
    [discriminate|].
  destruct (active_licenses now userId w) as [|license rest]; [discriminate|].
  destruct (match lic_messageLimit license with Some _ => _ | None => _ end);
    [discriminate|].
  destruct (existsb (task_has_id newId) (tasks w)); [discriminate|].
  intros Hout Hs. rewrite Hs in *.
  apply negb_false_iff in Ev. unfold valid_create in Ev.
  apply andb_true_iff in Ev as [Hty _].
  unfold addToQueue, queue_add in *. simpl in *.
  destruct (body_type b), added as [u|e]; simpl in *; try discriminate;
    injection Hout as <- <-;
    eexists; eexists; (split; [reflexivity|]); (split; [reflexivity|]);
    repeat split; reflexivity.
Qed.

Lemma createTask_queues_one_job_witness :
  exists name delay,
    messageQueue
      (snd (createTask 3 Scenario.post_succeeds (Ok tt) 50 0 "t4" "u1"
              Scenario.create_body Scenario.three_tasks))
    = [job_of name (new_task 50 "t4" "u1" Scenario.create_body) delay].
Proof.
  destruct (createTask_queues_one_job 3 Scenario.post_succeeds (Ok tt) 50 0
              "t4" "u1" Scenario.create_body Scenario.three_tasks 201
              (new_task 50 "t4" "u1" Scenario.create_body) eq_refl eq_refl)
    as (name & delay & H).
  cbv zeta in H. destruct H as (_ & _ & H).
  exists name, delay. exact (proj1 H).
Defined.

(** X14: A cancelled task is out of the pipeline: after a successful cancel no
    fetch returns the task, whatever the device and the time, and a second
    cancel is rejected without changing anything. *)
Theorem cancelled_task_stays_out (now : Time) (userId taskId : Id)
  (w : World) (later : Time) (userId' deviceId' : Id) :
  fst (cancelTask now userId taskId w) = Json_ 200 tt ->
  let w' := snd (cancelTask now userId taskId w) in
  Forall (fun t => t_id t <> taskId) (find_pending later userId' deviceId' w')
  /\ cancelTask later userId taskId w'
     = (Fail 404 "Task not found or cannot be cancelled", w').
Proof.
  intros H. cbv zeta. unfold cancelTask in *.
  destruct (find (cancellable taskId userId) (tasks w)) as [task|] eqn:Ef;
    [|discriminate].
  clear H. simpl.
  assert (Hrows : forall t,
            In t (update_where (task_has_id taskId)
                    (patch_task now cancel_patch) (tasks w)) ->
            t_id t = taskId -> t_status t = CANCELLED).
  { intros t Hin Hid. apply In_update_where_inv in Hin as [r [_ ->]].
    destruct (task_has_id taskId r) eqn:E; [reflexivity|].
    unfold task_has_id in E. rewrite Hid, String.eqb_refl in E.
    discriminate. }
  split.
  - apply Forall_forall. intros t Ht Hid.
    apply find_pending_In in Ht as [Ht He]. simpl in Ht.
    apply eligible_spec in He as (_ & _ & Hs & _).
    rewrite (Hrows t Ht Hid) in Hs. discriminate.
  - destruct (find (cancellable taskId userId)
                (update_where (task_has_id taskId)
                   (patch_task now cancel_patch) (tasks w)))
      as [t|] eqn:Ef2; [|reflexivity].
    exfalso. apply find_some in Ef2 as [Hin Hc].
    unfold cancellable in Hc. apply andb_true_iff in Hc as [Ho Hs].
    apply owned_task_spec in Ho as [Hid _]. apply status_beq_spec in Hs.
    rewrite (Hrows t Hin Hid) in Hs. discriminate.
Qed.

Lemma cancelled_task_stays_out_witness :
  let w' := snd (cancelTask 100 "u1" "t1" Scenario.one_pending) in
  fst (cancelTask 100 "u1" "t1" Scenario.one_pending) = Json_ 200 tt
  /\ cancelTask 200 "u1" "t1" w'
     = (Fail 404 "Task not found or cannot be cancelled", w').
Proof.
  cbv zeta. split; [reflexivity|].
  exact (proj2 (cancelled_task_stays_out 100 "u1" "t1" Scenario.one_pending
                  200 "u1" "d1" eq_refl)).
Defined.

(** X15: [updateTaskStatus] stores whatever status it is given, for a task of
    the caller in any state.  On the task's row [completedAt] is set for
    COMPLETED and cleared for every other status, a result and an error
    that are absent from the request leave the stored ones alone; the
    update is stored even when the answer is an error. *)
Theorem updateTaskStatus_overwrites (maxRetries : Z) (post : Webhook -> bool)
  (now : Time) (newMessageId userId taskId : Id) (status : TaskStatus)
  (result : option Json) (error : option string) (w : World) (task : Task) :
  find (owned_task taskId userId) (tasks w) = Some task ->
  let w' := snd (updateTaskStatus maxRetries post now newMessageId userId
                   taskId status result error w) in
  let task' := patch_task now (status_patch now status result error) task in
  In task' (tasks w')
  /\ t_status task' = status
  /\ t_completedAt task'
     = (if TaskStatus_beq status COMPLETED then Some now else None)
  /\ (result = None -> t_result task' = t_result task)
  /\ (error = None -> t_error task' = t_error task)
  /\ (forall t, In t (tasks w) -> t_id t <> taskId -> In t (tasks w')).
Proof.
  intros Et. cbv zeta.
  assert (Htasks : tasks (snd (updateTaskStatus maxRetries post now
                                 newMessageId userId taskId status result
                                 error w))
                   = update_where (task_has_id taskId)
                       (patch_task now (status_patch now status result error))
                       (tasks w)).
  { unfold updateTaskStatus, message_create. rewrite Et.
    destruct (TaskStatus_beq status COMPLETED
              && TaskType_beq (t_type task) MESSAGE); [|reflexivity].
    destruct (mi_deviceId (completed_message_input userId task now));
      [|reflexivity].
    destruct (mi_phoneNumber (completed_message_input userId task now));
      [|reflexivity].
    destruct (mi_messageType (completed_message_input userId task now));
      [|reflexivity].
    destruct (existsb (message_has_id newMessageId) _); reflexivity. }
  rewrite Htasks.
  pose proof (find_some _ _ Et) as [Hin Ho]. apply owned_has_id in Ho.
  split; [|split; [|split; [|split; [|split]]]].
  - apply (In_update_where (task_has_id taskId)
             (patch_task now (status_patch now status result error))) in Hin.
    rewrite Ho in Hin. exact Hin.
  - reflexivity.
  - reflexivity.
  - intros ->. reflexivity.
  - intros ->. reflexivity.
  - intros t Ht Hid.
    apply (In_update_where (task_has_id taskId)
             (patch_task now (status_patch now status result error))) in Ht.
    destruct (task_has_id taskId t) eqn:E; [|exact Ht].
    unfold task_has_id in E. apply String.eqb_eq in E. contradiction.
Qed.

Lemma updateTaskStatus_overwrites_witness :
  let w' := snd (updateTaskStatus 3 Scenario.post_succeeds 300 "m2" "u1" "t1"
                   PENDING None None Scenario.after_completion) in
  t_status Samples.completed_task = COMPLETED
  /\ In (patch_task 300 (status_patch 300 PENDING None None)
           Samples.completed_task) (tasks w')
  /\ t_status (patch_task 300 (status_patch 300 PENDING None None)
                 Samples.completed_task) = PENDING.
Proof.
  pose proof (updateTaskStatus_overwrites 3 Scenario.post_succeeds 300 "m2"
                "u1" "t1" PENDING None None Scenario.after_completion
                Samples.completed_task eq_refl) as H.
  cbv zeta in H. destruct H as (H1 & H2 & _).
  cbv zeta. split; [reflexivity|]. split; [exact H1 | exact H2].
Defined.



(** X17: The [message_status] handler writes the row it names and nothing
    else: the message with the given id gets the status it is sent,
    whatever its status was, [deliveredAt] is stamped only for DELIVERED
    and [readAt] only for READ, and every other message, and every task,
    is left as it was.  An id no message has changes nothing. *)
Theorem message_status_writes_one_row (now : Time) (messageId : Id)
  (status : MessageStatus) (w : World) :
  let w' := message_status now messageId status w in
  tasks w' = tasks w
  /\ (existsb (message_has_id messageId) (messages w) = false -> w' = w)
  /\ Forall2 (fun o n =>
                if (m_id o =? messageId)%string then
                  n = patch_message now (status_update now status) o
                  /\ m_status n = status
                  /\ m_deliveredAt n
                     = (if MessageStatus_beq status DELIVERED then Some now
                        else m_deliveredAt o)
                  /\ m_readAt n
                     = (if MessageStatus_beq status READ then Some now
                        else m_readAt o)
                else n = o)
       (messages w) (messages w').
Proof.
  cbv zeta. unfold message_status, message_update, update_or_throw.
  destruct (existsb (message_has_id messageId) (messages w)) eqn:E.
  - split; [reflexivity|]. split; [discriminate|]. simpl.
    clear E. induction (messages w) as [|m ms IH]; simpl; constructor;
      [|exact IH].
    unfold message_has_id. destruct (m_id m =? messageId)%string;
      [|reflexivity].
    unfold patch_message, status_update. simpl.
    destruct (MessageStatus_beq status DELIVERED),
      (MessageStatus_beq status READ); repeat split.
  - split; [reflexivity|]. split; [reflexivity|].
    assert (Hnone : forall m, In m (messages w) ->
                              (m_id m =? messageId)%string = false).
    { intros m Hm. destruct (m_id m =? messageId)%string eqn:Em;
        [|reflexivity].
      assert (existsb (message_has_id messageId) (messages w) = true)
        by (apply existsb_exists; exists m; auto).
      congruence. }
    simpl. clear E. revert Hnone. generalize (messages w).
    induction l as [|m ms IH]; intros Hnone; constructor.
    + rewrite (Hnone m (or_introl eq_refl)). reflexivity.
    + apply IH. intros x Hx. apply Hnone. right. exact Hx.
Qed.

End ControllerMore.

(** ** The task list and the bulk insert *)

Module ListingMore.
Import Store QueueService TaskController TaskListing Observe ObserveMore.
Import StoreFacts CancelFacts.

Lemma newer_total (a b : Task) : newer a b = false -> newer b a = true.
Proof. unfold newer. rewrite Z.leb_gt, Z.leb_le. lia. Qed.

Lemma newer_trans (a b c : Task) :
  newer a b = true -> newer b c = true -> newer a c = true.
Proof. unfold newer. rewrite !Z.leb_le. lia. Qed.

Section Slices.
Context {A : Type}.
Variable R : A -> A -> Prop.

Lemma strongly_sorted_tail (l1 l2 : list A) :
  StronglySorted R (l1 ++ l2) -> StronglySorted R l2.
Proof.
  induction l1 as [|x l1 IH]; simpl; [auto|].
  intros H. inversion H; auto.
Qed.

Lemma strongly_sorted_head (l1 l2 : list A) :
  StronglySorted R (l1 ++ l2) -> StronglySorted R l1.
Proof.
  induction l1 as [|x l1 IH]; simpl; intros H; [constructor|].
  inversion H as [|? ? Hs Hall]; subst. constructor; [apply IH, Hs|].
  rewrite Forall_forall in *. intros y Hy. apply Hall, in_or_app. auto.
Qed.

Lemma slice_sorted (k i : nat) (l : list A) :
  StronglySorted R l -> StronglySorted R (firstn k (skipn i l)).
Proof.
  intros H. rewrite <- (firstn_skipn i l) in H.
  apply strongly_sorted_tail in H.
  rewrite <- (firstn_skipn k (skipn i l)) in H.
  apply strongly_sorted_head in H. exact H.
Qed.

Lemma slice_In (k i : nat) (l : list A) (x : A) :
  In x (firstn k (skipn i l)) -> In x l.
Proof.
  intros H. apply firstn_In in H.
  rewrite <- (firstn_skipn i l). apply in_or_app. right. exact H.
Qed.

(** Cutting a list into [n] consecutive slices of [k] elements loses
    nothing when [n * k] reaches its length. *)
Lemma slices_cover (k n : nat) (l : list A) :
  (List.length l <= n * k)%nat ->
  List.concat (map (fun i => firstn k (skipn (i * k) l)) (seq 0 n)) = l.
Proof.
  revert l. induction n as [|n IH]; intros l Hlen; simpl.
  - destruct l; [reflexivity | simpl in Hlen; lia].
  - rewrite <- seq_shift, map_map.
    transitivity (firstn k l ++ skipn k l)%list; [|apply firstn_skipn].
    f_equal.
    transitivity (List.concat
                    (map (fun i => firstn k (skipn (i * k) (skipn k l)))
                       (seq 0 n))).
    + f_equal. apply map_ext. intros i. rewrite skipn_skipn.
      f_equal. f_equal. lia.
    + apply IH. rewrite length_skipn. simpl in Hlen. lia.
Qed.

End Slices.

(** For a page and a limit of at least 1 the query is a plain slice. *)
Lemma paginate_page {A : Type} (page limit : Z) (rows : list A) :
  1 <= page -> 1 <= limit ->
  paginate ((page - 1) * limit) limit rows
  = Ok (firstn (Z.to_nat limit)
          (skipn ((Z.to_nat page - 1) * Z.to_nat limit) rows)).
Proof.
  intros Hp Hl. unfold paginate.
  destruct ((page - 1) * limit <? 0) eqn:E1; [apply Z.ltb_lt in E1; nia|].
  destruct (0 <=? limit) eqn:E2; [|apply Z.leb_gt in E2; lia].
  do 3 f_equal. rewrite Z2Nat.inj_mul by lia.
  rewrite Z2Nat.inj_sub by lia. reflexivity.
Qed.

(** The number of pages for a limit of at least 1: the least number of
    slices that hold [total] rows. *)
Lemma pages_bounds (total : nat) (limit : Z) :
  1 <= limit ->
  exists pages : nat,
    pages_of total limit = Finite (Z.of_nat pages)
    /\ (total <= pages * Z.to_nat limit)%nat
    /\ ((0 < pages)%nat -> ((pages - 1) * Z.to_nat limit < total)%nat).
Proof.
  intros Hl. unfold pages_of.
  destruct (limit =? 0) eqn:E; [apply Z.eqb_eq in E; lia|].
  pose proof (Z.div_mod (- Z.of_nat total) limit ltac:(lia)) as Hdm.
  pose proof (Z.mod_pos_bound (- Z.of_nat total) limit ltac:(lia)) as Hb.
  set (d := (- Z.of_nat total) / limit) in *.
  set (r := (- Z.of_nat total) mod limit) in *.
  assert (Hd : 0 <= - d) by nia.
  exists (Z.to_nat (- d)). split; [rewrite Z2Nat.id by lia; reflexivity|].
  split.
  - apply Nat2Z.inj_le. rewrite Nat2Z.inj_mul, !Z2Nat.id by lia. nia.
  - intros Ht. apply Nat2Z.inj_lt.
    rewrite Nat2Z.inj_mul, Nat2Z.inj_sub by lia.
    rewrite !Z2Nat.id by lia. simpl. nia.
Qed.

Lemma filter_value_some (v : option string) (s : string) :
  v = Some s -> s <> "" -> filter_value v = Some s.
Proof.
  intros -> Hne. unfold filter_value, truthy.
  destruct (s =? "")%string eqn:E; [|reflexivity].
  apply String.eqb_eq in E. contradiction.
Qed.

Lemma getTaskList_answer (userId : Id) (q : ListQuery) (w : World) :
  valid_filters q = true -> 1 <= page_of q -> 1 <= limit_of q ->
  getTaskList userId q w
  = Json_ 200
      (map (with_device w)
         (firstn (Z.to_nat (limit_of q))
            (skipn ((Z.to_nat (page_of q) - 1) * Z.to_nat (limit_of q))
               (all_listed userId q w))),
       {| pg_total := List.length (filter (listed userId q) (tasks w));
          pg_page := page_of q; pg_limit := limit_of q;
          pg_pages := pages_of
                        (List.length (filter (listed userId q) (tasks w)))
                        (limit_of q) |}).
Proof.
  intros Hv Hp Hl. unfold getTaskList. rewrite Hv. simpl.
  rewrite (paginate_page _ _ _ Hp Hl). reflexivity.
Qed.

Lemma page_tasks_slice (userId : Id) (q : ListQuery) (w : World) (p : Z) :
  valid_filters q = true -> 1 <= p -> 1 <= limit_of q ->
  page_tasks userId (with_page q p) w
  = firstn (Z.to_nat (limit_of q))
      (skipn ((Z.to_nat p - 1) * Z.to_nat (limit_of q))
         (all_listed userId q w)).
Proof.
  intros Hv Hp Hl. unfold page_tasks.
  rewrite (getTaskList_answer userId (with_page q p) w Hv Hp Hl).
  rewrite map_map. simpl. apply map_id.
Qed.

Lemma all_listed_length (userId : Id) (q : ListQuery) (w : World) :
  List.length (all_listed userId q w)
  = List.length (filter (listed userId q) (tasks w)).
Proof.
  unfold all_listed. symmetry. apply Permutation_length, orderBy_perm.
Qed.

Lemma all_listed_sorted (userId : Id) (q : ListQuery) (w : World) :
  StronglySorted (fun a b => t_createdAt b <= t_createdAt a)
    (all_listed userId q w).
Proof.
  pose proof (orderBy_sorted newer newer_total newer_trans
                (filter (listed userId q) (tasks w))) as Hs.
  unfold all_listed.
  eapply StronglySorted_ind with
    (P := fun l => StronglySorted
                     (fun a b => t_createdAt b <= t_createdAt a) l);
    [constructor | | exact Hs].
  intros a l _ IH Hall. constructor; [exact IH|].
  rewrite Forall_forall in *. intros x Hx. specialize (Hall x Hx).
  unfold newer in Hall. apply Z.leb_le, Hall.
Qed.

(** Rows whose keys are all different have one order only: two lists of
    the same rows that are both sorted by the key are equal. *)
Lemma sorted_order_unique {A : Type} (key : A -> Z) (l1 l2 : list A) :
  NoDup (map key l1) -> Permutation l1 l2 ->
  StronglySorted (fun a b => key b <= key a) l1 ->
  StronglySorted (fun a b => key b <= key a) l2 ->
  l1 = l2.
Proof.
  revert l2. induction l1 as [|a l1 IH]; intros l2 Hnd Hp Hs1 Hs2.
  - apply Permutation_nil in Hp. congruence.
  - destruct l2 as [|b l2];
      [apply Permutation_sym, Permutation_nil in Hp; discriminate|].
    inversion Hs1 as [|? ? Hs1' Ha]; subst.
    inversion Hs2 as [|? ? Hs2' Hb]; subst.
    rewrite Forall_forall in Ha, Hb.
    assert (Hab : a = b).
    { assert (Hin_b : In b (a :: l1))
        by (apply (Permutation_in b (Permutation_sym Hp)); left; reflexivity).
      assert (Hin_a : In a (b :: l2))
        by (apply (Permutation_in a Hp); left; reflexivity).
      destruct Hin_b as [E|Hin_b]; [exact E|].
      destruct Hin_a as [E|Hin_a]; [symmetry; exact E|].
      apply (FetchFacts.unique_row key (a :: l1) a b Hnd);
        [left; reflexivity | right; exact Hin_b|].
      pose proof (Ha b Hin_b). pose proof (Hb a Hin_a). lia. }
    subst b. f_equal. apply IH.
    + inversion Hnd; assumption.
    + apply (Permutation_cons_inv Hp).
    + exact Hs1'.
    + exact Hs2'.
Qed.

(** X18: For a request whose page and limit are integers of at least 1 and
    whose status and type filters name values of their enums, none of
    which the handler itself checks, [getTaskList] answers 200 with a page
    of at most [limit] tasks, 10 when the request gives no limit.  Every
    task on the page is a stored task of the caller that passes each
    filter the request carries, the tasks come newest first, and [total]
    counts all the tasks the filters match, not the page. *)
Theorem getTaskList_page (userId : Id) (q : ListQuery) (w : World) :
  valid_filters q = true -> 1 <= page_of q -> 1 <= limit_of q ->
  exists rows pg,
    getTaskList userId q w = Json_ 200 (rows, pg)
    /\ (List.length rows <= Z.to_nat (limit_of q))%nat
    /\ (lq_limit q = None -> List.length rows <= 10)%nat
    /\ (forall t, In t (map lt_task rows) ->
          In t (tasks w) /\ t_userId t = userId
          /\ (forall s, lq_status q = Some s -> s <> "" ->
                status_of_string s = Some (t_status t))
          /\ (forall s, lq_type q = Some s -> s <> "" ->
                type_of_string s = Some (t_type t))
          /\ (forall d, lq_deviceId q = Some d -> d <> "" ->
                t_deviceId t = Some d))
    /\ StronglySorted (fun a b => t_createdAt b <= t_createdAt a)
         (map lt_task rows)
    /\ pg_total pg = List.length (all_listed userId q w)
    /\ pg_page pg = page_of q /\ pg_limit pg = limit_of q.
Proof.
  intros Hv Hp Hl. rewrite (getTaskList_answer userId q w Hv Hp Hl).
  eexists. eexists. split; [reflexivity|].
  rewrite map_map. simpl. rewrite map_id, length_map.
  assert (Hlen : (List.length
                    (firstn (Z.to_nat (limit_of q))
                       (skipn ((Z.to_nat (page_of q) - 1)
                               * Z.to_nat (limit_of q))
                          (all_listed userId q w)))
                  <= Z.to_nat (limit_of q))%nat)
    by apply firstn_le_length.
  split; [exact Hlen|]. split; [|split; [|split; [|split]]].
  - intros Hnone. unfold limit_of in Hlen at 3. rewrite Hnone in Hlen.
    exact Hlen.
  - intros t Ht. apply slice_In in Ht. unfold all_listed in Ht.
    apply (Permutation_in t (Permutation_sym (orderBy_perm newer _))) in Ht.
    apply filter_In in Ht as [Hin Hf]. unfold listed in Hf.
    apply andb_true_iff in Hf as [Hf Hd].
    apply andb_true_iff in Hf as [Hf Hty].
    apply andb_true_iff in Hf as [Hu Hs].
    apply String.eqb_eq in Hu.
    split; [exact Hin|]. split; [exact Hu|]. split; [|split].
    + intros s Eq Hne. rewrite (filter_value_some _ s Eq Hne) in Hs.
      destruct (status_of_string s) as [status|]; [|discriminate].
      apply status_beq_spec in Hs. congruence.
    + intros s Eq Hne. rewrite (filter_value_some _ s Eq Hne) in Hty.
      destruct (type_of_string s) as [ty|]; [|discriminate].
      destruct (t_type t), ty; simpl in Hty; congruence.
    + intros d Eq Hne. rewrite (filter_value_some _ d Eq Hne) in Hd.
      unfold opt_id_eqb in Hd.
      destruct (t_deviceId t) as [x|]; [|discriminate].
      apply String.eqb_eq in Hd. rewrite Hd. reflexivity.
  - apply slice_sorted, all_listed_sorted.
  - symmetry. apply all_listed_length.
  - split; reflexivity.
Qed.

(** The first page of two of the three tasks of [u1]. *)
Lemma getTaskList_page_witness :
  valid_filters Samples.first_two = true
  /\ 1 <= page_of Samples.first_two /\ 1 <= limit_of Samples.first_two
  /\ map t_id (page_tasks "u1" Samples.first_two Scenario.three_tasks)
     = ["t3"; "t2"]
  /\ exists rows pg,
       getTaskList "u1" Samples.first_two Scenario.three_tasks
       = Json_ 200 (rows, pg)
       /\ (List.length rows <= 2)%nat /\ pg_total pg = 3%nat.
Proof.
  assert (Hp : 1 <= page_of Samples.first_two) by (cbv; discriminate).
  assert (Hl : 1 <= limit_of Samples.first_two) by (cbv; discriminate).
  split; [reflexivity|].
  split; [exact Hp|]. split; [exact Hl|]. split; [reflexivity|].
  destruct (getTaskList_page "u1" Samples.first_two Scenario.three_tasks
              eq_refl Hp Hl)
    as (rows & pg & Ha & Hlen & _ & _ & _ & Ht & _).
  exists rows, pg. split; [exact Ha|]. split; [exact Hlen|].
  rewrite Ht. reflexivity.
Defined.

(** X19: The pages of [getTaskList] partition the result.  For filters
    that name values of their enums, a limit that is an integer of at
    least 1 and matching tasks that all differ in [createdAt], so that the
    order by [createdAt] is the same in every query, the answers announce
    one number of pages, and the pages 1, 2,
    ... up to that number, put one after the other, are exactly the
    matching tasks, newest first, none lost and none repeated; every page
    up to that number holds a task and every page after it is empty. *)
Theorem getTaskList_pages_cover (userId : Id) (q : ListQuery) (w : World) :
  valid_filters q = true -> 1 <= limit_of q ->
  NoDup (map t_createdAt (filter (listed userId q) (tasks w))) ->
  exists pages : nat,
    (forall p, 1 <= p ->
       exists rows pg,
         getTaskList userId (with_page q p) w = Json_ 200 (rows, pg)
         /\ pg_pages pg = Finite (Z.of_nat pages))
    /\ pages_upto userId q w pages = all_listed userId q w
    /\ (forall p, Z.of_nat pages < p -> page_tasks userId (with_page q p) w = [])
    /\ (forall p, 1 <= p <= Z.of_nat pages ->
          page_tasks userId (with_page q p) w <> [])
    /\ (forall l,
          Permutation l (filter (listed userId q) (tasks w)) ->
          StronglySorted (fun a b => t_createdAt b <= t_createdAt a) l ->
          l = all_listed userId q w).
Proof.
  intros Hv Hl Hnd.
  destruct (pages_bounds (List.length (filter (listed userId q) (tasks w)))
              (limit_of q) Hl) as (pages & Hpages & Hen & Htight).
  rewrite <- all_listed_length in Hen, Htight.
  pose proof (Z2Nat.id (limit_of q) ltac:(lia)) as Hk.
  assert (Hkpos : (0 < Z.to_nat (limit_of q))%nat) by lia.
  exists pages. split; [|split; [|split; [|split]]].
  - intros p Hp. eexists. eexists.
    split; [apply (getTaskList_answer userId (with_page q p) w Hv Hp Hl)|].
    exact Hpages.
  - unfold pages_upto.
    etransitivity;
      [|apply (slices_cover (Z.to_nat (limit_of q)) pages
                 (all_listed userId q w) Hen)].
    f_equal. apply map_ext_in. intros i _.
    rewrite page_tasks_slice by (exact Hv || lia).
    rewrite Nat2Z.id. simpl. rewrite Nat.sub_0_r. reflexivity.
  - intros p Hp. rewrite page_tasks_slice by (exact Hv || lia).
    rewrite skipn_all2; [apply firstn_nil | nia].
  - intros p Hp Hempty.
    rewrite page_tasks_slice in Hempty by (exact Hv || lia).
    apply (f_equal (@List.length Task)) in Hempty.
    rewrite length_firstn, length_skipn in Hempty. simpl in Hempty.
    specialize (Htight ltac:(lia)).
    assert (((Z.to_nat p - 1) * Z.to_nat (limit_of q)
             <= (pages - 1) * Z.to_nat (limit_of q))%nat)
      by (apply Nat.mul_le_mono_r; lia).
    lia.
  - intros l Hperm Hs. symmetry.
    apply (sorted_order_unique t_createdAt).
    + apply (Permutation_NoDup
               (l := map t_createdAt (filter (listed userId q) (tasks w))));
        [|exact Hnd].
      apply Permutation_map. unfold all_listed. apply orderBy_perm.
    + eapply perm_trans; [|apply Permutation_sym, Hperm].
      unfold all_listed. apply Permutation_sym, orderBy_perm.
    + apply all_listed_sorted.
    + exact Hs.
Qed.

(** The three tasks of [u1], two to a page. *)
Lemma getTaskList_pages_cover_witness :
  valid_filters Samples.first_two = true
  /\ 1 <= limit_of Samples.first_two
  /\ NoDup (map t_createdAt
              (filter (listed "u1" Samples.first_two)
                 (tasks Scenario.three_tasks)))
  /\ map t_id (pages_upto "u1" Samples.first_two Scenario.three_tasks 2)
     = ["t3"; "t2"; "t1"]
  /\ exists pages : nat,
       pages_upto "u1" Samples.first_two Scenario.three_tasks pages
       = all_listed "u1" Samples.first_two Scenario.three_tasks.
Proof.
  assert (Hl : 1 <= limit_of Samples.first_two) by (cbv; discriminate).
  assert (Hnd : NoDup (map t_createdAt
                         (filter (listed "u1" Samples.first_two)
                            (tasks Scenario.three_tasks)))).
  { simpl. repeat constructor; simpl; intuition discriminate. }
  split; [reflexivity|].
  split; [exact Hl|]. split; [exact Hnd|]. split; [reflexivity|].
  destruct (getTaskList_pages_cover "u1" Samples.first_two
              Scenario.three_tasks eq_refl Hl Hnd) as (pages & _ & H & _).
  exists pages. exact H.
Defined.

Lemma tasksToCreate_rows now uuid userId bodies i :
  Forall (fun t => t_status t = PENDING /\ t_userId t = userId
                   /\ t_retryCount t = 0 /\ t_createdAt t = now)
    (map (fun ib => new_task now (uuid (fst ib)) userId (snd ib))
       (number_from i bodies)).
Proof.
  revert i. induction bodies as [|b r IH]; intros i; simpl; constructor.
  - repeat split.
  - apply IH.
Qed.

Lemma tasksToCreate_bodies now uuid userId bodies i :
  map t_scheduledAt
    (map (fun ib => new_task now (uuid (fst ib)) userId (snd ib))
       (number_from i bodies))
  = map body_scheduledAt bodies
  /\ List.length (number_from i bodies) = List.length bodies.
Proof.
  revert i. induction bodies as [|b r IH]; intros i; simpl; [auto|].
  destruct (IH (S i)) as [H1 H2]. rewrite H1, H2. auto.
Qed.

(** X20: [bulkCreateTasks] inserts all the tasks of a request or none.  Any
    answer other than 201 leaves the store as it was.  With 201 the
    request held between 1 and 100 tasks and the answer counts them; the
    rows are appended in the order of the request, each PENDING, owned by
    the caller and with the schedule of its entry; the task ids stay
    unique; and, unlike [createTask], no job is queued for any of them,
    scheduled or not. *)
Theorem bulkCreateTasks_all_or_nothing (now : Time) (uuid : nat -> Id)
  (userId : Id) (bodies : list CreateBody) (w : World) :
  let out := bulkCreateTasks now uuid userId bodies w in
  ((forall c n, fst out <> Json_ c n) -> snd out = w)
  /\ (forall c n, fst out = Json_ c n ->
        c = 201 /\ n = List.length bodies /\ (1 <= n <= 100)%nat
        /\ exists rows,
             tasks (snd out) = (tasks w ++ rows)%list
             /\ List.length rows = n
             /\ map t_scheduledAt rows = map body_scheduledAt bodies
             /\ Forall (fun t => t_status t = PENDING /\ t_userId t = userId
                                 /\ t_retryCount t = 0 /\ t_createdAt t = now)
                  rows
             /\ (task_ids_unique w -> task_ids_unique (snd out))
             /\ messageQueue (snd out) = messageQueue w
             /\ mediaQueue (snd out) = mediaQueue w
             /\ groupQueue (snd out) = groupQueue w
             /\ messages (snd out) = messages w
             /\ devices (snd out) = devices w).
Proof.
  cbv zeta. unfold bulkCreateTasks.
  destruct ((List.length bodies <? 1)%nat || (100 <? List.length bodies)%nat)
    eqn:En; [split; [reflexivity | discriminate]|].
  destruct (negb (distinct (map t_id (tasksToCreate now uuid userId bodies)))
            || existsb (fun r => existsb (task_has_id (t_id r)) (tasks w))
                 (tasksToCreate now uuid userId bodies)) eqn:Ek;
    [split; [reflexivity | discriminate]|].
  destruct (negb (forallb (device_known w)
                    (tasksToCreate now uuid userId bodies)));
    [split; [reflexivity | discriminate]|].
  split.
  - intros H. exfalso. apply (H 201%Z (List.length bodies)). reflexivity.
  - intros c n Hout. simpl in Hout. injection Hout as <- <-.
    apply orb_false_iff in En as [E1 E2].
    apply Nat.ltb_ge in E1, E2.
    apply orb_false_iff in Ek as [Ed Ee]. apply negb_false_iff in Ed.
    split; [reflexivity|]. split; [reflexivity|]. split; [lia|].
    exists (tasksToCreate now uuid userId bodies). simpl.
    unfold tasksToCreate.
    destruct (tasksToCreate_bodies now uuid userId bodies 0) as [Hs Hl].
    split; [reflexivity|]. split; [rewrite length_map; exact Hl|].
    split; [exact Hs|]. split; [apply tasksToCreate_rows|].
    split; [|repeat split].
    intros Hu. unfold task_ids_unique in *. simpl. rewrite map_app.
    apply NoDup_app; [exact Hu | apply QueueFacts.distinct_NoDup, Ed |].
    intros id Hold Hnew.
    apply in_map_iff in Hnew as [r [Hid Hr]].
    apply in_map_iff in Hold as [t [Hid' Ht]].
    assert (H : existsb (fun r => existsb (task_has_id (t_id r)) (tasks w))
                  (tasksToCreate now uuid userId bodies) = true).
    { apply existsb_exists. exists r. split; [exact Hr|].
      apply existsb_exists. exists t. split; [exact Ht|].
      unfold task_has_id. rewrite Hid, Hid'. apply String.eqb_refl. }
    congruence.
Qed.

End ListingMore.

(** ** Rows of a table, one by one *)

Module RowFacts.
Import Store StoreFacts.

Section Rows.
Context {A : Type}.

Lemma update_where_rows (sel : A -> bool) (f : A -> A) (rows : list A) :
  Forall2 (fun o n => n = if sel o then f o else o)
    rows (update_where sel f rows).
Proof.
  induction rows as [|r rows IH]; simpl; constructor; [reflexivity|exact IH].
Qed.

Lemma update_where_app (sel : A -> bool) (f : A -> A) (l1 l2 : list A) :
  update_where sel f (l1 ++ l2)
  = (update_where sel f l1 ++ update_where sel f l2)%list.
Proof. unfold update_where. apply map_app. Qed.

Lemma update_where_last (sel : A -> bool) (f : A -> A) (rows : list A)
  (r : A) :
  existsb sel rows = false -> sel r = true ->
  update_where sel f (rows ++ [r]) = (rows ++ [f r])%list.
Proof.
  intros Hn Hr. rewrite update_where_app, (update_where_none _ _ _ Hn).
  simpl. rewrite Hr. reflexivity.
Qed.

Lemma update_where_or (sel1 sel2 : A -> bool) (f : A -> A) (rows : list A) :
  (forall r, f (f r) = f r) -> (forall r, sel2 (f r) = sel2 r) ->
  update_where sel2 f (update_where sel1 f rows)
  = update_where (fun r => sel1 r || sel2 r) f rows.
Proof.
  intros Hf Hsel. unfold update_where. rewrite map_map. apply map_ext.
  intros r. destruct (sel1 r); simpl.
  - rewrite Hsel. destruct (sel2 r); [apply Hf | reflexivity].
  - reflexivity.
Qed.

Lemma existsb_update_where_other (p sel : A -> bool) (f : A -> A)
  (rows : list A) :
  (forall r, p (f r) = p r) ->
  existsb p (update_where sel f rows) = existsb p rows.
Proof.
  intros H. induction rows as [|r rows IH]; simpl; [reflexivity|].
  rewrite IH. destruct (sel r); [rewrite H|]; reflexivity.
Qed.

Lemma find_last (p : A -> bool) (rows : list A) (r : A) :
  existsb p rows = false -> p r = true -> find p (rows ++ [r]) = Some r.
Proof.
  induction rows as [|x rows IH]; simpl; intros Hn Hr.
  - rewrite Hr. reflexivity.
  - apply orb_false_iff in Hn as [Hx Hn]. rewrite Hx. apply IH; assumption.
Qed.

Lemma existsb_weaker (p q : A -> bool) (rows : list A) :
  (forall r, p r = true -> q r = true) ->
  existsb q rows = false -> existsb p rows = false.
Proof.
  intros H Hq. destruct (existsb p rows) eqn:E; [|reflexivity].
  apply existsb_exists in E as [r [Hr Hp]].
  assert (existsb q rows = true)
    by (apply existsb_exists; exists r; auto).
  congruence.
Qed.

End Rows.

End RowFacts.

(** ** Messages from the request to the worker *)

Module MessageMore.
Import Store WebhookService MobZapService QueueService TaskController.
Import MessageController SocketHandlers Observe ObserveMore.
Import StoreFacts CancelFacts WorkerFacts CallbackFacts RowFacts.

Lemma sendMessage_created added now newTaskId newMessageId userId b w
  message :
  fst (sendMessage added now newTaskId newMessageId userId b w)
  = Json_ 201 message ->
  let task := default_task now newTaskId userId (sb_deviceId b) MESSAGE 5
                (send_data b) in
  existsb (task_has_id newTaskId) (tasks w) = false
  /\ existsb (message_has_id newMessageId) (messages w) = false
  /\ m_id message = newMessageId
  /\ m_status message = MSG_PENDING /\ m_content message = sb_content b
  /\ m_taskId message = Some newTaskId
  /\ snd (sendMessage added now newTaskId newMessageId userId b w)
     = with_messageQueue
         (with_messages (with_tasks w (tasks w ++ [task]))
            (messages w ++ [message]))
         (messageQueue w ++ [job_of "process-message" task (Some 0)]).
Proof.
  unfold sendMessage, message_create.
  destruct (find (own_active_device (sb_deviceId b) userId) (devices w));
    [|discriminate].
  destruct (existsb (task_has_id newTaskId) (tasks w)) eqn:Et;
    [discriminate|].
  simpl.
  destruct (existsb (message_has_id newMessageId) (messages w)) eqn:Em;
    [discriminate|].
  unfold addToQueue, queue_add. simpl.
  destruct added as [u|e]; simpl; [|discriminate].
  intros [= <-]. repeat split.
Qed.

Lemma message_create_fresh now newId d w dev phone ty :
  mi_deviceId d = Some dev -> mi_phoneNumber d = Some phone ->
  mi_messageType d = Some ty ->
  existsb (message_has_id newId) (messages w) = false ->
  exists m,
    message_create now newId d w
    = Ok (m, with_messages w (messages w ++ [m]))
    /\ m_id m = newId /\ m_taskId m = mi_taskId d
    /\ m_status m = keep MSG_PENDING (mi_status d)
    /\ m_messageType m = ty /\ m_content m = mi_content d.
Proof.
  intros Hd Hp Hty Hfresh. unfold message_create.
  rewrite Hd, Hp, Hty, Hfresh. eexists. split; [reflexivity|].
  repeat split.
Qed.


(** X21: The message a [sendMessage] request records is never updated by the
    queue worker.  After the worker has sent the job of the request, the
    task is COMPLETED and has two message rows: the one of the request,
    still PENDING, and a second one the worker adds, SENT, of type TEXT
    and without the text, which the request stored under [content] and the
    worker reads from [message]. *)
Theorem sendMessage_then_worker
  (sendWhatsAppMessage : option Id -> TaskData -> Res Json)
  (maxRetries : Z) (post : Webhook -> bool) (added : Res unit)
  (now later : Time)
  (newTaskId newMessageId newMessageId' userId : Id) (b : SendBody)
  (w : World) (message : Message) (result : Json) :
  fst (sendMessage added now newTaskId newMessageId userId b w)
  = Json_ 201 message ->
  sendWhatsAppMessage (Some (sb_deviceId b)) (send_data b) = Ok result ->
  existsb (message_has_id newMessageId') (messages w) = false ->
  newMessageId' <> newMessageId ->
  let w1 := snd (sendMessage added now newTaskId newMessageId userId b w) in
  let task := default_task now newTaskId userId (sb_deviceId b) MESSAGE 5
                (send_data b) in
  let job := job_of "process-message" task (Some 0) in
  let out := process_message sendWhatsAppMessage maxRetries post later
               newMessageId' job w1 in
  messageQueue w1 = (messageQueue w ++ [job])%list
  /\ fst out = Ok result
  /\ exists t' m',
       tasks (snd out) = (tasks w ++ [t'])%list
       /\ t_id t' = newTaskId /\ t_status t' = COMPLETED
       /\ messages (snd out) = (messages w ++ [message; m'])%list
       /\ m_status message = MSG_PENDING
       /\ m_content message = sb_content b
       /\ m_taskId message = Some newTaskId
       /\ m_taskId m' = Some newTaskId
       /\ m_status m' = SENT /\ m_messageType m' = TEXT
       /\ m_content m' = None.
Proof.
  intros Hout Hsend Hfresh Hneq. cbv zeta.
  destruct (sendMessage_created _ _ _ _ _ _ _ _ Hout)
    as (Et & Em & Hid & Hst & Hc & Htid & Hw).
  rewrite Hw. clear Hw Hout.
  set (task := default_task now newTaskId userId (sb_deviceId b) MESSAGE 5
                 (send_data b)).
  assert (Hsel : task_has_id newTaskId task = true)
    by (unfold task_has_id; simpl; apply String.eqb_refl).
  split; [reflexivity|].
  unfold process_message, process_try. simpl job_taskId.
  rewrite task_update_exists
    by (simpl; rewrite existsb_app; simpl; rewrite Hsel, orb_true_r;
        reflexivity).
  simpl job_deviceId. simpl job_data. rewrite Hsend.
  rewrite task_update_exists
    by (simpl; rewrite existsb_update_where;
        [rewrite existsb_app; simpl; rewrite Hsel, orb_true_r; reflexivity
        | reflexivity]).
  assert (Hfree : existsb (message_has_id newMessageId')
                    (messages w ++ [message]) = false).
  { rewrite existsb_app, Hfresh. simpl. unfold message_has_id.
    rewrite Hid, orb_false_r. apply String.eqb_neq. congruence. }
  match goal with
  | |- context [message_create later newMessageId' ?d ?w2] =>
      destruct (message_create_fresh later newMessageId' d w2
                  (sb_deviceId b) (sb_phoneNumber b) TEXT
                  eq_refl eq_refl eq_refl Hfree)
        as (m' & Hcreate & _ & Hm1 & Hm2 & Hm3 & Hm4);
      rewrite Hcreate
  end.
  simpl. split; [reflexivity|].
  rewrite (update_where_last _ _ _ _ Et Hsel).
  rewrite update_where_last; [|exact Et | exact Hsel].
  eexists. exists m'. split; [reflexivity|].
  split; [reflexivity|]. split; [reflexivity|].
  rewrite <- app_assoc. simpl.
  split; [reflexivity|]. repeat split; assumption.
Qed.

Lemma sendMessage_then_worker_witness :
  let w1 := snd (sendMessage (Ok tt) 50 "t5" "m5" "u1" Samples.send_body
                   Samples.empty_world) in
  let job := job_of "process-message"
               (default_task 50 "t5" "u1" "d1" MESSAGE 5
                  (send_data Samples.send_body)) (Some 0) in
  let out := process_message Scenario.send_ok 3 Scenario.post_succeeds 60
               "m6" job w1 in
  messageQueue w1 = [job]
  /\ fst out = Ok "{success: true}"
  /\ exists message m',
       messages (snd out) = [message; m']
       /\ m_status message = MSG_PENDING /\ m_status m' = SENT
       /\ m_content message = Some "hello" /\ m_content m' = None.
Proof.
  assert (Hneq : "m6" <> "m5") by discriminate.
  pose proof (sendMessage_then_worker Scenario.send_ok 3
                Scenario.post_succeeds (Ok tt) 50 60 "t5" "m5" "m6" "u1"
                Samples.send_body Samples.empty_world _ "{success: true}"
                eq_refl eq_refl eq_refl Hneq) as H.
  cbv zeta in H.
  destruct H as (H1 & H2 & t' & m' & _ & _ & _ & H6 & H7 & H8 & _ & _
                 & H11 & _ & H13).
  cbv zeta. split; [exact H1|]. split; [exact H2|].
  eexists. exists m'. split; [exact H6|].
  split; [exact H7|]. split; [exact H11|]. split; [exact H8 | exact H13].
Defined.




(** X23: [markAsRead] serves only an incoming message of the caller: for an id
    that names no such message, an outgoing one or one of another user,
    it answers 404 and changes nothing.  When it succeeds it flags the
    message read and stamps [readAt]; the status of the message stays
    what it was, no other message changes and no task does. *)
Theorem markAsRead_flags_without_status (now : Time) (userId messageId : Id)
  (w : World) :
  let out := markAsRead now userId messageId w in
  tasks (snd out) = tasks w
  /\ ((forall m, In m (messages w) -> m_id m = messageId ->
         m_userId m <> userId \/ m_direction m = OUTGOING) ->
      out = (Fail 404 "Message not found", w))
  /\ (forall m', fst out = Json_ 200 m' ->
        m_id m' = messageId /\ m_userId m' = userId
        /\ m_direction m' = INCOMING
        /\ m_isRead m' = true /\ m_readAt m' = Some now
        /\ Forall2 (fun o n =>
                      if (m_id o =? messageId)%string then
                        n = mark_read now o /\ m_status n = m_status o
                      else n = o)
             (messages w) (messages (snd out))).
Proof.
  cbv zeta. unfold markAsRead.
  destruct (find (own_incoming messageId userId) (messages w)) as [m|] eqn:Ef.
  - apply find_some in Ef as [Hin Ho]. unfold own_incoming in Ho.
    apply andb_true_iff in Ho as [Ho Hd].
    apply andb_true_iff in Ho as [Hi Hu].
    apply String.eqb_eq in Hi, Hu.
    split; [reflexivity|]. split.
    + intros H. exfalso. destruct (H m Hin Hi) as [H1|H1]; [contradiction|].
      rewrite H1 in Hd. discriminate.
    + intros m' [= <-]. simpl.
      split; [exact Hi|]. split; [exact Hu|].
      split; [destruct (m_direction m); [reflexivity | discriminate]|].
      split; [reflexivity|]. split; [reflexivity|].
      clear Hin. induction (messages w) as [|x l IH]; simpl; constructor;
        [|exact IH].
      unfold message_has_id. destruct (m_id x =? messageId)%string; auto.
  - split; [reflexivity|]. split; [reflexivity | discriminate].
Qed.

(** X24: A message a device reports over the socket is stored for the user of
    the socket as INCOMING, DELIVERED and unread, for whatever stored
    device the payload names.  Its owner can then mark it read, which
    leaves it DELIVERED; for any other user the same request answers 404
    and changes nothing. *)
Theorem incoming_then_markAsRead (now later : Time) (newId : Id)
  (data : Incoming) (socket : Socket) (w : World) (m : Message) :
  fst (incoming_message now newId data socket w) = Some m ->
  let w1 := snd (incoming_message now newId data socket w) in
  messages w1 = (messages w ++ [m])%list
  /\ m_id m = newId /\ m_userId m = sock_userId socket
  /\ in_deviceId data = Some (m_deviceId m)
  /\ m_direction m = INCOMING /\ m_status m = DELIVERED
  /\ m_isRead m = false
  /\ markAsRead later (sock_userId socket) newId w1
     = (Json_ 200 (mark_read later m),
        with_messages w1 (messages w ++ [mark_read later m]))
  /\ m_status (mark_read later m) = DELIVERED
  /\ (forall other, other <> sock_userId socket ->
        markAsRead later other newId w1
        = (Fail 404 "Message not found", w1)).
Proof.
  unfold incoming_message, message_create. simpl.
  destruct (in_deviceId data) as [d|]; simpl; [|discriminate].
  destruct (existsb (device_has_id d) (devices w)); simpl; [|discriminate].
  destruct (in_from data) as [from|]; [|discriminate].
  destruct (existsb (message_has_id newId) (messages w)) eqn:Em;
    simpl; [discriminate|].
  intros [= <-]. simpl.
  split; [reflexivity|]. split; [reflexivity|]. split; [reflexivity|].
  split; [reflexivity|]. split; [reflexivity|]. split; [reflexivity|].
  split; [reflexivity|].
  set (m := {| m_id := newId; m_userId := sock_userId socket;
               m_deviceId := d; m_taskId := None; m_phoneNumber := from;
               m_messageType := keep TEXT (in_messageType data);
               m_content := in_message data; m_mediaUrl := in_mediaUrl data;
               m_status := DELIVERED; m_direction := INCOMING;
               m_isRead := false; m_deliveredAt := Some now;
               m_readAt := None; m_error := None; m_metadata := None;
               m_createdAt := now; m_updatedAt := now |}).
  assert (Hid : message_has_id newId m = true)
    by (unfold message_has_id; simpl; apply String.eqb_refl).
  split; [|split; [reflexivity|]].
  - unfold markAsRead. simpl.
    rewrite (find_last (own_incoming newId (sock_userId socket))
               (messages w) m).
    + rewrite (update_where_last _ _ _ _ Em Hid). reflexivity.
    + apply (existsb_weaker _ (message_has_id newId)); [|exact Em].
      intros r Hr. unfold own_incoming in Hr.
      apply andb_true_iff in Hr as [Hr _].
      apply andb_true_iff in Hr as [Hr _]. exact Hr.
    + unfold own_incoming. simpl. rewrite !String.eqb_refl. reflexivity.
  - intros other Hother. unfold markAsRead. simpl.
    destruct (find (own_incoming newId other) (messages w ++ [m]))
      as [x|] eqn:Ef; [|reflexivity].
    exfalso. apply find_some in Ef as [Hin Ho].
    unfold own_incoming in Ho.
    apply andb_true_iff in Ho as [Ho _].
    apply andb_true_iff in Ho as [Hi Hu].
    apply in_app_or in Hin as [Hin|[<-|[]]].
    + assert (existsb (message_has_id newId) (messages w) = true)
        by (apply existsb_exists; exists x; auto).
      congruence.
    + simpl in Hu. apply String.eqb_eq in Hu. congruence.
Qed.

Lemma incoming_then_markAsRead_witness :
  let w1 := snd (incoming_message 100 "m9" Samples.incoming1 Samples.socket1
                   Samples.empty_world) in
  (exists m,
     fst (incoming_message 100 "m9" Samples.incoming1 Samples.socket1
            Samples.empty_world) = Some m
     /\ messages w1 = [m] /\ m_status m = DELIVERED
     /\ fst (markAsRead 200 "u1" "m9" w1) = Json_ 200 (mark_read 200 m))
  /\ markAsRead 200 "u2" "m9" w1 = (Fail 404 "Message not found", w1).
Proof.
  assert (Hneq : "u2" <> sock_userId Samples.socket1) by discriminate.
  pose proof (incoming_then_markAsRead 100 200 "m9" Samples.incoming1
                Samples.socket1 Samples.empty_world _ eq_refl) as H.
  cbv zeta in H.
  destruct H as (H1 & _ & _ & _ & _ & H6 & _ & H8 & _ & H10).
  cbv zeta. split.
  - eexists. split; [reflexivity|]. split; [exact H1|].
    split; [exact H6|]. exact (f_equal fst H8).
  - exact (H10 "u2" Hneq).
Defined.

End MessageMore.

(** ** Devices: polling, sockets and sessions *)

Module DeviceMore.
Import Js Store MobZapService MobZapSessions SocketHandlers Observe ObserveMore.
Import StoreFacts FetchFacts CancelFacts WorkerFacts RowFacts.

Lemma fetchTasks_devices now stamp newId userId dd w phone device w1 :
  or_else (phone_normal dd) (phone_business dd) = Some phone ->
  (phone =? "")%string = false ->
  find_or_register now newId userId phone dd w = Ok (device, w1) ->
  devices (snd (fetchTasks now stamp newId userId dd w)) = devices w1.
Proof.
  intros Hp He Hr. unfold fetchTasks. rewrite Hp, He, Hr.
  pose proof (claim_keeps_rest stamp
                (find_pending now userId (dev_id device) w1) w1)
    as (_ & Hd & _).
  destruct (promise_all _) as [l|e]; [|exact Hd].
  destruct (ids_for_cache l); exact Hd.
Qed.

Lemma fetchTasks_empty_batch now stamp newId userId dd w phone device w1 :
  or_else (phone_normal dd) (phone_business dd) = Some phone ->
  (phone =? "")%string = false ->
  find_or_register now newId userId phone dd w = Ok (device, w1) ->
  find_pending now userId (dev_id device) w1 = [] ->
  fst (fetchTasks now stamp newId userId dd w) = Ok [].
Proof.
  intros Hp He Hr Hb. unfold fetchTasks. rewrite Hp, He, Hr, Hb.
  reflexivity.
Qed.

(** X25: Polling keeps the device alive.  A request without a number is
    rejected and changes nothing.  When the caller has a device with the
    number of the request, that device is left ACTIVE, connected and seen
    at the time of the request, whatever its status was before and however
    the call ends: a poll re-activates a device that was INACTIVE, BANNED
    or DISCONNECTED; with no task pending for it the answer is the empty
    list.  A number that no stored device has is registered as a new
    ACTIVE, connected device of the caller under the drawn id, or, when
    that id is taken, rejected without a change.  A number stored only for
    other users makes the call reject and leaves the store unchanged. *)
Theorem fetchTasks_device_upkeep (now stamp : Time) (newId userId : Id)
  (dd : MobZapDevice) (w : World) :
  let out := fetchTasks now stamp newId userId dd w in
  let number := or_else (phone_normal dd) (phone_business dd) in
  let own phone d :=
    (dev_userId d =? userId)%string && (dev_phoneNumber d =? phone)%string in
  let stored phone d := (dev_phoneNumber d =? phone)%string in
  (number = None \/ number = Some "" ->
   out = (Throw "Phone number required", w))
  /\ (forall phone d,
        number = Some phone -> (phone =? "")%string = false ->
        find (own phone) (devices w) = Some d ->
        (exists d',
           In d' (devices (snd out)) /\ dev_id d' = dev_id d
           /\ dev_userId d' = userId /\ dev_phoneNumber d' = phone
           /\ dev_status d' = DEV_ACTIVE /\ dev_isConnected d' = true
           /\ dev_lastSeen d' = Some now)
        /\ List.length (devices (snd out)) = List.length (devices w)
        /\ (find_pending now userId (dev_id d) w = [] -> fst out = Ok []))
  /\ (forall phone,
        number = Some phone -> (phone =? "")%string = false ->
        existsb (stored phone) (devices w) = false ->
        if existsb (device_has_id newId) (devices w)
        then out = (Throw "Unique constraint failed on the fields: (id)", w)
        else exists d,
               devices (snd out) = (devices w ++ [d])%list
               /\ dev_id d = newId /\ dev_userId d = userId
               /\ dev_phoneNumber d = phone
               /\ dev_status d = DEV_ACTIVE /\ dev_isConnected d = true
               /\ dev_lastSeen d = Some now)
  /\ (forall phone,
        number = Some phone -> (phone =? "")%string = false ->
        find (own phone) (devices w) = None ->
        existsb (stored phone) (devices w) = true ->
        out = (Throw "Unique constraint failed on the fields: (phoneNumber)",
               w)).
Proof.
  cbv zeta. split; [|split; [|split]].
  - unfold fetchTasks. intros [->| ->]; reflexivity.
  - intros phone d Hp He Hf.
    assert (Hr : exists w1,
               find_or_register now newId userId phone dd w = Ok (d, w1)
               /\ tasks w1 = tasks w
               /\ List.length (devices w1) = List.length (devices w)
               /\ exists d',
                    In d' (devices w1) /\ dev_id d' = dev_id d
                    /\ dev_userId d' = userId /\ dev_phoneNumber d' = phone
                    /\ dev_status d' = DEV_ACTIVE
                    /\ dev_isConnected d' = true
                    /\ dev_lastSeen d' = Some now).
    { unfold find_or_register. rewrite Hf. eexists. split; [reflexivity|].
      simpl. split; [reflexivity|].
      split; [apply update_where_length|].
      apply find_some in Hf as [Hin Hm].
      apply andb_true_iff in Hm as [Hu Hph].
      apply String.eqb_eq in Hu, Hph.
      eexists. split.
      - apply (In_update_where (device_has_id (dev_id d))) with (r := d).
        exact Hin.
      - unfold device_has_id. rewrite String.eqb_refl. simpl.
        repeat split; congruence. }
    destruct Hr as (w1 & Hr & Ht & Hlen & Hd).
    rewrite (fetchTasks_devices _ _ _ _ _ _ _ _ _ Hp He Hr).
    split; [exact Hd|]. split; [exact Hlen|].
    intros Hb. apply (fetchTasks_empty_batch _ _ _ _ _ _ _ _ _ Hp He Hr).
    rewrite (find_pending_tasks _ _ _ _ _ Ht). exact Hb.
  - intros phone Hp He Hnone.
    assert (Hf : find (fun d => (dev_userId d =? userId)%string
                                && (dev_phoneNumber d =? phone)%string)
                   (devices w) = None).
    { destruct (find _ (devices w)) as [x|] eqn:Ef; [|reflexivity].
      apply find_some in Ef as [Hin Hm].
      apply andb_true_iff in Hm as [_ Hph].
      assert (existsb (fun d => (dev_phoneNumber d =? phone)%string)
                (devices w) = true)
        by (apply existsb_exists; exists x; auto).
      congruence. }
    destruct (existsb (device_has_id newId) (devices w)) eqn:Eid.
    + unfold fetchTasks, find_or_register.
      rewrite Hp, He, Hf, Hnone, Eid. reflexivity.
    + assert (Hr : exists d w1,
                 find_or_register now newId userId phone dd w = Ok (d, w1)
                 /\ devices w1 = (devices w ++ [d])%list
                 /\ dev_id d = newId /\ dev_userId d = userId
                 /\ dev_phoneNumber d = phone
                 /\ dev_status d = DEV_ACTIVE /\ dev_isConnected d = true
                 /\ dev_lastSeen d = Some now).
      { unfold find_or_register. rewrite Hf, Hnone, Eid.
        eexists. eexists. split; [reflexivity|]. repeat split. }
      destruct Hr as (d & w1 & Hr & Hdev & Hrest).
      exists d.
      rewrite (fetchTasks_devices _ _ _ _ _ _ _ _ _ Hp He Hr).
      split; [exact Hdev | exact Hrest].
  - intros phone Hp He Hf Hex. unfold fetchTasks, find_or_register.
    rewrite Hp, He, Hf, Hex. reflexivity.
Qed.

(** The first poll of an unknown number registers it; a poll by the known
    device [d1], which is stored as not connected, marks it connected and
    answers its pending tasks. *)
Lemma fetchTasks_device_upkeep_witness :
  let unknown :=
    {| phone_normal := Some "5511900001111"; phone_business := None;
       battery_level := None; is_charging := None; device_model := None |} in
  (exists d,
     devices (snd (fetchTasks 100 101 "d9" "u1" unknown
                     Samples.empty_world))
     = [Scenario.device1; d]
     /\ dev_id d = "d9" /\ dev_phoneNumber d = "5511900001111"
     /\ dev_isConnected d = true)
  /\ fst (fetchTasks 100 101 "d9" "u1" unknown Samples.empty_world) = Ok []
  /\ dev_isConnected Scenario.device1 = false
  /\ exists d',
       In d' (devices (snd (fetchTasks 100 101 "d9" "u1" Scenario.fetch_body
                              Scenario.three_tasks)))
       /\ dev_id d' = "d1" /\ dev_isConnected d' = true
       /\ dev_lastSeen d' = Some 100.
Proof.
  cbv zeta.
  pose proof (fetchTasks_device_upkeep 100 101 "d9" "u1"
                {| phone_normal := Some "5511900001111";
                   phone_business := None; battery_level := None;
                   is_charging := None; device_model := None |}
                Samples.empty_world) as H.
  pose proof (fetchTasks_device_upkeep 100 101 "d9" "u1" Scenario.fetch_body
                Scenario.three_tasks) as H'.
  cbv zeta in H, H'.
  destruct H as (_ & _ & Hnew & _). destruct H' as (_ & Hold & _).
  specialize (Hnew "5511900001111" eq_refl eq_refl eq_refl).
  simpl in Hnew. destruct Hnew as (d & H1 & H2 & _ & H4 & _ & H6 & _).
  destruct (Hold "5511999887766" Scenario.device1 eq_refl eq_refl eq_refl)
    as ((d' & Hin & Hid & _ & _ & _ & Hc & Hs) & _).
  split; [exists d; auto|]. split; [reflexivity|]. split; [reflexivity|].
  exists d'. auto.
Defined.

(** X26: A socket can register only a device of its own user: for any other
    device id the handler answers "Device not found" and leaves the socket
    and the store as they were.  After a registration the device is
    connected; when the socket then disconnects, the device is marked not
    connected and its [lastSeen] is the time of the disconnect, while its
    status, and every other device, stay as they were. *)
Theorem register_then_disconnect (now later : Time) (deviceId : Id)
  (socket : Socket) (w : World) :
  let out := register_device now deviceId socket w in
  ((forall d, In d (devices w) -> dev_id d = deviceId ->
              dev_userId d <> sock_userId socket) ->
   out = (RegisteredFailed "Device not found", socket, w)
   /\ (sock_deviceId socket = None -> disconnect later socket w = w))
  /\ (forall id, fst (fst out) = RegisteredOk id ->
        id = deviceId
        /\ sock_deviceId (snd (fst out)) = Some deviceId
        /\ sock_userId (snd (fst out)) = sock_userId socket
        /\ Forall2 (fun o n =>
                      n = if (dev_id o =? deviceId)%string
                          then seen true now o else o)
             (devices w) (devices (snd out))
        /\ Forall2 (fun o n =>
                      if (dev_id o =? deviceId)%string then
                        n = seen false later o
                        /\ dev_isConnected n = false
                        /\ dev_lastSeen n = Some later
                        /\ dev_status n = dev_status o
                      else n = o)
             (devices w)
             (devices (disconnect later (snd (fst out)) (snd out)))).
Proof.
  cbv zeta. unfold register_device.
  destruct (find _ (devices w)) as [d|] eqn:Ef.
  - apply find_some in Ef as [Hin Hm].
    apply andb_true_iff in Hm as [Hi Hu]. apply String.eqb_eq in Hi, Hu.
    split.
    + intros H. exfalso. apply (H d Hin Hi Hu).
    + intros id [= <-]. simpl.
      split; [reflexivity|]. split; [reflexivity|]. split; [reflexivity|].
      split; [apply update_where_rows|].
      unfold disconnect, update_or_throw. simpl.
      assert (Hex : existsb (device_has_id deviceId)
                      (update_where (device_has_id deviceId) (seen true now)
                         (devices w)) = true).
      { rewrite existsb_update_where by reflexivity.
        apply existsb_exists. exists d. split; [exact Hin|].
        unfold device_has_id. rewrite Hi. apply String.eqb_refl. }
      rewrite Hex. simpl.
      rewrite (update_where_twice (device_has_id deviceId) (seen true now)
                 (seen false later) (devices w) (fun _ => eq_refl)).
      clear. induction (devices w) as [|x l IH]; simpl; constructor;
        [|exact IH].
      unfold device_has_id. destruct (dev_id x =? deviceId)%string;
        [repeat split | reflexivity].
  - split; [|discriminate].
    intros _. split; [reflexivity|].
    intros Hs. unfold disconnect. rewrite Hs. reflexivity.
Qed.

Lemma cleanup_ok now entries w sessions' w' :
  cleanup_loop now entries w = (Ok tt, sessions', w') ->
  sessions' = filter (fun e => negb (stale now (snd e))) entries
  /\ devices w' = update_where (expired now entries) disconnected (devices w)
  /\ tasks w' = tasks w /\ messages w' = messages w.
Proof.
  revert w sessions' w'.
  induction entries as [|[deviceId session] rest IH]; intros w sessions' w';
    simpl.
  - intros [= <- <-]. repeat split.
    unfold update_where. simpl. symmetry. apply map_id.
  - destruct (stale now session) eqn:Es; simpl.
    + unfold update_or_throw.
      destruct (existsb (device_has_id deviceId) (devices w));
        [|discriminate].
      intros H. apply IH in H as (-> & Hd & Ht & Hm). simpl in *.
      split; [reflexivity|]. split; [|auto].
      rewrite Hd.
      rewrite (update_where_or (device_has_id deviceId) (expired now rest)
                 disconnected (devices w));
        [|reflexivity | reflexivity].
      unfold update_where. apply map_ext. intros d.
      change (expired now ((deviceId, session) :: rest) d)
        with (has_key (dev_id d) (deviceId, session) && stale now session
              || expired now rest d).
      assert (Hk : has_key (dev_id d) (deviceId, session)
                   = device_has_id deviceId d)
        by (unfold has_key, device_has_id; simpl; apply String.eqb_sym).
      rewrite Hk, Es, andb_true_r. reflexivity.
    + destruct (cleanup_loop now rest w) as [[r kept] w1] eqn:E.
      intros [= -> <- <-].
      apply IH in E as (-> & Hd & Ht & Hm).
      split; [reflexivity|]. split; [|auto].
      rewrite Hd. unfold update_where. apply map_ext. intros d.
      change (expired now ((deviceId, session) :: rest) d)
        with (has_key (dev_id d) (deviceId, session) && stale now session
              || expired now rest d).
      rewrite Es, andb_false_r. reflexivity.
Qed.

Lemma cleanup_keeps now entries w e :
  In e entries -> stale now (snd e) = false ->
  In e (snd (fst (cleanup_loop now entries w))).
Proof.
  revert w. induction entries as [|[deviceId session] rest IH]; intros w;
    simpl; [intros []|].
  intros [<-|Hin] Hs.
  - simpl in Hs. rewrite Hs.
    destruct (cleanup_loop now rest w) as [[r kept] w1]. simpl. auto.
  - destruct (stale now session).
    + destruct (update_or_throw _ _ _); [apply IH; assumption|].
      simpl. exact Hin.
    + specialize (IH w Hin Hs).
      destruct (cleanup_loop now rest w) as [[r kept] w1]. simpl in *. auto.
Qed.

Lemma cleanup_subset now entries w e :
  In e (snd (fst (cleanup_loop now entries w))) -> In e entries.
Proof.
  revert w. induction entries as [|[deviceId session] rest IH]; intros w;
    simpl; [intros []|].
  destruct (stale now session).
  - destruct (update_or_throw _ _ _); [|simpl; auto].
    intros H. right. eapply IH, H.
  - specialize (IH w).
    destruct (cleanup_loop now rest w) as [[r kept] w1]. simpl in *.
    intros [<-|H]; auto.
Qed.

Lemma cleanup_throws now entries w msg :
  fst (fst (cleanup_loop now entries w)) = Throw msg ->
  exists e, In e entries /\ stale now (snd e) = true
            /\ existsb (device_has_id (fst e)) (devices w) = false.
Proof.
  revert w. induction entries as [|[deviceId session] rest IH]; intros w;
    simpl; [discriminate|].
  destruct (stale now session) eqn:Es.
  - unfold update_or_throw.
    destruct (existsb (device_has_id deviceId) (devices w)) eqn:Ex.
    + intros H. apply IH in H as (e & Hin & Hs & Hno). simpl in Hno.
      rewrite existsb_update_where_other in Hno by reflexivity.
      exists e. auto.
    + intros _. exists (deviceId, session). simpl. auto.
  - specialize (IH w).
    destruct (cleanup_loop now rest w) as [[r kept] w1]. simpl in *.
    intros H. apply IH in H as (e & Hin & Hs & Hno). exists e. auto.
Qed.

(** X27: [cleanupInactiveSessions] drops the sessions not seen for more than
    ten minutes and nothing else: a session seen ten minutes ago or less
    is always kept, and no session appears that was not there.  When the
    run completes, exactly the stale sessions are gone and exactly the
    devices they name are marked INACTIVE and not connected; tasks and
    messages are untouched.  The run rejects only when a stale session
    names a device that is not stored. *)
Theorem cleanup_drops_exactly_stale (now : Time) (sessions : Sessions)
  (w : World) :
  let out := cleanupInactiveSessions now sessions w in
  (forall e, In e sessions ->
     now - s_lastSeen (snd e) <= 10 * 60 * 1000 ->
     In e (snd (fst out)))
  /\ (forall e, In e (snd (fst out)) -> In e sessions)
  /\ (fst (fst out) = Ok tt ->
      snd (fst out) = filter (fun e => negb (stale now (snd e))) sessions
      /\ Forall2 (fun o n =>
                    n = if expired now sessions o then disconnected o else o)
           (devices w) (devices (snd out))
      /\ tasks (snd out) = tasks w /\ messages (snd out) = messages w)
  /\ (forall msg, fst (fst out) = Throw msg ->
        exists e, In e sessions
                  /\ 10 * 60 * 1000 < now - s_lastSeen (snd e)
                  /\ existsb (device_has_id (fst e)) (devices w) = false).
Proof.
  cbv zeta. unfold cleanupInactiveSessions. split; [|split; [|split]].
  - intros e Hin Hfresh. apply cleanup_keeps; [exact Hin|].
    unfold stale, inactiveThreshold. apply Z.ltb_ge. exact Hfresh.
  - intros e. apply cleanup_subset.
  - intros Hok.
    destruct (cleanup_loop now sessions w) as [[r kept] w1] eqn:E.
    simpl in *. subst r.
    apply cleanup_ok in E as (-> & Hd & Ht & Hm).
    split; [reflexivity|]. split; [|auto].
    rewrite Hd. apply update_where_rows.
  - intros msg H. apply cleanup_throws in H as (e & Hin & Hs & Hno).
    exists e. split; [exact Hin|]. split; [|exact Hno].
    unfold stale, inactiveThreshold in Hs. apply Z.ltb_lt in Hs. exact Hs.
Qed.

Lemma find_set_session deviceId s m :
  find (has_key deviceId) (set_session deviceId s m) = Some (deviceId, s).
Proof.
  induction m as [|e r IH]; simpl.
  - unfold has_key. simpl. rewrite String.eqb_refl. reflexivity.
  - destruct (has_key deviceId e) eqn:E; simpl.
    + unfold has_key. simpl. rewrite String.eqb_refl. reflexivity.
    + rewrite E. exact IH.
Qed.

Lemma cleanup_find now entries w deviceId e :
  find (has_key deviceId) entries = Some e -> stale now (snd e) = false ->
  find (has_key deviceId) (snd (fst (cleanup_loop now entries w))) = Some e.
Proof.
  revert w. induction entries as [|[d session] rest IH]; intros w; simpl;
    [discriminate|].
  destruct (has_key deviceId (d, session)) eqn:Ek.
  - intros [= <-] Hs. simpl in Hs. rewrite Hs.
    destruct (cleanup_loop now rest w) as [[r kept] w1]. simpl.
    rewrite Ek. reflexivity.
  - intros Hf Hs. destruct (stale now session).
    + destruct (update_or_throw _ _ _); [apply IH; assumption|].
      simpl. exact Hf.
    + specialize (IH w Hf Hs).
      destruct (cleanup_loop now rest w) as [[r kept] w1]. simpl in *.
      rewrite Ek. exact IH.
Qed.

(** X28: A session that was written at most ten minutes before the cleanup
    runs is still the session of its device afterwards, whatever other
    sessions the map holds and however the cleanup ends; writing a
    session replaces the one the device had. *)
Theorem fresh_session_survives_cleanup (now : Time) (deviceId : Id)
  (s : Session) (sessions : Sessions) (w : World) :
  now - s_lastSeen s <= 10 * 60 * 1000 ->
  get_session deviceId (set_session deviceId s sessions) = Some s
  /\ get_session deviceId
       (snd (fst (cleanupInactiveSessions now
                    (set_session deviceId s sessions) w)))
     = Some s.
Proof.
  intros Hfresh. unfold get_session, cleanupInactiveSessions.
  rewrite find_set_session. split; [reflexivity|].
  rewrite (cleanup_find now _ w deviceId (deviceId, s)).
  - reflexivity.
  - apply find_set_session.
  - unfold stale, inactiveThreshold. simpl. apply Z.ltb_ge. exact Hfresh.
Qed.

Lemma fresh_session_survives_cleanup_witness :
  1000000 - s_lastSeen Samples.session1 <= 10 * 60 * 1000
  /\ fst (fst (cleanupInactiveSessions 1000000
                 (set_session "d1" Samples.session1
                    [("d2", Samples.session_old)])
                 Samples.empty_world))
     = Throw "Record to update not found"
  /\ get_session "d1"
       (snd (fst (cleanupInactiveSessions 1000000
                    (set_session "d1" Samples.session1
                       [("d2", Samples.session_old)])
                    Samples.empty_world)))
     = Some Samples.session1.
Proof.
  assert (H : 1000000 - s_lastSeen Samples.session1 <= 10 * 60 * 1000)
    by (simpl; lia).
  split; [exact H|]. split; [reflexivity|].
  exact (proj2 (fresh_session_survives_cleanup 1000000 "d1" Samples.session1
                  [("d2", Samples.session_old)] Samples.empty_world H)).
Defined.

End DeviceMore.

(** ** The auto-responder and the chat ids *)

Module ResponderMore.
Import Js Phone Store MobZapService MobZapSessions WhatsAppWeb Observe.
Import ObserveMore StoreFacts PhoneFacts RowFacts.

Section Responder.
Variable toLowerCase : string -> string.
Variable regex_test : string -> string -> Res bool.

Let matched (content : option string) (r : Rule) : Res bool :=
  matchRule toLowerCase regex_test content r.

Lemma first_match_found content rules rule :
  first_match toLowerCase regex_test content rules = Ok (Some rule) ->
  exists before after,
    rules = (before ++ rule :: after)%list
    /\ Forall (fun r => matched content r = Ok false) before
    /\ matched content rule = Ok true.
Proof.
  unfold matched.
  induction rules as [|r rest IH]; simpl; [discriminate|].
  destruct (matchRule toLowerCase regex_test content r) as [[|]|e] eqn:E.
  - intros [= <-]. exists [], rest. repeat split; [constructor | exact E].
  - intros H. apply IH in H as (before & after & -> & Hb & Hm).
    exists (r :: before), after. repeat split; [constructor; assumption|].
    exact Hm.
  - discriminate.
Qed.

Lemma first_match_first content before rule after :
  Forall (fun r => matched content r = Ok false) before ->
  matched content rule = Ok true ->
  first_match toLowerCase regex_test content (before ++ rule :: after)
  = Ok (Some rule).
Proof.
  unfold matched. intros Hb Hm.
  induction Hb as [|r rest Hr _ IH]; simpl.
  - rewrite Hm. reflexivity.
  - rewrite Hr. exact IH.
Qed.

Lemma first_match_none content rules :
  Forall (fun r => matched content r = Ok false) rules ->
  first_match toLowerCase regex_test content rules = Ok None.
Proof.
  unfold matched. induction 1 as [|r rest Hr _ IH]; simpl; [reflexivity|].
  rewrite Hr. exact IH.
Qed.

Lemma first_match_throws content before bad after e :
  Forall (fun r => matched content r = Ok false) before ->
  matched content bad = Throw e ->
  first_match toLowerCase regex_test content (before ++ bad :: after)
  = Throw e.
Proof.
  unfold matched. intros Hb Hm.
  induction Hb as [|r rest Hr _ IH]; simpl.
  - rewrite Hm. reflexivity.
  - rewrite Hr. exact IH.
Qed.

(** X29: The auto-responder answers a message with exactly the first rule
    that matches.  With a cached configuration that is enabled and has
    rules, when the rules before some rule do not match and that rule
    does, the drawn id is free and the device is stored, one task is added
    for it: PENDING, of type MESSAGE and priority 8, for the receiving
    device, addressed to the sender with the response of that rule.  In no
    other situation does anything change: not without a configuration,
    with a disabled one or one without rules, not when no rule matches,
    and not when matching throws before a rule matched.  The task is not
    handed to a queue, and only the task table ever changes. *)
Theorem autoresponder_answers_first_match (now : Time) (newId : Id)
  (cached : option AutoResponder) (userId deviceId : Id) (message : Message)
  (w : World) :
  let w' := checkAutoResponder toLowerCase regex_test now newId cached userId
              deviceId message w in
  let answered rule :=
    with_tasks w
      (tasks w ++ [reply_task now newId userId deviceId message rule]) in
  (forall a before rule after,
     cached = Some a -> ar_enabled a = true ->
     ar_rules a = Some (before ++ rule :: after)%list ->
     Forall (fun r => matched (m_content message) r = Ok false) before ->
     matched (m_content message) rule = Ok true ->
     existsb (task_has_id newId) (tasks w) = false ->
     existsb (device_has_id deviceId) (devices w) = true ->
     w' = answered rule
     /\ t_status (reply_task now newId userId deviceId message rule) = PENDING
     /\ t_type (reply_task now newId userId deviceId message rule) = MESSAGE
     /\ t_priority (reply_task now newId userId deviceId message rule) = 8
     /\ t_deviceId (reply_task now newId userId deviceId message rule)
        = Some deviceId
     /\ data_phoneNumber
          (t_data (reply_task now newId userId deviceId message rule))
        = Some (JStr (m_phoneNumber message))
     /\ data_message
          (t_data (reply_task now newId userId deviceId message rule))
        = Some (rule_response rule))
  /\ (w' <> w ->
      exists a before rule after,
        cached = Some a /\ ar_enabled a = true
        /\ ar_rules a = Some (before ++ rule :: after)%list
        /\ Forall (fun r => matched (m_content message) r = Ok false) before
        /\ matched (m_content message) rule = Ok true
        /\ existsb (task_has_id newId) (tasks w) = false
        /\ existsb (device_has_id deviceId) (devices w) = true
        /\ w' = answered rule)
  /\ (forall a rules,
        cached = Some a -> ar_rules a = Some rules ->
        Forall (fun r => matched (m_content message) r = Ok false) rules ->
        w' = w)
  /\ (forall a before bad after e,
        cached = Some a ->
        ar_rules a = Some (before ++ bad :: after)%list ->
        Forall (fun r => matched (m_content message) r = Ok false) before ->
        matched (m_content message) bad = Throw e ->
        w' = w)
  /\ messageQueue w' = messageQueue w /\ mediaQueue w' = mediaQueue w
  /\ groupQueue w' = groupQueue w /\ messages w' = messages w
  /\ devices w' = devices w.
Proof.
  cbv zeta. unfold checkAutoResponder. split; [|split; [|split; [|split]]].
  - intros a before rule after -> -> -> Hb Hm Hfree Hdev.
    rewrite (first_match_first _ _ _ _ Hb Hm), Hfree, Hdev. simpl.
    repeat split.
  - intros Hchanged.
    destruct cached as [a|]; [|congruence].
    destruct (ar_enabled a) eqn:Een; [|congruence].
    destruct (ar_rules a) as [rules|] eqn:Er; [|congruence].
    destruct (first_match toLowerCase regex_test (m_content message) rules)
      as [[rule|]|e] eqn:Ef; try congruence.
    destruct (existsb (task_has_id newId) (tasks w)) eqn:Efree;
      [simpl in Hchanged; congruence|].
    destruct (existsb (device_has_id deviceId) (devices w)) eqn:Edev;
      [|simpl in Hchanged; congruence].
    apply first_match_found in Ef as (before & after & -> & Hb & Hm).
    exists a, before, rule, after. simpl. repeat split; auto.
  - intros a rules -> -> Hnone.
    rewrite (first_match_none _ _ Hnone).
    destruct (ar_enabled a); reflexivity.
  - intros a before bad after e -> -> Hb Hm.
    rewrite (first_match_throws _ _ _ _ _ Hb Hm).
    destruct (ar_enabled a); reflexivity.
  - destruct cached as [a|]; [|repeat split].
    destruct (ar_enabled a); [|repeat split].
    destruct (ar_rules a) as [rules|]; [|repeat split].
    destruct (first_match toLowerCase regex_test (m_content message) rules)
      as [[rule|]|e]; try (repeat split; fail).
    destruct (existsb (task_has_id newId) (tasks w)
              || negb (existsb (device_has_id deviceId) (devices w)));
      repeat split.
Qed.

End Responder.

(** The price question is answered with the second rule: the greeting
    does not match it. *)
Lemma autoresponder_answers_first_match_witness :
  let w' := checkAutoResponder Samples.ascii_lower Samples.no_pattern 200
              "t9" (Some Samples.responder1) "u1" "d1"
              Samples.price_question Samples.empty_world in
  matchRule Samples.ascii_lower Samples.no_pattern
    (m_content Samples.price_question) Samples.greeting_rule = Ok false
  /\ matchRule Samples.ascii_lower Samples.no_pattern
       (m_content Samples.price_question) Samples.price_rule = Ok true
  /\ tasks w'
     = [reply_task 200 "t9" "u1" "d1" Samples.price_question
          Samples.price_rule]
  /\ messageQueue w' = [].
Proof.
  assert (H1 : matchRule Samples.ascii_lower Samples.no_pattern
                 (m_content Samples.price_question) Samples.greeting_rule
               = Ok false) by reflexivity.
  assert (H2 : matchRule Samples.ascii_lower Samples.no_pattern
                 (m_content Samples.price_question) Samples.price_rule
               = Ok true) by reflexivity.
  pose proof (autoresponder_answers_first_match Samples.ascii_lower
                Samples.no_pattern 200 "t9" (Some Samples.responder1) "u1"
                "d1" Samples.price_question Samples.empty_world) as H.
  cbv zeta in H. destruct H as (Hfirst & _ & _ & _ & Hq & _).
  destruct (Hfirst Samples.responder1
              [Samples.greeting_rule] Samples.price_rule []
              eq_refl eq_refl eq_refl
              (Forall_cons _ H1 (Forall_nil _)) H2 eq_refl eq_refl)
    as (Hw & _).
  cbv zeta. split; [exact H1|]. split; [exact H2|].
  split; [rewrite Hw; reflexivity | exact Hq].
Defined.

Lemma includes_at_digits (s : string) :
  all_digits s = true -> includes s "@" = false.
Proof.
  induction s as [|c r IH]; [reflexivity|].
  cbn [all_digits includes String.prefix].
  intros H. apply andb_prop in H as [Hc Hr]. rewrite (IH Hr).
  destruct (ascii_dec "@" c) as [<-|_]; [discriminate Hc | reflexivity].
Qed.

Lemma strip_app (s t : string) :
  strip_non_digits (s ++ t) = (strip_non_digits s ++ strip_non_digits t)%string.
Proof.
  induction s as [|c r IH]; simpl; [reflexivity|].
  destruct (is_digit c); simpl; rewrite IH; reflexivity.
Qed.

(** X30: [formatChatId] always answers the digits of its argument followed by
    ["@c.us"]: after the non-digits are removed no ["@"] is left, so the
    test for an existing suffix never holds and a group id cannot pass
    through.  Formatting an id again gives the same id. *)
Theorem formatChatId_always_individual (phoneNumber : string) :
  formatChatId phoneNumber = (strip_non_digits phoneNumber ++ "@c.us")%string
  /\ formatChatId (formatChatId phoneNumber) = formatChatId phoneNumber.
Proof.
  assert (H : forall p,
            formatChatId p = (strip_non_digits p ++ "@c.us")%string).
  { intros p. unfold formatChatId.
    rewrite (includes_at_digits _ (strip_all_digits p)). reflexivity. }
  split; [apply H|].
  rewrite !H, strip_app. simpl.
  rewrite (strip_fixes_digits _ (strip_all_digits phoneNumber)).
  f_equal. induction (strip_non_digits phoneNumber) as [|c r IH];
    simpl; [reflexivity | rewrite IH; reflexivity].
Qed.

(** A delivery acknowledgement reaches only the messages that carry the
    provider's message id in their metadata.  A message as
    [prisma.message.create] stores it has no metadata, so the rows written
    by [sendMessage], the queue worker, [updateTaskStatus] and the socket
    are never updated by [updateMessageStatus]; on the rows it does reach
    it writes the status alone, FAILED for every acknowledgement code
    other than 0 to 3. *)
Theorem ack_skips_created_messages (now : Time) (newId : Id)
  (d : MessageInput) (w : World) (m : Message) (w' : World)
  (remoteId : string) (ack : Z) :
  message_create now newId d w = Ok (m, w') ->
  messages (updateMessageStatus remoteId ack w')
  = (messages (updateMessageStatus remoteId ack w) ++ [m])%list
  /\ Forall2 (fun o n =>
                n = o
                \/ (has_remote_id remoteId o = true
                    /\ n = set_status (ack_status ack) o
                    /\ m_deliveredAt n = m_deliveredAt o
                    /\ m_readAt n = m_readAt o
                    /\ (ack < 0 \/ 3 < ack -> m_status n = MSG_FAILED)))
       (messages w) (messages (updateMessageStatus remoteId ack w)).
Proof.
  intros Hc. split.
  - unfold message_create in Hc.
    destruct (mi_deviceId d); [|discriminate].
    destruct (mi_phoneNumber d); [|discriminate].
    destruct (mi_messageType d); [|discriminate].
    destruct (existsb _ (messages w)); [discriminate|].
    injection Hc as <- <-. unfold updateMessageStatus. simpl.
    rewrite update_where_app. reflexivity.
  - unfold updateMessageStatus. simpl. clear Hc.
    induction (messages w) as [|x l IH]; simpl; constructor; [|exact IH].
    destruct (has_remote_id remoteId x) eqn:E; [|left; reflexivity].
    right. split; [reflexivity|]. split; [reflexivity|].
    split; [reflexivity|]. split; [reflexivity|].
    intros Hack. simpl. unfold ack_status.
    destruct (ack =? 0) eqn:E0; [apply Z.eqb_eq in E0; lia|].
    destruct (ack =? 1) eqn:E1; [apply Z.eqb_eq in E1; lia|].
    destruct (ack =? 2) eqn:E2; [apply Z.eqb_eq in E2; lia|].
    destruct (ack =? 3) eqn:E3; [apply Z.eqb_eq in E3; lia|].
    reflexivity.
Qed.

End ResponderMore.
